(** * Spend admission and kill switch of the agent cost tracker

    A shallow embedding of the request path that records usage events
    (routes/usage.js), the budget middleware (middleware/agentBudget.js),
    the Redis spend cache (config/redis.js), the kill-switch routes
    (routes/killswitch.js), the SQL function [is_agent_active] of the
    kill-switch schema, the budget routes of routes/agents.js and the
    background monitor (services/kill-switch-monitor.js).

    Conventions of the model.
    - PostgreSQL tables are lists of rows in insertion order; an
      [UPDATE ... WHERE c] maps over the rows, a [SELECT ... WHERE c]
      filters them and [rows[0]] is the head of the result.
    - UUIDs are natural numbers; [gen_random_uuid()] is a number that
      does not occur in the table yet.
    - Amounts of money are integers counted in millionths of a dollar,
      the resolution of the DECIMAL(_, 6) columns of the ledger; the
      comparison of the budget check is exact, where the code compares
      doubles (see [enforceAgentBudget]).
    - Timestamps are milliseconds since the Unix epoch, within the
      range of a TIMESTAMP column; every operation takes the reading
      [now] of the clock at which it runs.
    - A text is a string with one element for each character, none of
      them the character of code 0 (which no text column stores), so
      that [String.length] is the length that a VARCHAR column counts.
    - Every request carries the id of the authenticated user
      ([req.user.id]); authentication itself is outside the model, and so
      is the loss of the PostgreSQL connection.
    - A query runs on its own unless the code opens a transaction: an
      INSERT that a column refuses (a text longer than its VARCHAR, a
      number outside its DECIMAL or INTEGER) throws, the route answers
      500, and what the queries before it wrote stays written.
    - Redis either serves a command or refuses it with an error, which
      config/redis.js catches and turns into an ordinary return value.
      A client that has lost its connection queues the commands instead
      and their promises do not settle; such a request has no answer
      and is not a run of the model.
    - A request is served in one piece.  The spend check of the
      middleware is also given command by command ([spend_check_step],
      [interleave]), which is where the commands of two requests can
      alternate. *)

From stdpp Require Import gmap strings list fin_maps pretty.
From Stdlib Require Import ZArith Lia.

Open Scope string_scope.
Open Scope list_scope.
Open Scope Z_scope.

(** ** Time and money *)

Definition usd (dollars : Z) : Z := dollars * 1000000.

Definition minutes_ms (n : Z) : Z := n * 60000.

(** The calendar month (UTC) of a timestamp, as [12 * year + (month - 1)].
    It stands for [new Date().toISOString().slice(0, 7)] in config/redis.js
    and for [DATE_TRUNC('month', _)] in the SQL of the budget middleware. *)
Definition month_of (t : Z) : Z :=
  let z := t / 86400000 + 719468 in
  let era := z / 146097 in
  let doe := z - era * 146097 in
  let yoe := (doe - doe / 1460 + doe / 36524 - doe / 146096) / 365 in
  let doy := doe - (365 * yoe + yoe / 4 - yoe / 100) in
  let mp := (5 * doy + 2) / 153 in
  let m := if mp <? 10 then mp + 3 else mp - 9 in
  let y := yoe + era * 400 + (if m <=? 2 then 1 else 0) in
  12 * y + (m - 1).

(** ** Tables *)

Inductive agent_status := active | paused | killed.

#[global] Instance agent_status_eq_dec : EqDecision agent_status.
Proof. solve_decision. Defined.

(** [agents], with the columns of schema.sql, of migration 001
    (monthly_cost_limit, is_suspended) and of the kill-switch schema
    (status, kill_reason, killed_at, killed_by, pause_until).  The columns
    description, metadata, created_at and updated_at are left out: no
    query of the model reads them.  Every UPDATE of a row sets its
    [updated_at], so that an equality of rows in the model is an equality
    of all columns but that one. *)
Module agents.
Record row := mk {
  id : nat;
  user_id : nat;
  agent_id : string;
  agent_name : string;
  is_suspended : bool;
  monthly_cost_limit : option Z;
  status : agent_status;
  kill_reason : option string;
  killed_at : option Z;
  killed_by : option nat;
  pause_until : option Z
}.
End agents.

Module customers.
Record row := mk {
  id : nat;
  user_id : nat;
  customer_id : string;
  customer_name : string
}.
End customers.

(** [usage_events], the ledger.  Of the JSONB column [metadata] the model
    keeps the two keys that the monitor reads. *)
Module usage_events.
Record row := mk {
  id : nat;
  user_id : nat;
  customer_id : nat;
  agent_id : nat;
  event_name : string;
  vendor : string;
  model : option string;
  cost_amount : Z;
  cost_currency : string;
  input_tokens : option Z;
  output_tokens : option Z;
  total_tokens : Z;
  request_hash : option string;
  error : option string;
  created_at : Z;
  event_timestamp : Z
}.
End usage_events.

(** [kill_switch_events], the audit table (its metadata column is left
    out). *)
Module kill_switch_events.
Record row := mk {
  event_type : string;
  target_type : string;
  target_id : option string;
  user_id : nat;
  triggered_by : string;
  reason : string;
  created_at : Z
}.
End kill_switch_events.

(** The single row of [global_kill_switch]. *)
Module global_kill_switch.
Record row := mk {
  is_emergency_stopped : bool;
  stopped_at : option Z;
  stopped_by : option nat;
  stop_reason : option string
}.
End global_kill_switch.

Record Database := mkDatabase {
  agents : list agents.row;
  customers : list customers.row;
  usage_events : list usage_events.row;
  kill_switch_events : list kill_switch_events.row;
  global_kill_switch : global_kill_switch.row
}.

Definition with_agents (l : list agents.row) (d : Database) : Database :=
  mkDatabase l (customers d) (usage_events d) (kill_switch_events d)
    (global_kill_switch d).

Definition with_customers (l : list customers.row) (d : Database) : Database :=
  mkDatabase (agents d) l (usage_events d) (kill_switch_events d)
    (global_kill_switch d).

Definition with_usage_events (l : list usage_events.row) (d : Database)
  : Database :=
  mkDatabase (agents d) (customers d) l (kill_switch_events d)
    (global_kill_switch d).

Definition with_kill_switch_events (l : list kill_switch_events.row)
  (d : Database) : Database :=
  mkDatabase (agents d) (customers d) (usage_events d) l
    (global_kill_switch d).

Definition with_global_kill_switch (g : global_kill_switch.row)
  (d : Database) : Database :=
  mkDatabase (agents d) (customers d) (usage_events d) (kill_switch_events d)
    g.

(** A number that is not the id of any row. *)
Definition fresh_id (ids : list nat) : nat := S (foldr Nat.max 0%nat ids).

(** [UPDATE agents SET ... WHERE c]. *)
Definition update_agents (c : agents.row -> bool)
  (f : agents.row -> agents.row) (d : Database) : Database :=
  with_agents (map (fun r => if c r then f r else r) (agents d)) d.

(** Redis: whether it carries the commands out or refuses them with an
    error, which the client throws (the same for all the commands of one
    request), and the hashes [agent_spend_<month>] as one map from
    (month, agent id) to the amount.  While the client has no connection
    it keeps the commands in its queue and their promises do not settle:
    a request that waits for such a command is never answered, and is not
    a run of the model. *)
Record Redis := mkRedis {
  redis_up : bool;
  agent_spend : gmap (Z * string) Z
}.

Record World := mkWorld {
  db : Database;
  redis : Redis
}.

Definition with_db (d : Database) (w : World) : World := mkWorld d (redis w).

Definition with_redis (r : Redis) (w : World) : World := mkWorld (db w) r.

(** ** config/redis.js *)

(** [incrementAgentSpend(agentId, costAmount)]: HINCRBYFLOAT on the hash
    of the current month; [false] when Redis refuses the command and the
    client throws.  The expiry of 35 days that it sets only ever removes
    the hash of a month that is over, which no later call reads. *)
Definition incrementAgentSpend (now : Z) (agentId : string) (costAmount : Z)
  (r : Redis) : Redis * bool :=
  if redis_up r then
    let key := (month_of now, agentId) in
    let old := default 0 (agent_spend r !! key) in
    (mkRedis (redis_up r) (<[key := old + costAmount]> (agent_spend r)), true)
  else (r, false).

(** [getAgentSpend(agentId)]: [parseFloat(spend) || 0], and 0 when Redis
    refuses the command and the client throws. *)
Definition getAgentSpend (now : Z) (agentId : string) (r : Redis) : Z :=
  if redis_up r then
    match agent_spend r !! (month_of now, agentId) with
    | Some spend => spend
    | None => 0
    end
  else 0.

(** ** The SQL function is_agent_active *)

Definition agent_by_id_user (p_agent_id p_user_id : nat) (d : Database)
  : option agents.row :=
  head (filter (fun r => agents.id r = p_agent_id
                         /\ agents.user_id r = p_user_id)
          (agents d)).

Definition unpause (r : agents.row) : agents.row :=
  agents.mk (agents.id r) (agents.user_id r) (agents.agent_id r)
    (agents.agent_name r) (agents.is_suspended r)
    (agents.monthly_cost_limit r) active (agents.kill_reason r)
    (agents.killed_at r) (agents.killed_by r) None.

(** [pause_until > NOW()] and [pause_until <= NOW()]; both are not true
    when the column is NULL. *)
Definition pause_in_future (now : Z) (pause_until : option Z) : bool :=
  match pause_until with Some t => now <? t | None => false end.

Definition pause_elapsed (now : Z) (pause_until : option Z) : bool :=
  match pause_until with Some t => t <=? now | None => false end.

Definition is_agent_active (p_agent_id p_user_id : nat) (now : Z)
  (d : Database) : Database * bool :=
  if global_kill_switch.is_emergency_stopped (global_kill_switch d) then
    (d, false)
  else
    match agent_by_id_user p_agent_id p_user_id d with
    | None => (d, false)
    | Some a =>
      match agents.status a with
      | killed => (d, false)
      | paused =>
        if pause_in_future now (agents.pause_until a) then (d, false)
        else if pause_elapsed now (agents.pause_until a) then
          (update_agents (fun r => bool_decide (agents.id r = p_agent_id))
             unpause d, true)
        else (d, false)
      | active => (d, true)
      end
    end.

(** ** HTTP responses *)

(** The status, the [error] or [message] text, the machine-readable
    [code] and the numeric fields of the JSON body. *)
Record response := mkResponse {
  http_status : nat;
  text : string;
  code : option string;
  details : list (string * Z)
}.

(** What a middleware does with a request: answer it, or call [next()]
    after attaching data to it. *)
Inductive middleware (A : Type) :=
  | Respond (r : response)
  | Next (a : A).
Arguments Respond {A} r.
Arguments Next {A} a.

(** ** middleware/agentBudget.js *)

(** What [enforceAgentBudget] leaves on the request: the flag
    [req.agentBudgetCheck = 'DEFERRED'] or the row [req.agent]. *)
Inductive budget_check :=
  | DEFERRED
  | Checked (agent : agents.row).

Definition agent_by_external (agent_id : string) (user_id : nat)
  (d : Database) : option agents.row :=
  head (filter (fun r => agents.agent_id r = agent_id
                         /\ agents.user_id r = user_id)
          (agents d)).

Definition suspend (r : agents.row) : agents.row :=
  agents.mk (agents.id r) (agents.user_id r) (agents.agent_id r)
    (agents.agent_name r) true (agents.monthly_cost_limit r)
    (agents.status r) (agents.kill_reason r) (agents.killed_at r)
    (agents.killed_by r) (agents.pause_until r).

Definition reactivate (r : agents.row) : agents.row :=
  agents.mk (agents.id r) (agents.user_id r) (agents.agent_id r)
    (agents.agent_name r) false (agents.monthly_cost_limit r)
    (agents.status r) (agents.kill_reason r) (agents.killed_at r)
    (agents.killed_by r) (agents.pause_until r).

(** [SELECT COALESCE(SUM(cost_amount), 0) FROM usage_events WHERE
    agent_id = $1 AND DATE_TRUNC('month', event_timestamp) =
    DATE_TRUNC('month', CURRENT_DATE)]. *)
Definition month_spend (agent_uuid : nat) (now : Z) (d : Database) : Z :=
  foldr Z.add 0
    (map usage_events.cost_amount
       (filter (fun e => usage_events.agent_id e = agent_uuid
                         /\ month_of (usage_events.event_timestamp e)
                            = month_of now)
          (usage_events d))).

(** Lines 60-79 of [enforceAgentBudget]: the spend that the budget check
    uses, with the fallback to the ledger and the backfill of Redis when
    the cached value reads 0.  These are four commands with an [await]
    each, taken here in one piece, as they run when no other request
    comes in between; [spend_check_step] below takes them one by one. *)
Definition currentSpend (agent : agents.row) (now : Z) (w : World)
  : World * Z :=
  let cached := getAgentSpend now (agents.agent_id agent) (redis w) in
  if bool_decide (cached = 0) then
    let from_db := month_spend (agents.id agent) now (db w) in
    if 0 <? from_db then
      let r := fst (incrementAgentSpend now (agents.agent_id agent) from_db
                      (redis w)) in
      (with_redis r w, getAgentSpend now (agents.agent_id agent) r)
    else (w, from_db)
  else (w, cached).

(** The same lines command by command.  A check in progress is at one of
    its commands, with the value that it holds: before [getAgentSpend]
    (line 61), before the query of the ledger (line 65), before
    [incrementAgentSpend] with the sum of the ledger (line 75), before the
    second [getAgentSpend] (line 77), or past them with the spend that it
    uses (line 81). *)
Inductive spend_check :=
  | AtGet
  | AtQuery
  | AtIncrement (from_db : Z)
  | AtGetAgain
  | Settled (currentSpend : Z).

Definition spend_check_step (agent : agents.row) (now : Z) (s : spend_check)
  (w : World) : World * spend_check :=
  match s with
  | AtGet =>
    let cached := getAgentSpend now (agents.agent_id agent) (redis w) in
    (w, if bool_decide (cached = 0) then AtQuery else Settled cached)
  | AtQuery =>
    let from_db := month_spend (agents.id agent) now (db w) in
    (w, if 0 <? from_db then AtIncrement from_db else Settled from_db)
  | AtIncrement from_db =>
    (with_redis
       (fst (incrementAgentSpend now (agents.agent_id agent) from_db
               (redis w))) w,
     AtGetAgain)
  | AtGetAgain =>
    (w, Settled (getAgentSpend now (agents.agent_id agent) (redis w)))
  | Settled currentSpend => (w, Settled currentSpend)
  end.

(** The checks that are in progress at one time, each for its agent and
    with its reading of the clock.  Node.js runs one command at a time:
    a schedule names, command after command, the check that runs its
    next command. *)
Definition spend_checks : Type := list (agents.row * Z * spend_check).

Definition run_command (i : nat) (x : World * spend_checks)
  : World * spend_checks :=
  match x.2 !! i with
  | Some (agent, now, s) =>
    let '(w, s') := spend_check_step agent now s x.1 in
    (w, <[i := (agent, now, s')]> x.2)
  | None => x
  end.

Definition interleave (schedule : list nat) (checks : spend_checks)
  (w : World) : World * spend_checks :=
  foldl (fun x i => run_command i x) (w, checks) schedule.

Definition resp_missing_agent_id : response :=
  mkResponse 400 "agent_id is required" (Some "MISSING_AGENT_ID") [].

Definition resp_agent_suspended : response :=
  mkResponse 403 "Agent is suspended due to budget limits or manual override"
    (Some "AGENT_SUSPENDED") [].

Definition resp_budget_limit_exceeded (limit current requested : Z)
  : response :=
  mkResponse 403 "Agent suspended: monthly cost limit exceeded"
    (Some "BUDGET_LIMIT_EXCEEDED")
    [("monthly_limit", limit); ("current_spend", current);
     ("requested_cost", requested); ("projected_spend", current + requested)].

(** [enforceAgentBudget(req, res, next)].  It reads [req.body.agent_id]
    and [req.body.cost_amount] before any validation of the body: a
    missing or empty agent id is falsy, a missing cost counts as 0.  The
    comparison [projectedSpend > monthly_cost_limit] is the one of the
    exact amounts.  JavaScript adds and compares doubles, which agrees
    with it whenever the projected spend and the limit differ, by a
    millionth at least; where they are equal the sum of the doubles can
    lie above the limit (0.1 + 0.2 > 0.3) and the code denies. *)
Definition enforceAgentBudget (user : nat) (now : Z)
  (agent_id : option string) (cost_amount : option Z) (w : World)
  : World * middleware budget_check :=
  match agent_id with
  | None | Some "" => (w, Respond resp_missing_agent_id)
  | Some aid =>
    match agent_by_external aid user (db w) with
    | None => (w, Next DEFERRED)
    | Some agent =>
      if agents.is_suspended agent then (w, Respond resp_agent_suspended)
      else
        match agents.monthly_cost_limit agent with
        | None => (w, Next (Checked agent))
        | Some limit =>
          let requestedCost := default 0 cost_amount in
          let '(w1, current) := currentSpend agent now w in
          let projectedSpend := current + requestedCost in
          if limit <? projectedSpend then
            (with_db (update_agents
                        (fun r => bool_decide (agents.id r = agents.id agent))
                        suspend (db w1)) w1,
             Respond (resp_budget_limit_exceeded limit current requestedCost))
          else (w1, Next (Checked agent))
        end
    end
  end.

(** [suspendAgent] and [reactivateAgent], behind POST /:agentId/suspend
    and POST /:agentId/reactivate of routes/agents.js; [None] is the
    thrown 'Agent not found'. *)
Definition suspendAgent (agentId : string) (userId : nat) (d : Database)
  : option Database :=
  match agent_by_external agentId userId d with
  | None => None
  | Some _ =>
    Some (update_agents
            (fun r => bool_decide (agents.agent_id r = agentId)
                      && bool_decide (agents.user_id r = userId)) suspend d)
  end.

Definition reactivateAgent (agentId : string) (userId : nat) (d : Database)
  : option Database :=
  match agent_by_external agentId userId d with
  | None => None
  | Some _ =>
    Some (update_agents
            (fun r => bool_decide (agents.agent_id r = agentId)
                      && bool_decide (agents.user_id r = userId)) reactivate d)
  end.

(** The result of [checkAgentBudgetAfterCreation]: [{ allowed: true }] or
    a refusal with its code and numbers; [None] is the thrown 'Agent not
    found after creation'. *)
Inductive after_creation :=
  | Allowed (agent : agents.row)
  | Refused (error : string) (code : string) (monthly_limit : option Z)
      (requested_cost : option Z).

Definition checkAgentBudgetAfterCreation (agentUuid : nat)
  (requestedCost : Z) (userId : nat) (d : Database)
  : Database * option after_creation :=
  match agent_by_id_user agentUuid userId d with
  | None => (d, None)
  | Some agent =>
    if agents.is_suspended agent then
      (d, Some (Refused "Agent is suspended" "AGENT_SUSPENDED" None None))
    else
      match agents.monthly_cost_limit agent with
      | Some limit =>
        if limit <? requestedCost then
          (update_agents (fun r => bool_decide (agents.id r = agentUuid))
             suspend d,
           Some (Refused
                   "Agent suspended: first event would exceed monthly limit"
                   "BUDGET_LIMIT_EXCEEDED" (Some limit) (Some requestedCost)))
        else (d, Some (Allowed agent))
      | None => (d, Some (Allowed agent))
      end
  end.

(** ** routes/usage.js *)

(** The JSON body of POST /record, as the client sent it; of [metadata]
    the keys [request_hash] and [error]. *)
Module body.
Record t := mk {
  event_name : option string;
  agent_id : option string;
  customer_id : option string;
  vendor : option string;
  model : option string;
  cost_amount : option Z;
  cost_currency : option string;
  input_tokens : option Z;
  output_tokens : option Z;
  total_tokens : option Z;
  request_hash : option string;
  error : option string;
  event_timestamp : option Z
}.
End body.

(** The value that [usageEventSchema.validate] returns, defaults filled
    in. *)
Module event.
Record t := mk {
  event_name : string;
  agent_id : string;
  customer_id : string;
  vendor : string;
  model : option string;
  cost_amount : Z;
  cost_currency : string;
  input_tokens : option Z;
  output_tokens : option Z;
  total_tokens : option Z;
  request_hash : option string;
  error : option string;
  event_timestamp : Z
}.
End event.

(** What the columns hold.  A text of more than [n] characters does not
    fit [VARCHAR(n)], a number outside of 32 bits does not fit [INTEGER],
    and an amount of 10000 dollars or more does not fit [DECIMAL(10, 6)]:
    PostgreSQL refuses the INSERT and [db.query] throws. *)
Definition varchar (n : nat) (s : string) : bool :=
  (String.length s <=? n)%nat.

Definition integer (z : Z) : bool :=
  (-2147483648 <=? z) && (z <=? 2147483647).

Definition decimal_10_6 (z : Z) : bool :=
  Z.abs z <? 10000 * 1000000.

(** [Joi.string().required()]: present and not empty. *)
Definition required_string (key : string) (v : option string)
  : string + string :=
  match v with
  | None | Some "" => inl key
  | Some s => inr s
  end.

(** [Joi.string().optional()] and [Joi.string().default(_)]: not empty
    when present. *)
Definition optional_string (key : string) (v : option string)
  : string + option string :=
  match v with
  | Some "" => inl key
  | _ => inr v
  end.

(** [Joi.number().integer().min(0).optional()]. *)
Definition optional_count (key : string) (v : option Z) : string + option Z :=
  match v with
  | Some n => if n <? 0 then inl key else inr v
  | None => inr v
  end.

(** [usageEventSchema.validate(req.body)]: the key of the first rule
    that fails, or the validated value.  The schema bounds neither the
    length of a text nor the size of a number.  A cost is a whole number
    of millionths here; Joi also accepts a positive number with more
    decimals, which the ledger rounds to six and the spend cache does
    not: such a body is outside the model. *)
Definition usageEventSchema (now : Z) (b : body.t) : string + event.t :=
  match required_string "event_name" (body.event_name b) with
  | inl k => inl k | inr event_name =>
  match required_string "agent_id" (body.agent_id b) with
  | inl k => inl k | inr agent_id =>
  match required_string "customer_id" (body.customer_id b) with
  | inl k => inl k | inr customer_id =>
  match required_string "vendor" (body.vendor b) with
  | inl k => inl k | inr vendor =>
  match optional_string "model" (body.model b) with
  | inl k => inl k | inr model =>
  match body.cost_amount b with
  | None => inl "cost_amount" | Some cost_amount =>
  if cost_amount <=? 0 then inl "cost_amount" else
  match optional_string "cost_currency" (body.cost_currency b) with
  | inl k => inl k | inr cost_currency =>
  match optional_count "input_tokens" (body.input_tokens b) with
  | inl k => inl k | inr input_tokens =>
  match optional_count "output_tokens" (body.output_tokens b) with
  | inl k => inl k | inr output_tokens =>
  match optional_count "total_tokens" (body.total_tokens b) with
  | inl k => inl k | inr total_tokens =>
    inr (event.mk event_name agent_id customer_id vendor model cost_amount
           (default "USD" cost_currency) input_tokens output_tokens
           total_tokens (body.request_hash b) (body.error b)
           (default now (body.event_timestamp b)))
  end end end end end end end end end end.

Definition resp_invalid (key : string) : response :=
  mkResponse 400 key None [].

Definition customer_by_external (userId : nat) (customerId : string)
  (d : Database) : option customers.row :=
  head (filter (fun c => customers.user_id c = userId
                         /\ customers.customer_id c = customerId)
          (customers d)).

(** [ensureCustomerExists(userId, customerId)]; [None] is the error that
    the INSERT throws when the id does not fit [customer_id VARCHAR(255)]
    (and [customer_name], which gets the same text). *)
Definition ensureCustomerExists (userId : nat) (customerId : string)
  (d : Database) : option (Database * nat) :=
  match customer_by_external userId customerId d with
  | Some c => Some (d, customers.id c)
  | None =>
    if varchar 255 customerId then
      let id := fresh_id (map customers.id (customers d)) in
      Some (with_customers
              (customers d ++ [customers.mk id userId customerId customerId])
              d, id)
    else None
  end.

(** The row that [INSERT INTO agents (user_id, agent_id, agent_name)]
    creates: every other column takes its default. *)
Definition new_agent (id userId : nat) (agentId : string) : agents.row :=
  agents.mk id userId agentId agentId false None active None None None None.

(** [ensureAgentExists(userId, agentId)]; [None] is the error that the
    INSERT throws when the id does not fit [agent_id VARCHAR(255)] (and
    [agent_name], which gets the same text). *)
Definition ensureAgentExists (userId : nat) (agentId : string)
  (d : Database) : option (Database * nat) :=
  match agent_by_external agentId userId d with
  | Some a => Some (d, agents.id a)
  | None =>
    if varchar 255 agentId then
      let id := fresh_id (map agents.id (agents d)) in
      Some (with_agents (agents d ++ [new_agent id userId agentId]) d, id)
    else None
  end.

(** [checkAgentStatus(userId, agentUuid)]: [SELECT is_agent_active($1,
    $2)]. *)
Definition checkAgentStatus (userId agentUuid : nat) (now : Z)
  (d : Database) : Database * bool :=
  is_agent_active agentUuid userId now d.

(** [total_tokens || (input_tokens || 0) + (output_tokens || 0)]. *)
Definition finalTotalTokens (v : event.t) : Z :=
  match event.total_tokens v with
  | Some t => if bool_decide (t = 0)
              then default 0 (event.input_tokens v)
                   + default 0 (event.output_tokens v)
              else t
  | None => default 0 (event.input_tokens v)
            + default 0 (event.output_tokens v)
  end.

(** The row of [INSERT INTO usage_events ... RETURNING id, created_at]. *)
Definition usage_row (id userId customerUuid agentUuid : nat) (now : Z)
  (v : event.t) : usage_events.row :=
  usage_events.mk id userId customerUuid agentUuid (event.event_name v)
    (event.vendor v) (event.model v) (event.cost_amount v)
    (event.cost_currency v) (event.input_tokens v) (event.output_tokens v)
    (finalTotalTokens v) (event.request_hash v) (event.error v) now
    (event.event_timestamp v).

(** The values of an event fit the columns of [usage_events]:
    event_name VARCHAR(255), vendor and model VARCHAR(100), cost_amount
    DECIMAL(10, 6), cost_currency VARCHAR(3) and the three token counts
    INTEGER. *)
Definition fits_usage_events (v : event.t) : bool :=
  varchar 255 (event.event_name v)
  && varchar 100 (event.vendor v)
  && from_option (varchar 100) true (event.model v)
  && decimal_10_6 (event.cost_amount v)
  && varchar 3 (event.cost_currency v)
  && from_option integer true (event.input_tokens v)
  && from_option integer true (event.output_tokens v)
  && integer (finalTotalTokens v).

(** [INSERT INTO usage_events ... RETURNING id, created_at]; [None] is
    the error that it throws when a value does not fit its column. *)
Definition insert_usage_event (userId customerUuid agentUuid : nat)
  (now : Z) (v : event.t) (d : Database) : option (Database * nat) :=
  if fits_usage_events v then
    let id := fresh_id (map usage_events.id (usage_events d)) in
    Some (with_usage_events
            (usage_events d
             ++ [usage_row id userId customerUuid agentUuid now v]) d,
          id)
  else None.

Definition resp_agent_killed : response :=
  mkResponse 403
    "Agent is currently inactive (killed, paused, or under emergency stop)"
    (Some "AGENT_KILLED") [].

Definition resp_refused (error code : string)
  (monthly_limit requested_cost : option Z) : response :=
  mkResponse 403 error (Some code)
    (match monthly_limit with
     | Some l => if bool_decide (l = 0) then [] else [("monthly_limit", l)]
     | None => []
     end ++
     match requested_cost with
     | Some c => if bool_decide (c = 0) then [] else [("requested_cost", c)]
     | None => []
     end).

Definition resp_record_failed : response :=
  mkResponse 500 "Failed to record usage event" None [].

Definition resp_recorded (event_id : nat) (now : Z) : response :=
  mkResponse 201 "Usage event recorded successfully" None
    [("event_id", Z.of_nat event_id); ("recorded_at", now)].

(** The steps of the handler of POST /record after the two helpers: the
    deferred budget check, the kill-switch check, the INSERT and the
    update of the spend cache.  Every query is committed as it runs, so
    that an error leaves what the queries before it have written. *)
Definition record_event (user : nat) (now : Z) (v : event.t)
  (check : budget_check) (customerUuid agentUuid : nat) (d2 : Database)
  (w : World) : World * response :=
  let '(d3, budgetCheck) :=
    match check with
    | DEFERRED =>
      checkAgentBudgetAfterCreation agentUuid (event.cost_amount v) user d2
    | Checked a => (d2, Some (Allowed a))
    end in
  match budgetCheck with
  | None => (with_db d3 w, resp_record_failed)
  | Some (Refused error code monthly_limit requested_cost) =>
    (with_db d3 w, resp_refused error code monthly_limit requested_cost)
  | Some (Allowed _) =>
    let '(d4, isActive) := checkAgentStatus user agentUuid now d3 in
    if isActive then
      match insert_usage_event user customerUuid agentUuid now v d4 with
      | Some (d5, event_id) =>
        let r := fst (incrementAgentSpend now (event.agent_id v)
                        (event.cost_amount v) (redis w)) in
        (mkWorld d5 r, resp_recorded event_id now)
      | None => (with_db d4 w, resp_record_failed)
      end
    else (with_db d4 w, resp_agent_killed)
  end.

(** The handler of POST /record, entered when [enforceAgentBudget] called
    [next()].  An error that a query throws is caught at the end of the
    handler and answered with 500. *)
Definition record_handler (user : nat) (now : Z) (b : body.t)
  (check : budget_check) (w : World) : World * response :=
  match usageEventSchema now b with
  | inl key => (w, resp_invalid key)
  | inr v =>
    match ensureCustomerExists user (event.customer_id v) (db w) with
    | None => (w, resp_record_failed)
    | Some (d1, customerUuid) =>
      match ensureAgentExists user (event.agent_id v) d1 with
      | None => (with_db d1 w, resp_record_failed)
      | Some (d2, agentUuid) =>
        record_event user now v check customerUuid agentUuid d2 w
      end
    end
  end.

(** [router.post('/record', authenticateApiKey, enforceAgentBudget,
    handler)]. *)
Definition record (user : nat) (now : Z) (b : body.t) (w : World)
  : World * response :=
  match enforceAgentBudget user now (body.agent_id b) (body.cost_amount b) w
  with
  | (w1, Respond r) => (w1, r)
  | (w1, Next check) => record_handler user now b check w1
  end.

(** The JSON body of POST /record-bulk: the array [events], and the two
    keys that [enforceAgentBudget] reads at the top level of every body. *)
Module bulk_body.
Record t := mk {
  agent_id : option string;
  cost_amount : option Z;
  events : list body.t
}.
End bulk_body.

Fixpoint validate_items (now : Z) (l : list body.t)
  : string + list event.t :=
  match l with
  | [] => inr []
  | b :: rest =>
    match usageEventSchema now b with
    | inl k => inl k
    | inr v =>
      match validate_items now rest with
      | inl k => inl k
      | inr vs => inr (v :: vs)
      end
    end
  end.

(** [bulkUsageSchema.validate(req.body)]: between 1 and 100 valid events
    under the key [events]; a Joi object schema rejects every key it does
    not declare. *)
Definition bulkUsageSchema (now : Z) (b : bulk_body.t)
  : string + list event.t :=
  match validate_items now (bulk_body.events b) with
  | inl k => inl k
  | inr vs =>
    if bool_decide (vs = []) then inl "events"
    else if (100 <? length vs)%nat then inl "events"
    else if bool_decide (is_Some (bulk_body.agent_id b)) then inl "agent_id"
    else if bool_decide (is_Some (bulk_body.cost_amount b))
    then inl "cost_amount"
    else inr vs
  end.

(** The loop of the bulk handler between BEGIN and COMMIT.  The helper
    queries run on the pool ([db.query]) and take effect at once; the
    inserts run on the client of the transaction.  [None] is an error
    that is thrown: the one of the kill-switch check, or the one of a
    query. *)
Fixpoint bulk_loop (user : nat) (now : Z) (events : list event.t)
  (d : Database) (recordedEvents : list nat)
  : Database * option (list nat) :=
  match events with
  | [] => (d, Some recordedEvents)
  | v :: rest =>
    match ensureCustomerExists user (event.customer_id v) d with
    | None => (d, None)
    | Some (d1, customerUuid) =>
      match ensureAgentExists user (event.agent_id v) d1 with
      | None => (d1, None)
      | Some (d2, agentUuid) =>
        let '(d3, isActive) := checkAgentStatus user agentUuid now d2 in
        if isActive then
          match insert_usage_event user customerUuid agentUuid now v d3 with
          | Some (d4, event_id) =>
            bulk_loop user now rest d4 (recordedEvents ++ [event_id])
          | None => (d3, None)
          end
        else (d3, None)
      end
    end
  end.

Definition resp_bulk_recorded (n : nat) (ids : list nat) : response :=
  mkResponse 201 (pretty n +:+ " usage events recorded successfully") None
    (map (fun i => ("event_id", Z.of_nat i)) ids).

Definition resp_bulk_failed : response :=
  mkResponse 500 "Failed to record usage events" None [].

(** The handler of POST /record-bulk: COMMIT keeps the inserted events,
    ROLLBACK restores the ledger of the moment of BEGIN. *)
Definition record_bulk_handler (user : nat) (now : Z) (b : bulk_body.t)
  (w : World) : World * response :=
  match bulkUsageSchema now b with
  | inl key => (w, resp_invalid key)
  | inr events =>
    match bulk_loop user now events (db w) [] with
    | (d, Some recordedEvents) =>
      (with_db d w, resp_bulk_recorded (length events) recordedEvents)
    | (d, None) =>
      (with_db (with_usage_events (usage_events (db w)) d) w,
       resp_bulk_failed)
    end
  end.

(** [router.post('/record-bulk', authenticateApiKey, enforceAgentBudget,
    handler)]. *)
Definition record_bulk (user : nat) (now : Z) (b : bulk_body.t) (w : World)
  : World * response :=
  match
    enforceAgentBudget user now (bulk_body.agent_id b)
      (bulk_body.cost_amount b) w
  with
  | (w1, Respond r) => (w1, r)
  | (w1, Next _) => record_bulk_handler user now b w1
  end.

(** ** routes/killswitch.js *)

(** [UPDATE agents SET ... WHERE c RETURNING ...]: the new table and the
    rows that were updated. *)
Definition update_returning (c : agents.row -> bool)
  (f : agents.row -> agents.row) (d : Database)
  : Database * list agents.row :=
  (update_agents c f d, map f (List.filter c (agents d))).

Definition logKillSwitchEvent (eventType targetType : string)
  (targetId : option string) (userId : nat) (reason triggeredBy : string)
  (now : Z) (d : Database) : Database :=
  with_kill_switch_events
    (kill_switch_events d ++
     [kill_switch_events.mk eventType targetType targetId userId triggeredBy
        reason now]) d.

(** [SET status = 'killed', killed_at = NOW(), killed_by = $1,
    kill_reason = $2], of the routes. *)
Definition kill (now : Z) (by_user : nat) (reason : string)
  (r : agents.row) : agents.row :=
  agents.mk (agents.id r) (agents.user_id r) (agents.agent_id r)
    (agents.agent_name r) (agents.is_suspended r)
    (agents.monthly_cost_limit r) killed (Some reason) (Some now)
    (Some by_user) (agents.pause_until r).

(** [SET status = 'killed', killed_at = NOW(), kill_reason = $1], of the
    monitor: [killed_by] keeps its value. *)
Definition auto_kill (now : Z) (reason : string) (r : agents.row)
  : agents.row :=
  agents.mk (agents.id r) (agents.user_id r) (agents.agent_id r)
    (agents.agent_name r) (agents.is_suspended r)
    (agents.monthly_cost_limit r) killed (Some reason) (Some now)
    (agents.killed_by r) (agents.pause_until r).

Definition pause (until : Z) (reason : string) (r : agents.row)
  : agents.row :=
  agents.mk (agents.id r) (agents.user_id r) (agents.agent_id r)
    (agents.agent_name r) (agents.is_suspended r)
    (agents.monthly_cost_limit r) paused (Some reason) (agents.killed_at r)
    (agents.killed_by r) (Some until).

Definition revive (r : agents.row) : agents.row :=
  agents.mk (agents.id r) (agents.user_id r) (agents.agent_id r)
    (agents.agent_name r) (agents.is_suspended r)
    (agents.monthly_cost_limit r) active None None None None.

(** [Joi.string().required().max(n)]. *)
Definition required_text (key : string) (n : nat) (v : option string)
  : string + string :=
  match required_string key v with
  | inl k => inl k
  | inr s => if (n <? String.length s)%nat then inl key else inr s
  end.

(** [emergencyStopSchema]: a reason, and [confirm] equal to [true]. *)
Definition emergencyStopSchema (reason : option string)
  (confirm : option bool) : string + (string * bool) :=
  match required_text "reason" 1000 reason with
  | inl k => inl k
  | inr reason =>
    match confirm with
    | Some true => inr (reason, true)
    | _ => inl "confirm"
    end
  end.

Definition resp_ok (message : string) : response :=
  mkResponse 200 message None [].

Definition resp_not_found (error : string) : response :=
  mkResponse 404 error None [].

Definition resp_confirm_required : response :=
  mkResponse 400
    "Emergency stop requires explicit confirmation with confirm: true"
    None [].

(** POST /emergency-stop-all. *)
Definition emergency_stop_all (user : nat) (now : Z)
  (reason : option string) (confirm : option bool) (d : Database)
  : Database * response :=
  match emergencyStopSchema reason confirm with
  | inl key => (d, resp_invalid key)
  | inr (reason, confirm) =>
    if negb confirm then (d, resp_confirm_required)
    else
      let d1 :=
        with_global_kill_switch
          (global_kill_switch.mk true (Some now) (Some user) (Some reason))
          d in
      let d2 :=
        update_agents
          (fun r => negb (bool_decide (agents.status r = killed)))
          (kill now user ("Emergency stop: " +:+ reason)) d1 in
      let d3 :=
        logKillSwitchEvent "emergency_stop_all" "global" None user reason
          "manual" now d2 in
      (d3,
       resp_ok "EMERGENCY STOP ACTIVATED - All agents have been terminated")
  end.

(** POST /emergency-stop-disable. *)
Definition emergency_stop_disable (user : nat) (now : Z) (d : Database)
  : Database * response :=
  let d1 :=
    with_global_kill_switch (global_kill_switch.mk false None None None) d in
  let d2 :=
    logKillSwitchEvent "emergency_stop_disabled" "global" None user
      "Emergency stop disabled" "manual" now d1 in
  (d2,
   resp_ok
     "Emergency stop has been disabled. Agents can be individually revived.").

(** The WHERE clause shared by the three routes on one agent. *)
Definition owned (user : nat) (agentId : string) (r : agents.row) : bool :=
  bool_decide (agents.user_id r = user)
  && bool_decide (agents.agent_id r = agentId).

(** POST /kill-agent/:agentId. *)
Definition kill_agent (user : nat) (now : Z) (agentId : string)
  (reason : option string) (d : Database) : Database * response :=
  match required_text "reason" 500 reason with
  | inl key => (d, resp_invalid key)
  | inr reason =>
    let '(d1, rows) :=
      update_returning
        (fun r => owned user agentId r
                  && negb (bool_decide (agents.status r = killed)))
        (kill now user reason) d in
    match rows with
    | [] => (d1, resp_not_found "Agent not found or already killed")
    | _ :: _ =>
      (logKillSwitchEvent "kill_agent" "agent" (Some agentId) user reason
         "manual" now d1,
       resp_ok ("Agent " +:+ agentId +:+ " has been killed"))
    end
  end.

(** POST /kill-customer/:customerId.  The subquery joins the agents with
    the customer on [user_id] alone, so the UPDATE reaches every agent of
    the user that is not killed yet; one audit record is written for the
    customer, whatever the number of agents. *)
Definition kill_customer (user : nat) (now : Z) (customerId : string)
  (reason : option string) (d : Database) : Database * response :=
  match required_text "reason" 500 reason with
  | inl key => (d, resp_invalid key)
  | inr reason =>
    match customer_by_external user customerId d with
    | None => (d, resp_not_found "Customer not found")
    | Some c =>
      let customerUuid := customers.id c in
      let subquery :=
        map agents.id
          (List.filter
             (fun a => existsb
                         (fun c' => bool_decide (customers.id c' = customerUuid)
                                    && bool_decide (customers.user_id c'
                                                    = agents.user_id a))
                         (customers d)
                       && negb (bool_decide (agents.status a = killed)))
             (agents d)) in
      let '(d1, rows) :=
        update_returning
          (fun r => bool_decide (agents.user_id r = user)
                    && bool_decide (agents.id r ∈ subquery))
          (kill now user reason) d in
      (logKillSwitchEvent "kill_customer" "customer" (Some customerId) user
         reason "manual" now d1,
       resp_ok ("Killed " +:+ pretty (length rows) +:+ " agents for customer "
                +:+ customerId))
    end
  end.

(** [pauseAgentSchema]: whole minutes between 1 and 10080, and a
    reason. *)
Definition pauseAgentSchema (duration_minutes : option Z)
  (reason : option string) : string + (Z * string) :=
  match duration_minutes with
  | None => inl "duration_minutes"
  | Some n =>
    if (n <? 1) || (10080 <? n) then inl "duration_minutes"
    else
      match required_text "reason" 500 reason with
      | inl k => inl k
      | inr reason => inr (n, reason)
      end
  end.

(** POST /pause-agent/:agentId. *)
Definition pause_agent (user : nat) (now : Z) (agentId : string)
  (duration_minutes : option Z) (reason : option string) (d : Database)
  : Database * response :=
  match pauseAgentSchema duration_minutes reason with
  | inl key => (d, resp_invalid key)
  | inr (duration_minutes, reason) =>
    let pauseUntil := now + duration_minutes * 60000 in
    let '(d1, rows) :=
      update_returning
        (fun r => owned user agentId r
                  && bool_decide (agents.status r = active))
        (pause pauseUntil reason) d in
    match rows with
    | [] => (d1, resp_not_found "Agent not found or not active")
    | _ :: _ =>
      (logKillSwitchEvent "pause_agent" "agent" (Some agentId) user reason
         "manual" now d1,
       resp_ok ("Agent " +:+ agentId +:+ " has been paused for "
                +:+ pretty duration_minutes +:+ " minutes"))
    end
  end.

(** POST /revive-agent/:agentId, for a body without the key [reason]
    ([None]) or with a text for it; the reason is ['Manual revival']
    unless the body gives one.  No schema validates this body. *)
Definition revive_agent (user : nat) (now : Z) (agentId : string)
  (reason : option string) (d : Database) : Database * response :=
  let reason := default "Manual revival" reason in
  let '(d1, rows) :=
    update_returning
      (fun r => owned user agentId r
                && (bool_decide (agents.status r = killed)
                    || bool_decide (agents.status r = paused)))
      revive d in
  match rows with
  | [] => (d1, resp_not_found "Agent not found or already active")
  | _ :: _ =>
    (logKillSwitchEvent "revive_agent" "agent" (Some agentId) user reason
       "manual" now d1,
     resp_ok ("Agent " +:+ agentId +:+ " has been revived"))
  end.

Definition resp_revive_failed : response :=
  mkResponse 500 "Failed to revive agent" None [].

(** POST /revive-agent/:agentId for a body with [reason: null].  The
    default of the destructuring stands in for a missing key only, so
    that the reason stays null: the UPDATE runs and is committed as
    before, the INSERT of [logKillSwitchEvent] violates [reason TEXT NOT
    NULL] and throws, and the route answers 500. *)
Definition revive_agent_null (user : nat) (agentId : string) (d : Database)
  : Database * response :=
  let '(d1, rows) :=
    update_returning
      (fun r => owned user agentId r
                && (bool_decide (agents.status r = killed)
                    || bool_decide (agents.status r = paused)))
      revive d in
  match rows with
  | [] => (d1, resp_not_found "Agent not found or already active")
  | _ :: _ => (d1, resp_revive_failed)
  end.

(** ** services/kill-switch-monitor.js *)

Module trigger.
Record t := mk {
  user_id : nat;
  trigger_type : string;
  trigger_name : string;
  threshold_value : Z
}.
End trigger.

Module violation.
Record t := mk {
  agent_id : string;
  agent_uuid : nat;
  event_count : Z
}.
End violation.

(** The [reason] that [triggerAutoKill] writes to the agent and to the
    audit record. *)
Definition auto_reason (trigger : trigger.t) : string :=
  "Auto-kill triggered: " +:+ trigger.trigger_name trigger +:+ " ("
  +:+ trigger.trigger_type trigger +:+ ") exceeded threshold of "
  +:+ pretty (trigger.threshold_value trigger).

(** [triggerAutoKill(trigger, violation)]: the UPDATE guarded by
    [status = 'active'], then the INSERT into the audit table. *)
Definition triggerAutoKill (now : Z) (trigger : trigger.t)
  (violation : violation.t) (d : Database) : Database :=
  let reason := auto_reason trigger in
  let d1 :=
    update_agents
      (fun r => bool_decide (agents.id r = violation.agent_uuid violation)
                && bool_decide (agents.status r = active))
      (auto_kill now reason) d in
  logKillSwitchEvent "kill_agent" "agent"
    (Some (violation.agent_id violation)) (trigger.user_id trigger) reason
    ("auto_" +:+ trigger.trigger_type trigger) now d1.

(** [JOIN agents a ON ue.agent_id = a.id]: the row of the primary key.
    The table [users] is not modelled; the joins with it in the queries
    of the monitor find the user of every agent. *)
Definition agent_by_id (id : nat) (d : Database) : option agents.row :=
  head (filter (fun r => agents.id r = id) (agents d)).

(** The columns by which [request_patterns] groups: ue.agent_id,
    a.agent_id, ue.event_name, ue.model and metadata->>'request_hash'. *)
Definition pattern : Type := nat * string * string * option string * string.

(** The row of events JOIN agents for one event, when it passes the
    WHERE clause of [request_patterns]: created in the last 10 minutes,
    agent active, request_hash not NULL. *)
Definition pattern_of (now : Z) (d : Database) (e : usage_events.row)
  : option pattern :=
  match agent_by_id (usage_events.agent_id e) d with
  | None => None
  | Some a =>
    if (now - 600000 <=? usage_events.created_at e)
       && bool_decide (agents.status a = active)
    then
      match usage_events.request_hash e with
      | Some h =>
        Some (usage_events.agent_id e, agents.agent_id a,
              usage_events.event_name e, usage_events.model e, h)
      | None => None
      end
    else None
  end.

Definition identical_requests (p : pattern) (l : list pattern) : nat :=
  length (filter (fun q => q = p) l).

(** The rows of the loop-detection query: the groups of at least 50
    events, each with COUNT( * ) and the user of the agent. *)
Definition loopDetectionQuery (now : Z) (d : Database)
  : list (pattern * nat * nat) :=
  let joined := omap (pattern_of now d) (usage_events d) in
  omap (fun p : pattern =>
          if (50 <=? identical_requests p joined)%nat then
            match agent_by_id p.1.1.1.1 d with
            | Some a => Some (p, identical_requests p joined, agents.user_id a)
            | None => None
            end
          else None)
       (remove_dups joined).

(** The body of the loop of [checkInfiniteLoops], for one row of the
    query. *)
Definition loop_kill (now : Z) (d : Database) (row : pattern * nat * nat)
  : Database :=
  let '(p, n, user) := row in
  triggerAutoKill now
    (trigger.mk user "infinite_loop" "Auto Loop Detection" (Z.of_nat n))
    (violation.mk p.1.1.1.2 p.1.1.1.1 (Z.of_nat n)) d.

(** [checkInfiniteLoops()]: one [triggerAutoKill] per row of the query,
    in turn. *)
Definition checkInfiniteLoops (now : Z) (d : Database) : Database :=
  foldl (loop_kill now) d (loopDetectionQuery now d).

(** *** The schedule of the monitor

    The fields of the [KillSwitchMonitor] object, and what the
    JavaScript runtime holds for it: the interval timers that are set,
    and the calls of [performMonitoringChecks] that were started and
    have not settled yet.  [performMonitoringChecks] is an async method
    that is called without [await], by [start] and by the callback of
    the interval. *)
Record KillSwitchMonitor := mkMonitor {
  monitoringInterval : option nat;
  isRunning : bool
}.

Record Runtime := mkRuntime {
  monitor : KillSwitchMonitor;
  intervals : list nat;
  next_handle : nat;
  unsettled_checks : nat
}.

Definition boot : Runtime := mkRuntime (mkMonitor None false) [] 0 0.

(** [performMonitoringChecks()] without [await]: one more call in
    flight. *)
Definition performMonitoringChecks (rt : Runtime) : Runtime :=
  mkRuntime (monitor rt) (intervals rt) (next_handle rt)
    (S (unsettled_checks rt)).

(** [start()]. *)
Definition start (rt : Runtime) : Runtime :=
  if isRunning (monitor rt) then rt
  else
    let rt1 :=
      performMonitoringChecks
        (mkRuntime (mkMonitor (monitoringInterval (monitor rt)) true)
           (intervals rt) (next_handle rt) (unsettled_checks rt)) in
    let h := next_handle rt1 in
    mkRuntime (mkMonitor (Some h) true) (h :: intervals rt1) (S h)
      (unsettled_checks rt1).

(** [stop()]. *)
Definition stop (rt : Runtime) : Runtime :=
  match monitoringInterval (monitor rt) with
  | Some h =>
    mkRuntime (mkMonitor None false)
      (filter (fun h' => h' <> h) (intervals rt)) (next_handle rt)
      (unsettled_checks rt)
  | None =>
    mkRuntime (mkMonitor None false) (intervals rt) (next_handle rt)
      (unsettled_checks rt)
  end.

(** What can happen next: a call of [start] or [stop], the expiry of an
    interval timer that is set (its callback calls
    [performMonitoringChecks]), or the settling of a call in flight. *)
Inductive occurrence :=
  | CallStart
  | CallStop
  | IntervalExpires (h : nat)
  | ChecksSettle.

Definition step (o : occurrence) (rt : Runtime) : option Runtime :=
  match o with
  | CallStart => Some (start rt)
  | CallStop => Some (stop rt)
  | IntervalExpires h =>
    if bool_decide (h ∈ intervals rt) then Some (performMonitoringChecks rt)
    else None
  | ChecksSettle =>
    match unsettled_checks rt with
    | O => None
    | S n =>
      Some (mkRuntime (monitor rt) (intervals rt) (next_handle rt) n)
    end
  end.

Fixpoint run (l : list occurrence) (rt : Runtime) : option Runtime :=
  match l with
  | [] => Some rt
  | o :: rest =>
    match step o rt with
    | Some rt' => run rest rt'
    | None => None
    end
  end.

(** ** Requests against the service *)

(** The requests of the model, each with the authenticated user, the
    time at which it is served and its parameters: the routes of
    routes/usage.js and routes/killswitch.js above, the suspension and the
    reactivation of routes/agents.js, and the loop check of the
    monitor. *)
Inductive request :=
  | PostRecord (user : nat) (now : Z) (b : body.t)
  | PostRecordBulk (user : nat) (now : Z) (b : bulk_body.t)
  | PostEmergencyStopAll (user : nat) (now : Z) (reason : option string)
      (confirm : option bool)
  | PostEmergencyStopDisable (user : nat) (now : Z)
  | PostKillCustomer (user : nat) (now : Z) (customerId : string)
      (reason : option string)
  | PostKillAgent (user : nat) (now : Z) (agentId : string)
      (reason : option string)
  | PostPauseAgent (user : nat) (now : Z) (agentId : string)
      (duration_minutes : option Z) (reason : option string)
  | PostReviveAgent (user : nat) (now : Z) (agentId : string)
      (reason : option string)
  | PostReviveAgentNull (user : nat) (agentId : string)
  | PostSuspendAgent (user : nat) (agentId : string)
  | PostReactivateAgent (user : nat) (agentId : string)
  | MonitorLoopCheck (now : Z).

Definition on_db (f : Database -> Database * response) (w : World)
  : World * option response :=
  let '(d, r) := f (db w) in (with_db d w, Some r).

Definition serve (q : request) (w : World) : World * option response :=
  match q with
  | PostRecord user now b =>
    let '(w1, r) := record user now b w in (w1, Some r)
  | PostRecordBulk user now b =>
    let '(w1, r) := record_bulk user now b w in (w1, Some r)
  | PostEmergencyStopAll user now reason confirm =>
    on_db (emergency_stop_all user now reason confirm) w
  | PostEmergencyStopDisable user now =>
    on_db (emergency_stop_disable user now) w
  | PostKillCustomer user now customerId reason =>
    on_db (kill_customer user now customerId reason) w
  | PostKillAgent user now agentId reason =>
    on_db (kill_agent user now agentId reason) w
  | PostPauseAgent user now agentId duration_minutes reason =>
    on_db (pause_agent user now agentId duration_minutes reason) w
  | PostReviveAgent user now agentId reason =>
    on_db (revive_agent user now agentId reason) w
  | PostReviveAgentNull user agentId =>
    on_db (revive_agent_null user agentId) w
  | PostSuspendAgent user agentId =>
    match suspendAgent agentId user (db w) with
    | Some d => (with_db d w, Some (resp_ok "Agent suspended successfully"))
    | None => (w, Some (resp_not_found "Agent not found"))
    end
  | PostReactivateAgent user agentId =>
    match reactivateAgent agentId user (db w) with
    | Some d => (with_db d w, Some (resp_ok "Agent reactivated successfully"))
    | None => (w, Some (resp_not_found "Agent not found"))
    end
  | MonitorLoopCheck now => (with_db (checkInfiniteLoops now (db w)) w, None)
  end.

Definition serve_all (l : list request) (w : World) : World :=
  foldl (fun w q => fst (serve q w)) w l.

(** ** Example data *)

(** 7 August 2025, 00:00 UTC. *)
Definition t0 : Z := 1754524800000.

Definition example_body (agentId : string) (cost : Z) : body.t :=
  body.mk (Some "completion") (Some agentId) (Some "customer-1")
    (Some "openai") (Some "gpt-4") (Some cost) None None None None None None
    None.

Definition not_stopped : global_kill_switch.row :=
  global_kill_switch.mk false None None None.

Definition emergency : global_kill_switch.row :=
  global_kill_switch.mk true (Some t0) (Some 1%nat) (Some "incident").

(** An agent of user 1 with a monthly limit of 10 dollars. *)
Definition agent_x : agents.row :=
  agents.mk 1 1 "agent-x" "agent-x" false (Some (usd 10)) active None None
    None None.

(** An agent of user 1 without a limit. *)
Definition agent_free : agents.row :=
  agents.mk 2 1 "agent-free" "agent-free" false None active None None None
    None.

(** An agent of user 1 that the budget middleware has suspended. *)
Definition agent_over : agents.row :=
  agents.mk 3 1 "agent-over" "agent-over" true (Some (usd 10)) active None
    None None None.

Definition world_x : World :=
  mkWorld (mkDatabase [agent_x; agent_free; agent_over] [] [] [] not_stopped)
    (mkRedis true ∅).

Definition world_stopped : World :=
  mkWorld (mkDatabase [agent_x; agent_free; agent_over] [] [] [] emergency)
    (mkRedis true ∅).

(** The value that validation makes of [example_body agentId cost] at
    time [now]. *)
Definition example_event (agentId : string) (cost now : Z) : event.t :=
  event.mk "completion" agentId "customer-1" "openai" (Some "gpt-4") cost
    "USD" None None None None None now.

(** An agent of user 1 that was paused at [t0] for five minutes. *)
Definition agent_paused : agents.row :=
  agents.mk 4 1 "agent-paused" "agent-paused" false None paused
    (Some "maintenance") None None (Some (t0 + minutes_ms 5)).

Definition world_paused : World :=
  mkWorld (mkDatabase [agent_x; agent_paused] [] [] [] not_stopped)
    (mkRedis true ∅).

(** A ledger row of user 1 and customer 1. *)
Definition example_row (id agent_uuid : nat) (cost time : Z)
  (model : string) (request_hash : option string) : usage_events.row :=
  usage_events.mk id 1 1 agent_uuid "completion" "openai" (Some model) cost
    "USD" None None 0 request_hash None time time.

(** [agent_x] has spent 12 dollars this month, and its entry in the cache
    is present and reads 0. *)
Definition world_zero_entry : World :=
  mkWorld
    (mkDatabase [agent_x] []
       [example_row 1 1 (usd 12) (t0 - minutes_ms 60) "gpt-4" None] []
       not_stopped)
    (mkRedis true {[ (month_of t0, "agent-x") := 0 ]}).

(** The same, with no entry in the cache. *)
Definition world_no_entry : World :=
  mkWorld (db world_zero_entry) (mkRedis true ∅).

(** An agent of user 1 that was killed at [t0]. *)
Definition agent_dead : agents.row :=
  agents.mk 5 1 "agent-dead" "agent-dead" false None killed (Some "runaway")
    (Some t0) (Some 1%nat) None.

Definition world_mixed : World :=
  mkWorld
    (mkDatabase [agent_x; agent_free; agent_over; agent_paused; agent_dead]
       [] [] [] not_stopped)
    (mkRedis true ∅).

(** A batch of two events, the second for the killed agent. *)
Definition example_batch : bulk_body.t :=
  bulk_body.mk None None
    [example_body "agent-free" (usd 1); example_body "agent-dead" (usd 1)].

(** [n] ledger rows of one agent with ids from [first], all created at
    [time] with the same event name, model and request hash. *)
Definition loop_events (first n agent_uuid : nat) (time : Z)
  (model hash : string) : list usage_events.row :=
  map (fun i => example_row (first + i) agent_uuid 10000 time model
                  (Some hash))
    (seq 0 n).

Definition ledger_world (l : list usage_events.row) : Database :=
  mkDatabase [agent_x; agent_free; agent_over; agent_paused; agent_dead] []
    l [] not_stopped.

(** The active agent 2 has repeated one request 50 times, or 49 times, in
    the last minute. *)
Definition db_loop_50 : Database :=
  ledger_world (loop_events 1 50 2 (t0 - minutes_ms 1) "gpt-4" "h1").

Definition db_loop_49 : Database :=
  ledger_world (loop_events 1 49 2 (t0 - minutes_ms 1) "gpt-4" "h1").

(** The paused agent 4 has repeated one request 50 times before it was
    paused. *)
Definition db_loop_paused : Database :=
  ledger_world (loop_events 1 50 4 (t0 - minutes_ms 1) "gpt-4" "h1").

(** The active agent 2 has sent 50 requests with one request hash, half
    of them to another model. *)
Definition db_loop_models : Database :=
  ledger_world
    (loop_events 1 25 2 (t0 - minutes_ms 1) "gpt-4" "h1"
     ++ loop_events 26 25 2 (t0 - minutes_ms 1) "gpt-3.5-turbo" "h1").

(** The active agent 2 runs two loops at once, of 50 requests each. *)
Definition db_two_loops : Database :=
  ledger_world
    (loop_events 1 50 2 (t0 - minutes_ms 1) "gpt-4" "h1"
     ++ loop_events 51 50 2 (t0 - minutes_ms 1) "gpt-4" "h2").

(** An agent of user 1 that the budget middleware has suspended and that
    was killed afterwards. *)
Definition agent_late : agents.row :=
  agents.mk 6 1 "agent-late" "agent-late" true (Some (usd 10)) killed
    (Some "runaway") (Some t0) (Some 1%nat) None.

Definition world_late : World :=
  mkWorld (mkDatabase [agent_x; agent_late] [] [] [] not_stopped)
    (mkRedis true ∅).

(** ** Vocabulary of the properties *)

(** The global emergency stop is on. *)
Definition stopped (d : Database) : Prop :=
  global_kill_switch.is_emergency_stopped (global_kill_switch d) = true.

(** The two helpers of the handler find or create their rows: the
    customer and the agent that an event names are there, or their ids
    fit the columns. *)
Definition creatable (user : nat) (v : event.t) (d : Database) : bool :=
  (bool_decide (is_Some (customer_by_external user (event.customer_id v) d))
   || varchar 255 (event.customer_id v))
  && (bool_decide (is_Some (agent_by_external (event.agent_id v) user d))
      || varchar 255 (event.agent_id v)).

(** No INSERT of the handler fails for the event: the helpers find or
    create their rows, and the values of the event fit the columns of
    the ledger. *)
Definition recordable (user : nat) (v : event.t) (d : Database) : bool :=
  creatable user v d && fits_usage_events v.

(** The values of an event fit the columns of the three tables that the
    handler writes, whether or not its customer and its agent are there
    already. *)
Definition fits_columns (v : event.t) : bool :=
  varchar 255 (event.customer_id v) && varchar 255 (event.agent_id v)
  && fits_usage_events v.

(** An update that keeps the three keys of a row. *)
Definition keeps_keys (f : agents.row -> agents.row) : Prop :=
  forall r, agents.id (f r) = agents.id r
            /\ agents.user_id (f r) = agents.user_id r
            /\ agents.agent_id (f r) = agents.agent_id r.

(** [id UUID PRIMARY KEY]: no two rows of [agents] have the same id. *)
Definition primary_key (d : Database) : Prop :=
  NoDup (map agents.id (agents d)).

(** A row and what a request can make of it: the keys stay, and a row
    that is suspended stays suspended. *)
Definition row_le (r r' : agents.row) : Prop :=
  agents.id r' = agents.id r /\ agents.user_id r' = agents.user_id r
  /\ agents.agent_id r' = agents.agent_id r
  /\ (agents.is_suspended r = true -> agents.is_suspended r' = true).

(** A table and what a request can make of it: the rows evolve in place,
    and new rows come after them. *)
Definition grows (l l' : list agents.row) : Prop :=
  exists l1 l2, l' = l1 ++ l2 /\ Forall2 row_le l l1.

Definition keeps_suspension (f : agents.row -> agents.row) : Prop :=
  forall r, agents.is_suspended r = true -> agents.is_suspended (f r) = true.

(** The one request of the model that clears [is_suspended]. *)
Definition reactivation (q : request) : Prop :=
  match q with
  | PostReactivateAgent _ _ => True
  | _ => False
  end.

(** A row that the kill-switch check refuses: killed, or paused with a
    [pause_until] that has not elapsed (or is missing). *)
Definition inactive_row (now : Z) (a : agents.row) : Prop :=
  agents.status a = killed
  \/ (agents.status a = paused
      /\ pause_elapsed now (agents.pause_until a) = false).

(** The agent that a request of [user] names by [agentId] is not active:
    the emergency stop is on, or its row is refused. *)
Definition inactive (user : nat) (now : Z) (d : Database) (agentId : string)
  : Prop :=
  stopped d
  \/ exists a, agent_by_external agentId user d = Some a /\ inactive_row now a.

(** The events of agent [u] in the window of the query that share the
    event name, the model and the request hash [h]. *)
Definition repeats (now : Z) (u : nat) (name : string)
  (model : option string) (h : string) (e : usage_events.row) : Prop :=
  usage_events.agent_id e = u
  /\ now - 600000 <= usage_events.created_at e
  /\ usage_events.event_name e = name
  /\ usage_events.model e = model
  /\ usage_events.request_hash e = Some h.

#[global] Instance repeats_dec now u name model h e :
  Decision (repeats now u name model h e).
Proof. unfold repeats. apply _. Defined.

(** What [start] and [stop] maintain: the runtime holds the timer of
    [monitoringInterval] and no other, and [isRunning] tells whether
    there is one. *)
Definition scheduled (rt : Runtime) : Prop :=
  intervals rt
  = match monitoringInterval (monitor rt) with
    | Some h => [h]
    | None => []
    end
  /\ (isRunning (monitor rt) = true
      <-> is_Some (monitoringInterval (monitor rt))).

(** ** config/redis.js: resetting an entry *)

(** [resetAgentSpend(agentId)]: HDEL on the hash of the current month;
    [false] when Redis refuses the command and the client throws. *)
Definition resetAgentSpend (now : Z) (agentId : string) (r : Redis)
  : Redis * bool :=
  if redis_up r then
    (mkRedis (redis_up r) (delete (month_of now, agentId) (agent_spend r)),
     true)
  else (r, false).

(** ** routes/killswitch.js: the status that GET /status reports *)

(** The column [effective_status] of GET /status. *)
Definition effective_status (now : Z) (r : agents.row) : agent_status :=
  if bool_decide (agents.status r = paused)
     && pause_in_future now (agents.pause_until r) then paused
  else if bool_decide (agents.status r = paused)
          && pause_elapsed now (agents.pause_until r) then active
  else agents.status r.

(** ** routes/agents.js: the budget of an agent *)

(** [SET monthly_cost_limit = $1]. *)
Definition set_limit (monthly_cost_limit : option Z) (r : agents.row)
  : agents.row :=
  agents.mk (agents.id r) (agents.user_id r) (agents.agent_id r)
    (agents.agent_name r) (agents.is_suspended r) monthly_cost_limit
    (agents.status r) (agents.kill_reason r) (agents.killed_at r)
    (agents.killed_by r) (agents.pause_until r).

(** [monthly_cost_limit DECIMAL(10, 2)] of migration 001: an amount of
    100 million dollars or more does not fit. *)
Definition decimal_10_2 (z : Z) : bool :=
  Z.abs z <? 100000000 * 1000000.

(** [Joi.number().positive().precision(2)] of [setBudgetSchema]: the
    validated amount is positive and rounded to whole cents. *)
Definition budget_amount (z : Z) : bool :=
  (0 <? z) && (z mod 10000 =? 0).

Definition resp_budget_failed : response :=
  mkResponse 500 "Failed to update budget limit" None [].

(** PATCH /:agentId/budget of routes/agents.js, from the point where
    [setBudgetSchema] has accepted the body: [monthly_cost_limit] is the
    validated value, a [budget_amount], or [None] for null.  The schema does not bound the amount: one that does not fit
    the column makes the UPDATE throw, and the route answers 500.  Of
    the answer the status and the message are kept. *)
Definition patch_budget (user : nat) (agentId : string)
  (monthly_cost_limit : option Z) (d : Database) : Database * response :=
  if from_option decimal_10_2 true monthly_cost_limit then
    let '(d1, rows) :=
      update_returning
        (fun r => bool_decide (agents.agent_id r = agentId)
                  && bool_decide (agents.user_id r = user))
        (set_limit monthly_cost_limit) d in
    match rows with
    | [] => (d1, resp_not_found "Agent not found")
    | _ :: _ => (d1, resp_ok "Budget limit updated successfully")
    end
  else (d, resp_budget_failed).

(** ** services/kill-switch-monitor.js: spend rates and error rates *)

(** [kill_switch_triggers]; the threshold is counted in millionths, the
    resolution of its DECIMAL(15,6) column (target_scope, metadata and
    the time stamps are left out).  The requests of the model do not
    write this table, so the monitor takes it beside the database. *)
Module kill_switch_triggers.
Record row := mk {
  id : nat;
  user_id : nat;
  trigger_name : string;
  trigger_type : string;
  threshold_value : option Z;
  threshold_unit : option string;
  is_active : bool
}.
End kill_switch_triggers.

(** The text that node-postgres gives for a value of a DECIMAL(15,6)
    column, such as 100.000000. *)
Definition decimal6 (z : Z) : string :=
  (if z <? 0 then "-" else "") +:+ pretty (Z.abs z / 1000000) +:+ "."
  +:+ String.substring 1 6 (pretty (1000000 + Z.abs z mod 1000000)).

(** [triggerAutoKill(trigger, violation)] for a trigger whose
    [threshold_value] is a value of that column: the reason quotes the
    text of the threshold. *)
Definition decimal_reason (trigger_name trigger_type : string)
  (threshold_value : Z) : string :=
  "Auto-kill triggered: " +:+ trigger_name +:+ " (" +:+ trigger_type
  +:+ ") exceeded threshold of " +:+ decimal6 threshold_value.

Definition triggerAutoKill_decimal (now : Z) (user_id : nat)
  (trigger_name trigger_type : string) (threshold_value : Z)
  (violation : violation.t) (d : Database) : Database :=
  let reason := decimal_reason trigger_name trigger_type threshold_value in
  let d1 :=
    update_agents
      (fun r => bool_decide (agents.id r = violation.agent_uuid violation)
                && bool_decide (agents.status r = active))
      (auto_kill now reason) d in
  logKillSwitchEvent "kill_agent" "agent"
    (Some (violation.agent_id violation)) user_id reason
    ("auto_" +:+ trigger_type) now d1.

(** [JOIN customers c ON ue.customer_id = c.id]. *)
Definition customer_by_id (id : nat) (d : Database) : option customers.row :=
  head (filter (fun c => customers.id c = id) (customers d)).

(** The columns by which the spend queries group: a.id, a.agent_id,
    a.agent_name and c.customer_id. *)
Definition spend_group : Type := nat * string * string * string.

(** The row of usage_events JOIN agents JOIN customers for one event,
    with its cost, when it passes the WHERE clause of the spend queries:
    of the user of the trigger, created in the window, agent active. *)
Definition spend_row_of (user : nat) (since : Z) (d : Database)
  (e : usage_events.row) : option (spend_group * Z) :=
  match agent_by_id (usage_events.agent_id e) d,
        customer_by_id (usage_events.customer_id e) d with
  | Some a, Some c =>
    if bool_decide (usage_events.user_id e = user)
       && (since <=? usage_events.created_at e)
       && bool_decide (agents.status a = active)
    then Some ((agents.id a, agents.agent_id a, agents.agent_name a,
                customers.customer_id c), usage_events.cost_amount e)
    else None
  | _, _ => None
  end.

(** SUM(ue.cost_amount) and COUNT( * ) of a group. *)
Definition total_cost (g : spend_group) (l : list (spend_group * Z)) : Z :=
  foldr Z.add 0 (map snd (filter (fun x => x.1 = g) l)).

Definition event_count (g : spend_group) (l : list (spend_group * Z)) : nat :=
  length (filter (fun x => x.1 = g) l).

(** The rows of a spend query: the groups with
    [HAVING SUM(ue.cost_amount) > $2]. *)
Definition spendRateQuery (user : nat) (since threshold : Z) (d : Database)
  : list (spend_group * Z * nat) :=
  let joined := omap (spend_row_of user since d) (usage_events d) in
  omap (fun g : spend_group =>
          if threshold <? total_cost g joined
          then Some (g, total_cost g joined, event_count g joined)
          else None)
       (remove_dups (map fst joined)).

(** The start of the window of a trigger: one minute or one hour before
    NOW() for [spend_rate], CURRENT_DATE for [total_daily_spend] (the
    start of the day of NOW(), the time zone of the session being UTC);
    for any other type [checkSpendRateTrigger] has no query. *)
Definition timeWindow (now : Z) (t : kill_switch_triggers.row) : option Z :=
  if bool_decide (kill_switch_triggers.trigger_type t = "spend_rate") then
    if bool_decide (kill_switch_triggers.threshold_unit t = Some "per_hour")
    then Some (now - 3600000)
    else Some (now - 60000)
  else if bool_decide (kill_switch_triggers.trigger_type t
                       = "total_daily_spend")
  then Some (now - now mod 86400000)
  else None.

(** The body of the loop of [checkSpendRateTrigger], for one row of the
    query. *)
Definition spend_kill (now : Z) (t : kill_switch_triggers.row)
  (threshold : Z) (d : Database) (row : spend_group * Z * nat) : Database :=
  triggerAutoKill_decimal now (kill_switch_triggers.user_id t)
    (kill_switch_triggers.trigger_name t)
    (kill_switch_triggers.trigger_type t) threshold
    (violation.mk row.1.1.1.1.2 row.1.1.1.1.1 (Z.of_nat row.2)) d.

(** [checkSpendRateTrigger(trigger)].  Without a query [db.query]
    throws and the error is caught; with a threshold that is NULL the
    HAVING clause is true of no group. *)
Definition checkSpendRateTrigger (now : Z) (t : kill_switch_triggers.row)
  (d : Database) : Database :=
  match timeWindow now t, kill_switch_triggers.threshold_value t with
  | Some since, Some threshold =>
    foldl (spend_kill now t threshold) d
      (spendRateQuery (kill_switch_triggers.user_id t) since threshold d)
  | _, _ => d
  end.

(** [checkSpendRates()]: the active triggers of the two spend types, in
    turn. *)
Definition checkSpendRates (now : Z)
  (triggers : list kill_switch_triggers.row) (d : Database) : Database :=
  foldl (fun d t => checkSpendRateTrigger now t d) d
    (filter (fun t => kill_switch_triggers.is_active t = true
                      /\ (kill_switch_triggers.trigger_type t = "spend_rate"
                          \/ kill_switch_triggers.trigger_type t
                             = "total_daily_spend"))
       triggers).

(** The columns by which [agent_stats] groups: a.id, a.agent_id and
    a.user_id. *)
Definition stats_group : Type := nat * string * nat.

(** The row of usage_events JOIN agents for one event, with whether its
    metadata has the key [error], when it passes the WHERE clause of
    [agent_stats]: created in the last 15 minutes, agent active. *)
Definition stats_row_of (now : Z) (d : Database) (e : usage_events.row)
  : option (stats_group * bool) :=
  match agent_by_id (usage_events.agent_id e) d with
  | Some a =>
    if (now - 900000 <=? usage_events.created_at e)
       && bool_decide (agents.status a = active)
    then Some ((agents.id a, agents.agent_id a, agents.user_id a),
               bool_decide (is_Some (usage_events.error e)))
    else None
  | None => None
  end.

Definition total_requests (g : stats_group) (l : list (stats_group * bool))
  : nat :=
  length (filter (fun x => x.1 = g) l).

Definition error_count (g : stats_group) (l : list (stats_group * bool))
  : nat :=
  length (filter (fun x => x.1 = g /\ x.2 = true) l).

(** [ast.error_rate > t.threshold_value], where the rate is
    [error_count * 100.0 / COUNT( * )].  PostgreSQL computes the quotient
    as a NUMERIC of at least 16 significant digits, so that for up to
    10^8 events in the window the comparison with a threshold of six
    decimals is the exact one. *)
Definition error_rate_exceeds (errors total : nat) (threshold : Z) : bool :=
  threshold * Z.of_nat total <? Z.of_nat errors * 100 * 1000000.

(** The rows of the error-rate query: the groups of at least 10 events,
    joined with the active [error_rate] triggers of the user of the
    agent whose threshold the rate exceeds. *)
Definition errorRateQuery (now : Z) (triggers : list kill_switch_triggers.row)
  (d : Database) : list (stats_group * nat * nat * Z) :=
  let joined := omap (stats_row_of now d) (usage_events d) in
  let agent_stats :=
    omap (fun g : stats_group =>
            if (10 <=? total_requests g joined)%nat
            then Some (g, total_requests g joined, error_count g joined)
            else None)
         (remove_dups (map fst joined)) in
  flat_map
    (fun ast : stats_group * nat * nat =>
       omap (fun t =>
               match kill_switch_triggers.threshold_value t with
               | Some threshold =>
                 if bool_decide (kill_switch_triggers.user_id t = ast.1.1.2)
                    && bool_decide (kill_switch_triggers.trigger_type t
                                    = "error_rate")
                    && kill_switch_triggers.is_active t
                    && error_rate_exceeds ast.2 ast.1.2 threshold
                 then Some (ast.1.1, ast.1.2, ast.2, threshold)
                 else None
               | None => None
               end)
            triggers)
    agent_stats.

(** The body of the loop of [checkErrorRates], for one row of the
    query. *)
Definition error_kill (now : Z) (d : Database)
  (row : stats_group * nat * nat * Z) : Database :=
  triggerAutoKill_decimal now row.1.1.1.2 "Auto Error Rate Detection"
    "error_rate" row.2
    (violation.mk row.1.1.1.1.2 row.1.1.1.1.1 (Z.of_nat row.1.1.2)) d.

(** [checkErrorRates()]: one [triggerAutoKill] per row of the query, in
    turn. *)
Definition checkErrorRates (now : Z)
  (triggers : list kill_switch_triggers.row) (d : Database) : Database :=
  foldl (error_kill now) d (errorRateQuery now triggers d).

(** ** Example data, continued *)

(** A ledger row of user 1 and customer 1 that reports an error. *)
Definition failed_row (id agent_uuid : nat) (time : Z) : usage_events.row :=
  usage_events.mk id 1 1 agent_uuid "completion" "openai" (Some "gpt-4")
    10000 "USD" None None 0 None (Some "timeout") time time.

(** ** Vocabulary of the properties, continued *)

(** [UNIQUE(user_id, agent_id)] and [UNIQUE(user_id, customer_id)] of
    schema.sql. *)
Definition unique_agent_id (d : Database) : Prop :=
  NoDup (map (fun r => (agents.user_id r, agents.agent_id r)) (agents d)).


(** The requests that a user makes about agents of their own. *)
Definition request_of (user : nat) (q : request) : Prop :=
  match q with
  | PostRecord u _ _ | PostRecordBulk u _ _ | PostKillCustomer u _ _ _
  | PostKillAgent u _ _ _ | PostPauseAgent u _ _ _ _
  | PostReviveAgent u _ _ _ | PostReviveAgentNull u _
  | PostSuspendAgent u _ | PostReactivateAgent u _ => u = user
  | PostEmergencyStopAll _ _ _ _ | PostEmergencyStopDisable _ _
  | MonitorLoopCheck _ => False
  end.

(** The rows of the agents of the other users. *)
Definition others (user : nat) (d : Database) : list agents.row :=
  filter (fun r => agents.user_id r <> user) (agents d).

(** A step that keeps the two keys of [agents]. *)
Definition keys_kept (d d' : Database) : Prop :=
  (primary_key d -> primary_key d')
  /\ (unique_agent_id d -> unique_agent_id d').

(** A step that keeps the keys and, under the primary key, the agents
    of the users other than [user]. *)
Definition kept (user : nat) (d d' : Database) : Prop :=
  (primary_key d -> primary_key d' /\ others user d' = others user d)
  /\ (unique_agent_id d -> unique_agent_id d').

(** The agents that the events of a batch name pass the kill-switch
    check, as far as the user has them. *)
Definition admissible (user : nat) (now : Z) (events : list event.t)
  (d : Database) : Prop :=
  forall v a, v ∈ events ->
    agent_by_external (event.agent_id v) user d = Some a ->
    ~ inactive_row now a.

(** What an agent has spent for one customer since the start of a
    window, in events of one user. *)
Definition spent_since (user : nat) (since : Z) (u : nat) (cid : string)
  (d : Database) : Z :=
  foldr Z.add 0
    (map usage_events.cost_amount
       (filter (fun e => usage_events.user_id e = user
                         /\ usage_events.agent_id e = u
                         /\ since <= usage_events.created_at e
                         /\ customers.customer_id
                              <$> customer_by_id (usage_events.customer_id e) d
                            = Some cid)
          (usage_events d))).

(** The events of an agent in the last 15 minutes, and those of them
    that report an error. *)
Definition recent_events (now : Z) (u : nat) (d : Database)
  : list usage_events.row :=
  filter (fun e => usage_events.agent_id e = u
                   /\ now - 900000 <= usage_events.created_at e)
    (usage_events d).

Definition recent_errors (now : Z) (u : nat) (d : Database)
  : list usage_events.row :=
  filter (fun e => is_Some (usage_events.error e)) (recent_events now u d).

(** * Properties *)

(** ** Rows and tables *)

Section Select.
Context {A : Type} (P : A -> Prop) `{!forall x, Decision (P x)}.

Lemma select_map (f : A -> A) (l : list A) :
  (forall x, P (f x) <-> P x) ->
  head (filter P (map f l)) = f <$> head (filter P l).
Proof.
  intros Hf. induction l as [|x l IH]; [reflexivity|].
  cbn [map]. rewrite !filter_cons.
  destruct (decide (P (f x))) as [Hy|Hn], (decide (P x)) as [Hx|Hx];
    [reflexivity | | | exact IH].
  - exfalso. apply Hx, Hf, Hy.
  - exfalso. apply Hn, Hf, Hx.
Qed.

Lemma select_app (l1 l2 : list A) (x : A) :
  head (filter P l1) = Some x -> head (filter P (l1 ++ l2)) = Some x.
Proof.
  rewrite filter_app. destruct (filter P l1); [discriminate|]. auto.
Qed.

Lemma select_app_none (l1 l2 : list A) :
  head (filter P l1) = None ->
  head (filter P (l1 ++ l2)) = head (filter P l2).
Proof.
  rewrite filter_app. destruct (filter P l1); [reflexivity | discriminate].
Qed.

Lemma select_some (l : list A) (x : A) :
  head (filter P l) = Some x -> x ∈ l /\ P x.
Proof.
  intros Hx. apply head_Some_elem_of in Hx.
  by apply list_elem_of_filter in Hx as [? ?].
Qed.

Lemma select_none (l : list A) :
  head (filter P l) = None -> forall x, x ∈ l -> ~ P x.
Proof.
  intros Hl x Hx HP. apply head_None in Hl.
  assert (Hin : x ∈ filter P l) by (apply list_elem_of_filter; auto).
  rewrite Hl in Hin. by apply not_elem_of_nil in Hin.
Qed.

Lemma select_absent (l : list A) :
  (forall x, x ∈ l -> ~ P x) -> head (filter P l) = None.
Proof.
  intros Hl. destruct (head (filter P l)) as [x|] eqn:E; [|reflexivity].
  apply select_some in E as [Hx HP]. by apply Hl in Hx.
Qed.

Lemma select_found (l : list A) (x : A) :
  x ∈ l -> P x -> is_Some (head (filter P l)).
Proof.
  intros Hx HP. destruct (head (filter P l)) eqn:E; [eauto|].
  exfalso. eapply select_none; eauto.
Qed.

End Select.

Lemma with_agents_same (d : Database) : with_agents (agents d) d = d.
Proof. by destruct d. Qed.

Lemma map_idle (c : agents.row -> bool) (f : agents.row -> agents.row)
  (l : list agents.row) :
  (forall r, r ∈ l -> c r = false) ->
  map (fun r => if c r then f r else r) l = l.
Proof.
  induction l as [|r l IH]; intros Hc; [reflexivity|].
  cbn [map]. rewrite (Hc r) by constructor.
  f_equal. apply IH. intros r' Hr'. apply Hc. by constructor.
Qed.

Lemma update_agents_idle (c : agents.row -> bool)
  (f : agents.row -> agents.row) (d : Database) :
  (forall r, r ∈ agents d -> c r = false) -> update_agents c f d = d.
Proof.
  intros Hc. unfold update_agents. rewrite map_idle by exact Hc.
  apply with_agents_same.
Qed.

Lemma fresh_id_above (ids : list nat) (x : nat) :
  x ∈ ids -> (x < fresh_id ids)%nat.
Proof.
  unfold fresh_id. induction ids as [|y ids IH]; intros Hx.
  - by apply not_elem_of_nil in Hx.
  - apply elem_of_cons in Hx as [->|Hx]; cbn [foldr]; [lia|].
    specialize (IH Hx). lia.
Qed.

(** ** The kill-switch check *)

Lemma is_agent_active_stopped (p_agent_id p_user_id : nat) (now : Z)
  (d : Database) :
  stopped d -> is_agent_active p_agent_id p_user_id now d = (d, false).
Proof. unfold stopped, is_agent_active. by intros ->. Qed.

Lemma is_agent_active_frame (p_agent_id p_user_id : nat) (now : Z)
  (d : Database) :
  let d' := (is_agent_active p_agent_id p_user_id now d).1 in
  customers d' = customers d /\ usage_events d' = usage_events d
  /\ kill_switch_events d' = kill_switch_events d
  /\ global_kill_switch d' = global_kill_switch d.
Proof.
  unfold is_agent_active.
  repeat (case_match; cbn [fst update_agents with_agents customers
                           usage_events kill_switch_events
                           global_kill_switch]); auto.
Qed.

Lemma ensureCustomerExists_frame (userId : nat) (customerId : string)
  (d d' : Database) (id : nat) :
  ensureCustomerExists userId customerId d = Some (d', id) ->
  agents d' = agents d /\ usage_events d' = usage_events d
  /\ kill_switch_events d' = kill_switch_events d
  /\ global_kill_switch d' = global_kill_switch d.
Proof.
  unfold ensureCustomerExists. intros H.
  repeat case_match; by simplify_eq.
Qed.

Lemma ensureAgentExists_frame (userId : nat) (agentId : string)
  (d d' : Database) (id : nat) :
  ensureAgentExists userId agentId d = Some (d', id) ->
  customers d' = customers d /\ usage_events d' = usage_events d
  /\ kill_switch_events d' = kill_switch_events d
  /\ global_kill_switch d' = global_kill_switch d.
Proof.
  unfold ensureAgentExists. intros H.
  repeat case_match; by simplify_eq.
Qed.

Lemma checkAgentBudgetAfterCreation_frame (agentUuid : nat)
  (requestedCost : Z) (userId : nat) (d : Database) :
  let d' := (checkAgentBudgetAfterCreation agentUuid requestedCost userId d).1
  in
  customers d' = customers d /\ usage_events d' = usage_events d
  /\ kill_switch_events d' = kill_switch_events d
  /\ global_kill_switch d' = global_kill_switch d.
Proof. unfold checkAgentBudgetAfterCreation. by repeat case_match. Qed.

(** The helpers fail on a new id that does not fit the column, and on
    no other. *)
Lemma ensureCustomerExists_None (userId : nat) (customerId : string)
  (d : Database) :
  ensureCustomerExists userId customerId d = None
  <-> customer_by_external userId customerId d = None
      /\ varchar 255 customerId = false.
Proof.
  unfold ensureCustomerExists.
  destruct (customer_by_external _ _ _); [intuition congruence|].
  destruct (varchar 255 customerId); intuition congruence.
Qed.

Lemma ensureAgentExists_None (userId : nat) (agentId : string)
  (d : Database) :
  ensureAgentExists userId agentId d = None
  <-> agent_by_external agentId userId d = None
      /\ varchar 255 agentId = false.
Proof.
  unfold ensureAgentExists.
  destruct (agent_by_external _ _ _); [intuition congruence|].
  destruct (varchar 255 agentId); intuition congruence.
Qed.

Lemma ensureCustomerExists_fits (userId : nat) (customerId : string)
  (d : Database) :
  varchar 255 customerId = true ->
  is_Some (ensureCustomerExists userId customerId d).
Proof.
  intros H. unfold ensureCustomerExists. rewrite H. by case_match.
Qed.

Lemma ensureAgentExists_fits (userId : nat) (agentId : string)
  (d : Database) :
  varchar 255 agentId = true -> is_Some (ensureAgentExists userId agentId d).
Proof.
  intros H. unfold ensureAgentExists. rewrite H. by case_match.
Qed.

Lemma ensureAgentExists_known (userId : nat) (agentId : string)
  (d : Database) (a : agents.row) :
  agent_by_external agentId userId d = Some a ->
  ensureAgentExists userId agentId d = Some (d, agents.id a).
Proof. intros H. unfold ensureAgentExists. by rewrite H. Qed.

Lemma ensureCustomerExists_known (userId : nat) (customerId : string)
  (d : Database) (c : customers.row) :
  customer_by_external userId customerId d = Some c ->
  ensureCustomerExists userId customerId d = Some (d, customers.id c).
Proof. intros H. unfold ensureCustomerExists. by rewrite H. Qed.

Lemma creatable_customer (user : nat) (v : event.t) (d : Database) :
  creatable user v d = true ->
  is_Some (ensureCustomerExists user (event.customer_id v) d).
Proof.
  unfold creatable. intros [H _]%andb_prop.
  destruct (ensureCustomerExists _ _ _) eqn:E; [done|].
  apply ensureCustomerExists_None in E as [E1 E2].
  by rewrite E1, E2 in H.
Qed.

Lemma creatable_agent (user : nat) (v : event.t) (d d1 : Database) :
  creatable user v d = true -> agents d1 = agents d ->
  is_Some (ensureAgentExists user (event.agent_id v) d1).
Proof.
  unfold creatable. intros [_ H]%andb_prop Ha.
  destruct (ensureAgentExists _ _ _) eqn:E; [done|].
  apply ensureAgentExists_None in E as [E1 E2].
  unfold agent_by_external in *. rewrite Ha in E1.
  by rewrite E1, E2 in H.
Qed.

Lemma recordable_creatable (user : nat) (v : event.t) (d : Database) :
  recordable user v d = true ->
  creatable user v d = true /\ fits_usage_events v = true.
Proof. unfold recordable. by intros ?%andb_prop. Qed.

Lemma fits_columns_recordable (user : nat) (v : event.t) (d : Database) :
  fits_columns v = true -> recordable user v d = true.
Proof.
  unfold fits_columns, recordable, creatable.
  intros [[-> ->]%andb_prop ->]%andb_prop. by rewrite !orb_true_r.
Qed.

Lemma fits_columns_varchar (v : event.t) :
  fits_columns v = true ->
  varchar 255 (event.customer_id v) = true
  /\ varchar 255 (event.agent_id v) = true
  /\ fits_usage_events v = true.
Proof.
  unfold fits_columns. by intros [[-> ->]%andb_prop ->]%andb_prop.
Qed.

(** [ensureAgentExists] returns the id of a row of the user. *)
Lemma ensureAgentExists_found (userId : nat) (agentId : string)
  (d d' : Database) (id : nat) :
  ensureAgentExists userId agentId d = Some (d', id) ->
  is_Some (agent_by_id_user id userId d').
Proof.
  unfold ensureAgentExists.
  destruct (agent_by_external agentId userId d) as [a|] eqn:E.
  - intros [= <- <-]. apply select_some in E as [Hin [_ Hu]].
    unfold agent_by_id_user. eapply select_found; eauto.
  - destruct (varchar 255 agentId); [|done]. intros [= <- <-].
    unfold agent_by_id_user. cbn [agents with_agents].
    eapply select_found.
    + apply elem_of_app. right. constructor.
    + done.
Qed.

Lemma fresh_agent_unknown (userId : nat) (d : Database) :
  agent_by_id_user (fresh_id (map agents.id (agents d))) userId d = None.
Proof.
  unfold agent_by_id_user. apply select_absent. intros r Hr [Hid _].
  assert (Hlt : (agents.id r < fresh_id (map agents.id (agents d)))%nat).
  { apply fresh_id_above, list_elem_of_fmap. eauto. }
  lia.
Qed.

(** A new agent passes the check that was deferred to its creation. *)
Lemma new_agent_allowed (userId : nat) (agentId : string) (cost : Z)
  (d : Database) :
  agent_by_external agentId userId d = None ->
  forall d' id,
  ensureAgentExists userId agentId d = Some (d', id) ->
  checkAgentBudgetAfterCreation id cost userId d'
  = (d', Some (Allowed (new_agent id userId agentId))).
Proof.
  intros E d' id. unfold ensureAgentExists. rewrite E.
  destruct (varchar 255 agentId); [|done]. intros [= <- <-].
  unfold checkAgentBudgetAfterCreation.
  replace (agent_by_id_user _ _ _)
    with (Some (new_agent (fresh_id (map agents.id (agents d))) userId
                  agentId)); [reflexivity|].
  unfold agent_by_id_user. cbn [agents with_agents].
  rewrite select_app_none by apply fresh_agent_unknown.
  rewrite filter_cons. by rewrite decide_True.
Qed.

(** ** The budget middleware *)

Lemma required_string_inr (key : string) (v : option string) (s : string) :
  required_string key v = inr s -> v = Some s /\ s <> "".
Proof.
  unfold required_string. destruct v as [[|c s']|]; intros E; by simplify_eq.
Qed.

Lemma usageEventSchema_valid (now : Z) (b : body.t) (v : event.t) :
  usageEventSchema now b = inr v ->
  body.agent_id b = Some (event.agent_id v) /\ event.agent_id v <> ""
  /\ body.cost_amount b = Some (event.cost_amount v)
  /\ 0 < event.cost_amount v.
Proof.
  unfold usageEventSchema. intros E.
  destruct (required_string "event_name" _) as [|s1]; [discriminate|].
  destruct (required_string "agent_id" _) as [|s2] eqn:E2; [discriminate|].
  apply required_string_inr in E2 as [-> Hne].
  repeat case_match; try discriminate. simplify_eq. cbn.
  repeat split; [done|lia].
Qed.

Lemma currentSpend_db (agent : agents.row) (now : Z) (w : World) :
  db (currentSpend agent now w).1 = db w.
Proof. unfold currentSpend. by repeat case_match. Qed.

(** When the middleware calls [next()], it has not written to the
    database, and the request names an agent that is unknown or one that
    is not suspended. *)
Lemma enforceAgentBudget_next (user : nat) (now : Z)
  (agent_id : option string) (cost_amount : option Z) (w w1 : World)
  (check : budget_check) :
  enforceAgentBudget user now agent_id cost_amount w = (w1, Next check) ->
  db w1 = db w /\
  exists aid, agent_id = Some aid /\ aid <> "" /\
    match check with
    | DEFERRED => agent_by_external aid user (db w) = None
    | Checked agent =>
      agent_by_external aid user (db w) = Some agent
      /\ agents.is_suspended agent = false
    end.
Proof.
  unfold enforceAgentBudget. intros E.
  destruct agent_id as [[|c s]|]; try discriminate.
  destruct (agent_by_external _ _ _) as [agent|] eqn:Ea.
  - destruct (agents.is_suspended agent) eqn:Es; [discriminate|].
    destruct (agents.monthly_cost_limit agent) as [limit|].
    + pose proof (currentSpend_db agent now w) as Hdb.
      destruct (currentSpend agent now w) as [w2 current]. cbn in Hdb.
      case_match; simplify_eq. split; [done|]. eexists; eauto.
    + simplify_eq. split; [done|]. eexists; eauto.
  - simplify_eq. split; [done|]. eexists; eauto.
Qed.

Lemma enforceAgentBudget_frame (user : nat) (now : Z)
  (agent_id : option string) (cost_amount : option Z) (w : World) :
  let d' := db (enforceAgentBudget user now agent_id cost_amount w).1 in
  customers d' = customers (db w) /\ usage_events d' = usage_events (db w)
  /\ kill_switch_events d' = kill_switch_events (db w)
  /\ global_kill_switch d' = global_kill_switch (db w).
Proof.
  unfold enforceAgentBudget.
  destruct agent_id as [[|c s]|]; try done.
  destruct (agent_by_external _ _ _) as [agent|]; [|done].
  destruct (agents.is_suspended agent); [done|].
  destruct (agents.monthly_cost_limit agent) as [limit|]; [|done].
  pose proof (currentSpend_db agent now w) as Hdb.
  destruct (currentSpend agent now w) as [w2 current]. cbn in Hdb.
  case_match; cbn; by rewrite Hdb.
Qed.

(** ** Requests under the global emergency stop *)





(** ** Updates keep the keys of a row *)

Lemma keeps_keys_suspend : keeps_keys suspend.
Proof. by intros []. Qed.

Lemma keeps_keys_reactivate : keeps_keys reactivate.
Proof. by intros []. Qed.

Lemma keeps_keys_unpause : keeps_keys unpause.
Proof. by intros []. Qed.

Lemma keeps_keys_kill (now : Z) (by_user : nat) (reason : string) :
  keeps_keys (kill now by_user reason).
Proof. by intros []. Qed.

Lemma keeps_keys_auto_kill (now : Z) (reason : string) :
  keeps_keys (auto_kill now reason).
Proof. by intros []. Qed.

Lemma keeps_keys_pause (until : Z) (reason : string) :
  keeps_keys (pause until reason).
Proof. by intros []. Qed.

Lemma keeps_keys_revive : keeps_keys revive.
Proof. by intros []. Qed.

Create HintDb keys.
#[local] Hint Resolve keeps_keys_suspend keeps_keys_reactivate
  keeps_keys_unpause keeps_keys_kill keeps_keys_auto_kill keeps_keys_pause
  keeps_keys_revive
  : keys.

Lemma keeps_keys_if (c : agents.row -> bool) (f : agents.row -> agents.row) :
  keeps_keys f -> keeps_keys (fun r => if c r then f r else r).
Proof. intros Hf r. destruct (c r); [apply Hf | done]. Qed.

Lemma agent_by_external_update (aid : string) (user : nat)
  (c : agents.row -> bool) (f : agents.row -> agents.row) (d : Database) :
  keeps_keys f ->
  agent_by_external aid user (update_agents c f d)
  = (fun r => if c r then f r else r) <$> agent_by_external aid user d.
Proof.
  intros Hf. unfold agent_by_external, update_agents. cbn [agents with_agents].
  apply select_map. intros r.
  destruct (keeps_keys_if c f Hf r) as (_ & -> & ->). done.
Qed.

Lemma agent_by_id_user_update (id user : nat)
  (c : agents.row -> bool) (f : agents.row -> agents.row) (d : Database) :
  keeps_keys f ->
  agent_by_id_user id user (update_agents c f d)
  = (fun r => if c r then f r else r) <$> agent_by_id_user id user d.
Proof.
  intros Hf. unfold agent_by_id_user, update_agents. cbn [agents with_agents].
  apply select_map. intros r.
  destruct (keeps_keys_if c f Hf r) as (-> & -> & _). done.
Qed.

Lemma agent_by_id_update (id : nat)
  (c : agents.row -> bool) (f : agents.row -> agents.row) (d : Database) :
  keeps_keys f ->
  agent_by_id id (update_agents c f d)
  = (fun r => if c r then f r else r) <$> agent_by_id id d.
Proof.
  intros Hf. unfold agent_by_id, update_agents. cbn [agents with_agents].
  apply select_map. intros r.
  destruct (keeps_keys_if c f Hf r) as (-> & _). done.
Qed.

Lemma update_agents_ids (c : agents.row -> bool)
  (f : agents.row -> agents.row) (d : Database) :
  keeps_keys f ->
  map agents.id (agents (update_agents c f d)) = map agents.id (agents d).
Proof.
  intros Hf. unfold update_agents. cbn [agents with_agents].
  rewrite map_map. apply map_ext. intros r.
  by destruct (keeps_keys_if c f Hf r) as (-> & _).
Qed.

(** ** The primary key of agents *)

Lemma primary_key_row (d : Database) (r1 r2 : agents.row) :
  primary_key d -> r1 ∈ agents d -> r2 ∈ agents d ->
  agents.id r1 = agents.id r2 -> r1 = r2.
Proof.
  unfold primary_key. induction (agents d) as [|r l IH]; intros Hnd H1 H2 Hid.
  - by apply not_elem_of_nil in H1.
  - cbn [map] in Hnd. apply NoDup_cons in Hnd as [Hr Hnd].
    apply elem_of_cons in H1 as [->|H1], H2 as [->|H2]; auto.
    + exfalso. apply Hr. rewrite Hid. apply list_elem_of_fmap. eauto.
    + exfalso. apply Hr. rewrite <- Hid. apply list_elem_of_fmap. eauto.
Qed.

Lemma by_external_by_id_user (aid : string) (user : nat) (d : Database)
  (a : agents.row) :
  primary_key d -> agent_by_external aid user d = Some a ->
  agent_by_id_user (agents.id a) user d = Some a.
Proof.
  intros Hpk E. apply select_some in E as [Hin [_ Hu]].
  destruct (agent_by_id_user (agents.id a) user d) as [r|] eqn:Er.
  - apply select_some in Er as [Hr [Hid _]].
    f_equal. by eapply primary_key_row.
  - exfalso. eapply select_none in Er; eauto.
Qed.

Lemma by_id_user_by_id (id user : nat) (d : Database) (a : agents.row) :
  primary_key d -> agent_by_id_user id user d = Some a ->
  agent_by_id id d = Some a.
Proof.
  intros Hpk E. apply select_some in E as [Hin [Hid Hu]].
  destruct (agent_by_id id d) as [r|] eqn:Er.
  - apply select_some in Er as [Hr Hid'].
    f_equal. eapply primary_key_row; eauto. congruence.
  - exfalso. eapply select_none in Er; eauto.
Qed.

Lemma primary_key_update (c : agents.row -> bool)
  (f : agents.row -> agents.row) (d : Database) :
  keeps_keys f -> primary_key d -> primary_key (update_agents c f d).
Proof. intros Hf. unfold primary_key. by rewrite update_agents_ids. Qed.

(** ** Accepted requests *)

Lemma is_agent_active_active (a : agents.row) (user : nat) (now : Z)
  (d : Database) :
  ~ stopped d -> agent_by_id_user (agents.id a) user d = Some a ->
  agents.status a = active ->
  is_agent_active (agents.id a) user now d = (d, true).
Proof.
  unfold stopped, is_agent_active. intros Hs -> ->.
  by destruct (global_kill_switch.is_emergency_stopped _).
Qed.

(** The handler records the event of a known active agent: one row more
    in the ledger, the cost added to the cache, no other table changed
    but [customers]. *)
Lemma record_handler_accepts (user : nat) (now : Z) (b : body.t)
  (v : event.t) (a a0 : agents.row) (w : World) :
  primary_key (db w) -> ~ stopped (db w) ->
  usageEventSchema now b = inr v ->
  agent_by_external (event.agent_id v) user (db w) = Some a ->
  agents.status a = active ->
  recordable user v (db w) = true ->
  exists d' event_id,
    record_handler user now b (Checked a0) w
    = (mkWorld d'
         (incrementAgentSpend now (event.agent_id v) (event.cost_amount v)
            (redis w)).1,
       resp_recorded event_id now)
    /\ agents d' = agents (db w)
    /\ global_kill_switch d' = global_kill_switch (db w)
    /\ exists customerUuid,
         usage_events d'
         = usage_events (db w)
           ++ [usage_row event_id user customerUuid (agents.id a) now v].
Proof.
  intros Hpk Hs Ev Ea Hact [Hc Hfit]%recordable_creatable.
  unfold record_handler. rewrite Ev.
  destruct (creatable_customer _ _ _ Hc) as [[d1 customerUuid] E1].
  rewrite E1.
  apply ensureCustomerExists_frame in E1 as (Ha1 & Hu1 & _ & Hg1).
  assert (Ea1 : agent_by_external (event.agent_id v) user d1 = Some a)
    by (unfold agent_by_external in *; by rewrite Ha1).
  rewrite (ensureAgentExists_known _ _ _ _ Ea1).
  unfold record_event, checkAgentStatus.
  rewrite is_agent_active_active; try done.
  - unfold insert_usage_event. rewrite Hfit.
    cbn. do 2 eexists. split; [reflexivity|]. cbn.
    repeat split; try done. exists customerUuid. by rewrite Hu1.
  - unfold stopped. by rewrite Hg1.
  - apply (by_external_by_id_user (event.agent_id v)); [|done].
    unfold primary_key. by rewrite Ha1.
Qed.

(** The cache after an increment, read in the same month. *)
Lemma getAgentSpend_increment (now now' : Z) (agentId : string) (cost : Z)
  (r : Redis) :
  redis_up r = true -> month_of now' = month_of now ->
  getAgentSpend now' agentId (incrementAgentSpend now agentId cost r).1
  = getAgentSpend now agentId r + cost.
Proof.
  intros Hup Hm. unfold getAgentSpend, incrementAgentSpend.
  rewrite Hup. cbn. rewrite Hm, lookup_insert_eq.
  by destruct (agent_spend r !! _).
Qed.

Lemma enforceAgentBudget_suspended (user : nat) (now : Z) (aid : string)
  (cost_amount : option Z) (a : agents.row) (w : World) :
  aid <> "" -> agent_by_external aid user (db w) = Some a ->
  agents.is_suspended a = true ->
  enforceAgentBudget user now (Some aid) cost_amount w
  = (w, Respond resp_agent_suspended).
Proof.
  intros Hne Ea Hs. unfold enforceAgentBudget.
  destruct aid as [|c s]; [done|]. by rewrite Ea, Hs.
Qed.

Lemma record_suspended (user : nat) (now : Z) (b : body.t) (aid : string)
  (a : agents.row) (w : World) :
  aid <> "" -> body.agent_id b = Some aid ->
  agent_by_external aid user (db w) = Some a ->
  agents.is_suspended a = true ->
  record user now b w = (w, resp_agent_suspended).
Proof.
  intros Hne Hb Ea Hs. unfold record.
  by rewrite Hb, (enforceAgentBudget_suspended user now aid _ a).
Qed.

(** ** The budget check *)

Lemma enforceAgentBudget_limited (user : nat) (now : Z) (aid : string)
  (cost_amount : option Z) (a : agents.row) (limit : Z) (w : World) :
  aid <> "" -> agent_by_external aid user (db w) = Some a ->
  agents.is_suspended a = false ->
  agents.monthly_cost_limit a = Some limit ->
  enforceAgentBudget user now (Some aid) cost_amount w
  = let '(w1, current) := currentSpend a now w in
    if limit <? current + default 0 cost_amount then
      (with_db (update_agents
                  (fun r => bool_decide (agents.id r = agents.id a))
                  suspend (db w1)) w1,
       Respond (resp_budget_limit_exceeded limit current
                  (default 0 cost_amount)))
    else (w1, Next (Checked a)).
Proof.
  intros Hne Ea Hs Hl. unfold enforceAgentBudget.
  destruct aid as [|c s]; [done|]. by rewrite Ea, Hs, Hl.
Qed.

Lemma currentSpend_cached (a : agents.row) (now : Z) (w : World) :
  getAgentSpend now (agents.agent_id a) (redis w) <> 0 ->
  currentSpend a now w
  = (w, getAgentSpend now (agents.agent_id a) (redis w)).
Proof. intros Hc. unfold currentSpend. by rewrite bool_decide_false. Qed.

Lemma currentSpend_nothing (a : agents.row) (now : Z) (w : World) :
  getAgentSpend now (agents.agent_id a) (redis w) = 0 ->
  month_spend (agents.id a) now (db w) <= 0 ->
  currentSpend a now w = (w, month_spend (agents.id a) now (db w)).
Proof.
  intros Hc Hm. unfold currentSpend. rewrite Hc, bool_decide_true by done.
  by rewrite (proj2 (Z.ltb_ge _ _) Hm).
Qed.

Lemma agent_by_external_keys (aid : string) (user : nat) (d : Database)
  (a : agents.row) :
  agent_by_external aid user d = Some a ->
  agents.agent_id a = aid /\ agents.user_id a = user.
Proof. intros E. by apply select_some in E as [_ ?]. Qed.

(** C2 (amended).  An agent with a monthly limit of 10 dollars and no
    spend in the current month, active and not suspended, with Redis
    serving its commands and no emergency stop: a first request of 6
    dollars, valid and with values that fit the columns of the ledger,
    is recorded (201); a second request of 6 dollars in the same month
    is denied with 403 and BUDGET_LIMIT_EXCEEDED (limit 10, current 6,
    requested 6) and sets [is_suspended] on the agent, whose status
    stays active; a third request, whatever its cost and time, is denied
    with AGENT_SUSPENDED. *)
Theorem budget_scenario (user : nat) (aid : string) (a : agents.row)
  (now1 now2 now3 : Z) (b1 b2 b3 : body.t) (v1 : event.t) (w : World) :
  primary_key (db w) -> ~ stopped (db w) ->
  agent_by_external aid user (db w) = Some a ->
  agents.monthly_cost_limit a = Some (usd 10) ->
  agents.is_suspended a = false -> agents.status a = active ->
  redis_up (redis w) = true ->
  getAgentSpend now1 aid (redis w) = 0 ->
  month_spend (agents.id a) now1 (db w) = 0 ->
  month_of now2 = month_of now1 ->
  usageEventSchema now1 b1 = inr v1 ->
  recordable user v1 (db w) = true ->
  event.agent_id v1 = aid -> event.cost_amount v1 = usd 6 ->
  body.agent_id b2 = Some aid -> body.cost_amount b2 = Some (usd 6) ->
  body.agent_id b3 = Some aid ->
  let '(w1, r1) := record user now1 b1 w in
  let '(w2, r2) := record user now2 b2 w1 in
  let '(w3, r3) := record user now3 b3 w2 in
  http_status r1 = 201%nat
  /\ length (usage_events (db w1)) = S (length (usage_events (db w)))
  /\ r2 = resp_budget_limit_exceeded (usd 10) (usd 6) (usd 6)
  /\ usage_events (db w2) = usage_events (db w1)
  /\ (exists a2, agent_by_external aid user (db w2) = Some a2
                 /\ agents.is_suspended a2 = true
                 /\ agents.status a2 = active)
  /\ r3 = resp_agent_suspended
  /\ w3 = w2.
Proof.
  intros Hpk Hs Ea Hl Hsus Hact Hup Hc Hm Hmonth Ev1 Hfit Hid1 Hcost1 Hid2
    Hcost2 Hid3.
  destruct (agent_by_external_keys _ _ _ _ Ea) as [Hk _].
  destruct (usageEventSchema_valid _ _ _ Ev1) as (Hb1 & Hne & Hbc1 & _).
  rewrite Hid1 in Hb1, Hne. rewrite Hcost1 in Hbc1.
  (* first request *)
  assert (E1 : enforceAgentBudget user now1 (Some aid) (Some (usd 6)) w
               = (w, Next (Checked a))).
  { rewrite (enforceAgentBudget_limited user now1 aid _ a (usd 10)) by done.
    rewrite currentSpend_nothing by (rewrite ?Hk; lia || done).
    by rewrite Hm. }
  destruct (record_handler_accepts user now1 b1 v1 a a w)
    as (d1 & id1 & Eh1 & Ha1 & Hg1 & cu & Hu1); try done.
  { by rewrite Hid1. }
  rewrite Hid1, Hcost1 in Eh1.
  assert (R1 : record user now1 b1 w
               = (mkWorld d1 (incrementAgentSpend now1 aid (usd 6) (redis w)).1,
                  resp_recorded id1 now1)).
  { unfold record. by rewrite Hb1, Hbc1, E1. }
  rewrite R1. set (w1 := mkWorld d1 _).
  (* second request *)
  assert (Ea1 : agent_by_external aid user (db w1) = Some a).
  { unfold agent_by_external in *. cbn. by rewrite Ha1. }
  assert (Hc1 : getAgentSpend now2 aid (redis w1) = usd 6).
  { cbn. rewrite getAgentSpend_increment by done. by rewrite Hc. }
  assert (R2 : record user now2 b2 w1
               = (with_db (update_agents
                             (fun r => bool_decide (agents.id r = agents.id a))
                             suspend (db w1)) w1,
                  resp_budget_limit_exceeded (usd 10) (usd 6) (usd 6))).
  { unfold record. rewrite Hid2, Hcost2.
    rewrite (enforceAgentBudget_limited user now2 aid _ a (usd 10)) by done.
    rewrite currentSpend_cached by (rewrite Hk, Hc1; done).
    by rewrite Hk, Hc1. }
  rewrite R2. set (w2 := with_db _ w1).
  (* third request *)
  assert (Ea2 : agent_by_external aid user (db w2) = Some (suspend a)).
  { cbn. rewrite agent_by_external_update by auto with keys.
    unfold agent_by_external in *. rewrite Ha1, Ea.
    cbn. by rewrite bool_decide_true. }
  rewrite (record_suspended user now3 b3 aid (suspend a)) by done.
  repeat split; try done.
  - subst w1. cbn [db usage_events]. rewrite Hu1, length_app. cbn. lia.
  - exists (suspend a). by destruct a.
Qed.

(** C2 (as stated, refuted).  In the scenario the second request leaves
    the status of the agent at active, and the third request is denied
    with AGENT_SUSPENDED, not with AGENT_KILLED. *)
Lemma budget_scenario_counterexample :
  let '(w1, r1) := record 1 t0 (example_body "agent-x" (usd 6)) world_x in
  let '(w2, r2) :=
    record 1 (t0 + 1000) (example_body "agent-x" (usd 6)) w1 in
  let '(w3, r3) :=
    record 1 (t0 + 2000) (example_body "agent-x" (usd 1)) w2 in
  http_status r1 = 201%nat
  /\ code r2 = Some "BUDGET_LIMIT_EXCEEDED"
  /\ agents.status <$> agent_by_external "agent-x" 1 (db w2) = Some active
  /\ agents.status <$> agent_by_external "agent-x" 1 (db w2) <> Some killed
  /\ code r3 = Some "AGENT_SUSPENDED"
  /\ code r3 <> Some "AGENT_KILLED".
Proof. vm_compute. repeat split; congruence. Qed.

(** The scenario at the example world. *)
Lemma budget_scenario_witness :
  let '(w1, r1) := record 1 t0 (example_body "agent-x" (usd 6)) world_x in
  let '(w2, r2) :=
    record 1 (t0 + 1000) (example_body "agent-x" (usd 6)) w1 in
  let '(w3, r3) :=
    record 1 (t0 + 2000) (example_body "agent-x" (usd 1)) w2 in
  http_status r1 = 201%nat
  /\ length (usage_events (db w1)) = S (length (usage_events (db world_x)))
  /\ r2 = resp_budget_limit_exceeded (usd 10) (usd 6) (usd 6)
  /\ usage_events (db w2) = usage_events (db w1)
  /\ (exists a2, agent_by_external "agent-x" 1 (db w2) = Some a2
                 /\ agents.is_suspended a2 = true
                 /\ agents.status a2 = active)
  /\ r3 = resp_agent_suspended
  /\ w3 = w2.
Proof.
  apply (budget_scenario 1 "agent-x" agent_x t0 (t0 + 1000) (t0 + 2000)
           (example_body "agent-x" (usd 6)) (example_body "agent-x" (usd 6))
           (example_body "agent-x" (usd 1))
           (example_event "agent-x" (usd 6) t0) world_x);
    try reflexivity.
  - apply (bool_decide_unpack _). vm_compute. exact I.
  - unfold stopped. vm_compute. discriminate.
Defined.

(** ** Paused agents *)

Lemma is_agent_active_paused (a : agents.row) (t : Z) (user : nat) (now : Z)
  (d : Database) :
  ~ stopped d -> agent_by_id_user (agents.id a) user d = Some a ->
  agents.status a = paused -> agents.pause_until a = Some t ->
  is_agent_active (agents.id a) user now d
  = if now <? t then (d, false)
    else (update_agents (fun r => bool_decide (agents.id r = agents.id a))
            unpause d, true).
Proof.
  unfold stopped, is_agent_active. intros Hs -> -> ->.
  destruct (global_kill_switch.is_emergency_stopped _); [done|].
  unfold pause_in_future, pause_elapsed.
  destruct (now <? t) eqn:E; [done|].
  apply Z.ltb_ge in E. by rewrite (proj2 (Z.leb_le _ _) E).
Qed.

(** A paused row without [pause_until] never becomes active by itself. *)
Lemma is_agent_active_paused_null (a : agents.row) (user : nat) (now : Z)
  (d : Database) :
  agent_by_id_user (agents.id a) user d = Some a ->
  agents.status a = paused -> agents.pause_until a = None ->
  is_agent_active (agents.id a) user now d = (d, false).
Proof.
  unfold is_agent_active. intros -> -> ->.
  by destruct (global_kill_switch.is_emergency_stopped _).
Qed.




(** ** The spend cache *)






(** Two checks for one agent whose commands alternate both miss, both
    sum the ledger and both increment the entry by the sum: the entry
    and the spend that the two checks use are twice the spend of the
    ledger. *)
Lemma concurrent_misses_count_twice :
  let '(w', checks) :=
    interleave [0; 1; 0; 1; 0; 1; 0; 1]%nat
      [(agent_x, t0, AtGet); (agent_x, t0, AtGet)] world_no_entry in
  month_spend 1 t0 (db world_no_entry) = usd 12
  /\ agent_spend (redis w') !! (month_of t0, "agent-x") = Some (usd 24)
  /\ checks = [(agent_x, t0, Settled (usd 24));
               (agent_x, t0, Settled (usd 24))].
Proof. vm_compute. repeat split. Qed.



(** ** Emergency stop *)

Lemma emergency_stop_unconfirmed (user : nat) (now : Z)
  (reason : option string) (confirm : option bool) (d : Database) :
  confirm <> Some true ->
  (emergency_stop_all user now reason confirm d).1 = d
  /\ http_status (emergency_stop_all user now reason confirm d).2 = 400%nat.
Proof.
  intros Hc. unfold emergency_stop_all, emergencyStopSchema.
  destruct (required_text "reason" 1000 reason); [done|].
  by destruct confirm as [[|]|].
Qed.

Lemma emergency_stop_confirmed (user : nat) (now : Z)
  (reason : option string) (why : string) (d : Database) :
  required_text "reason" 1000 reason = inr why ->
  emergency_stop_all user now reason (Some true) d
  = (mkDatabase
       (map (fun r => if negb (bool_decide (agents.status r = killed))
                      then kill now user ("Emergency stop: " +:+ why) r
                      else r) (agents d))
       (customers d) (usage_events d)
       (kill_switch_events d ++
        [kill_switch_events.mk "emergency_stop_all" "global" None user
           "manual" why now])
       (global_kill_switch.mk true (Some now) (Some user) (Some why)),
     resp_ok "EMERGENCY STOP ACTIVATED - All agents have been terminated").
Proof.
  intros Hr. unfold emergency_stop_all, emergencyStopSchema. by rewrite Hr.
Qed.

(** C8.  Emergency stop needs [confirm: true]: without it the request is
    rejected with 400 and changes nothing.  With it (and a reason) it
    sets the global flag, leaves every agent with the status killed (the
    rows that were killed before are not touched, the others get the
    status, time, user and reason of this kill) and appends one audit
    record.  Disabling the emergency stop, in whatever state of the
    database, clears the global row, appends one audit record and leaves
    every row of the agents, the customers and the ledger exactly as it
    was: no status, kill_reason, killed_at, killed_by or pause_until
    changes, also of agents that were created, revived or paused since
    the stop.  So after a stop and its disabling every agent is still
    killed and [is_agent_active] still answers false for each of them,
    until a revival, which changes the rows of the one agent it names
    and no other. *)
Theorem emergency_stop_then_disable (user user' : nat) (now now' : Z)
  (reason : option string) (confirm : option bool) (why : string)
  (d : Database) :
  required_text "reason" 1000 reason = inr why ->
  (confirm <> Some true ->
   (emergency_stop_all user now reason confirm d).1 = d
   /\ http_status (emergency_stop_all user now reason confirm d).2 = 400%nat)
  /\ (forall d0 : Database,
        let d' := (emergency_stop_disable user' now' d0).1 in
        agents d' = agents d0
        /\ customers d' = customers d0
        /\ usage_events d' = usage_events d0
        /\ global_kill_switch d' = global_kill_switch.mk false None None None
        /\ kill_switch_events d'
           = kill_switch_events d0
             ++ [kill_switch_events.mk "emergency_stop_disabled" "global"
                   None user' "manual" "Emergency stop disabled" now']
        /\ http_status (emergency_stop_disable user' now' d0).2 = 200%nat)
  /\ let d1 := (emergency_stop_all user now reason (Some true) d).1 in
     let d2 := (emergency_stop_disable user' now' d1).1 in
     stopped d1
     /\ (forall r, r ∈ agents d1 -> agents.status r = killed)
     /\ agents d1
        = map (fun r => if bool_decide (agents.status r = killed) then r
                        else kill now user ("Emergency stop: " +:+ why)
                               r) (agents d)
     /\ length (kill_switch_events d1) = S (length (kill_switch_events d))
     /\ usage_events d1 = usage_events d
     /\ global_kill_switch d2 = global_kill_switch.mk false None None None
     /\ agents d2 = agents d1
     /\ usage_events d2 = usage_events d
     /\ length (kill_switch_events d2) = S (length (kill_switch_events d1))
     /\ (forall p_agent_id p_user_id t,
           is_agent_active p_agent_id p_user_id t d2 = (d2, false))
     /\ forall u t agentId why',
          agents (revive_agent u t agentId why' d2).1
          = map (fun r => if owned u agentId r then revive r else r)
              (agents d2).
Proof.
  intros Hr. split; [apply emergency_stop_unconfirmed|].
  split; [done|].
  rewrite (emergency_stop_confirmed user now reason why d Hr).
  cbn [fst emergency_stop_disable].
  assert (Hmap : map (fun r => if negb (bool_decide (agents.status r = killed))
                      then kill now user ("Emergency stop: " +:+ why) r
                      else r) (agents d)
          = map (fun r => if bool_decide (agents.status r = killed) then r
                        else kill now user ("Emergency stop: " +:+ why)
                               r) (agents d)).
  { apply map_ext. intros r. by destruct (bool_decide _). }
  assert (Hall : forall r,
            r ∈ map (fun r => if bool_decide (agents.status r = killed) then r
                        else kill now user ("Emergency stop: " +:+ why)
                               r) (agents d) -> agents.status r = killed).
  { intros r Hin. apply list_elem_of_fmap in Hin as (r0 & -> & _).
    destruct (bool_decide (agents.status r0 = killed)) eqn:E; [|done].
    by apply bool_decide_eq_true in E. }
  rewrite Hmap. set (l1 := map _ (agents d)) in *.
  unfold stopped, logKillSwitchEvent.
  cbn [fst agents customers usage_events kill_switch_events
       global_kill_switch with_global_kill_switch with_kill_switch_events
       global_kill_switch.is_emergency_stopped].
  repeat split; try done.
  - rewrite length_app. cbn. lia.
  - rewrite length_app. cbn. lia.
  - intros p u t. unfold is_agent_active.
    cbn [global_kill_switch global_kill_switch.is_emergency_stopped].
    destruct (agent_by_id_user p u _) as [a|] eqn:Ea; [|done].
    apply select_some in Ea as [Hin _]. cbn in Hin.
    by rewrite (Hall a Hin).
  - intros u t agentId why'.
    match goal with
    | |- context [revive_agent _ _ _ _ ?d0] => set (d2 := d0)
    end.
    set (c := fun r => owned u agentId r
                       && (bool_decide (agents.status r = killed)
                           || bool_decide (agents.status r = paused))).
    transitivity (agents (update_agents c revive d2)).
    + unfold revive_agent, update_returning. fold c. by case_match.
    + cbn. apply map_ext_in. intros r Hin.
      apply list_elem_of_In in Hin. unfold c.
      rewrite (Hall r Hin). by rewrite andb_true_r.
Qed.

(** ** What no request of the model undoes *)

Lemma row_le_refl (r : agents.row) : row_le r r.
Proof. by repeat split. Qed.

Lemma row_le_trans (r1 r2 r3 : agents.row) :
  row_le r1 r2 -> row_le r2 r3 -> row_le r1 r3.
Proof.
  intros (? & ? & ? & ?) (? & ? & ? & ?). repeat split; try congruence. auto.
Qed.

Lemma grows_refl (l : list agents.row) : grows l l.
Proof.
  exists l, []. split; [by rewrite app_nil_r|].
  apply Forall2_same_length_lookup_2; [done|].
  intros i x y Hx Hy. rewrite Hx in Hy. simplify_eq. apply row_le_refl.
Qed.

Lemma grows_trans (l1 l2 l3 : list agents.row) :
  grows l1 l2 -> grows l2 l3 -> grows l1 l3.
Proof.
  intros (a & b & -> & Ha) (c & e & -> & Hc).
  apply Forall2_app_inv_l in Hc as (c1 & c2 & Hc1 & Hc2 & ->).
  exists c1, (c2 ++ e). split; [by rewrite app_assoc|].
  clear Hc2. revert c1 Hc1.
  induction Ha as [|x y l l' Hxy Ha IH]; intros c1 Hc1.
  - by apply Forall2_nil_inv_l in Hc1 as ->.
  - apply Forall2_cons_inv_l in Hc1 as (z & c1' & Hyz & Hc1' & ->).
    constructor; [by eapply row_le_trans | by apply IH].
Qed.

Lemma grows_app (l l2 : list agents.row) : grows l (l ++ l2).
Proof.
  exists l, l2. split; [done|].
  apply Forall2_same_length_lookup_2; [done|].
  intros i x y Hx Hy. rewrite Hx in Hy. simplify_eq. apply row_le_refl.
Qed.

Lemma grows_map (f : agents.row -> agents.row) (l : list agents.row) :
  keeps_keys f -> keeps_suspension f -> grows l (map f l).
Proof.
  intros Hk Hs. exists (map f l), []. split; [by rewrite app_nil_r|].
  induction l as [|r l IH]; constructor; [|done].
  destruct (Hk r) as (? & ? & ?). repeat split; auto.
Qed.

Lemma grows_update (c : agents.row -> bool) (f : agents.row -> agents.row)
  (d : Database) :
  keeps_keys f -> keeps_suspension f ->
  grows (agents d) (agents (update_agents c f d)).
Proof.
  intros Hk Hs. unfold update_agents. cbn [agents with_agents].
  apply grows_map; [by apply keeps_keys_if|].
  intros r Hr. destruct (c r); auto.
Qed.

Lemma keeps_suspension_suspend : keeps_suspension suspend.
Proof. by intros []. Qed.

Lemma keeps_suspension_unpause : keeps_suspension unpause.
Proof. by intros []. Qed.

Lemma keeps_suspension_kill (now : Z) (by_user : nat) (reason : string) :
  keeps_suspension (kill now by_user reason).
Proof. by intros []. Qed.

Lemma keeps_suspension_auto_kill (now : Z) (reason : string) :
  keeps_suspension (auto_kill now reason).
Proof. by intros []. Qed.

Lemma keeps_suspension_pause (until : Z) (reason : string) :
  keeps_suspension (pause until reason).
Proof. by intros []. Qed.

Lemma keeps_suspension_revive : keeps_suspension revive.
Proof. by intros []. Qed.

#[local] Hint Resolve keeps_suspension_suspend keeps_suspension_unpause
  keeps_suspension_kill keeps_suspension_auto_kill keeps_suspension_pause
  keeps_suspension_revive
  grows_refl grows_app grows_update : keys.

(** The row that a lookup by the external id finds stays the row that it
    finds, and stays suspended. *)
Lemma grows_suspended (aid : string) (user : nat) (d d' : Database)
  (a : agents.row) :
  grows (agents d) (agents d') ->
  agent_by_external aid user d = Some a -> agents.is_suspended a = true ->
  exists a', agent_by_external aid user d' = Some a'
             /\ agents.is_suspended a' = true.
Proof.
  unfold agent_by_external. intros (l1 & l2 & -> & Hl) Ea Hs.
  assert (H1 : exists a',
            head (filter (fun r => agents.agent_id r = aid
                                   /\ agents.user_id r = user) l1) = Some a'
            /\ agents.is_suspended a' = true).
  { clear l2. revert Ea. induction Hl as [|x y l l' Hxy Hl IH]; [done|].
    destruct Hxy as (_ & Hu & Hi & Hsus).
    rewrite !filter_cons. rewrite Hu, Hi.
    destruct (decide _); [|done].
    cbn. intros ?. simplify_eq. eauto. }
  destruct H1 as (a' & E & Hs'). exists a'. split; [|done].
  by apply select_app.
Qed.

Lemma is_agent_active_grows (p_agent_id p_user_id : nat) (now : Z)
  (d : Database) :
  grows (agents d) (agents (is_agent_active p_agent_id p_user_id now d).1).
Proof.
  unfold is_agent_active. repeat case_match; cbn [fst]; auto with keys.
Qed.

Lemma ensureAgentExists_grows (userId : nat) (agentId : string)
  (d d' : Database) (id : nat) :
  ensureAgentExists userId agentId d = Some (d', id) ->
  grows (agents d) (agents d').
Proof.
  unfold ensureAgentExists. intros H.
  repeat case_match; simplify_eq; cbn; auto with keys.
Qed.

Lemma checkAgentBudgetAfterCreation_grows (agentUuid : nat)
  (requestedCost : Z) (userId : nat) (d : Database) :
  grows (agents d)
    (agents (checkAgentBudgetAfterCreation agentUuid requestedCost userId d).1).
Proof.
  unfold checkAgentBudgetAfterCreation.
  repeat case_match; cbn [fst]; auto with keys.
Qed.

Lemma enforceAgentBudget_grows (user : nat) (now : Z)
  (agent_id : option string) (cost_amount : option Z) (w : World) :
  grows (agents (db w))
    (agents (db (enforceAgentBudget user now agent_id cost_amount w).1)).
Proof.
  unfold enforceAgentBudget.
  destruct agent_id as [[|c s]|]; auto with keys.
  destruct (agent_by_external _ _ _) as [agent|]; auto with keys.
  destruct (agents.is_suspended agent); auto with keys.
  destruct (agents.monthly_cost_limit agent) as [limit|]; auto with keys.
  pose proof (currentSpend_db agent now w) as Hdb.
  destruct (currentSpend agent now w) as [w2 current]. cbn in Hdb.
  case_match; cbn [fst db with_db]; rewrite Hdb; auto with keys.
Qed.

Lemma record_event_grows (user : nat) (now : Z) (v : event.t)
  (check : budget_check) (customerUuid agentUuid : nat) (d2 : Database)
  (w : World) :
  grows (agents d2)
    (agents (db (record_event user now v check customerUuid agentUuid d2
                   w).1)).
Proof.
  unfold record_event.
  assert (H3 : grows (agents d2)
            (agents (match check with
                     | DEFERRED =>
                       checkAgentBudgetAfterCreation agentUuid
                         (event.cost_amount v) user d2
                     | Checked a => (d2, Some (Allowed a))
                     end).1)).
  { destruct check; [|apply grows_refl].
    apply checkAgentBudgetAfterCreation_grows. }
  destruct (match check with DEFERRED => _ | Checked _ => _ end)
    as [d3 budgetCheck].
  cbn [fst] in H3. destruct budgetCheck as [[a|? ? ? ?]|]; try done.
  unfold checkAgentStatus.
  pose proof (is_agent_active_grows agentUuid user now d3) as H4.
  destruct (is_agent_active _ _ _ _) as [d4 isActive]. cbn [fst] in H4.
  destruct isActive; [|cbn; by eapply grows_trans].
  unfold insert_usage_event.
  destruct (fits_usage_events v); cbn; by eapply grows_trans.
Qed.

Lemma record_handler_grows (user : nat) (now : Z) (b : body.t)
  (check : budget_check) (w : World) :
  grows (agents (db w)) (agents (db (record_handler user now b check w).1)).
Proof.
  unfold record_handler.
  destruct (usageEventSchema now b) as [key|v]; auto with keys.
  destruct (ensureCustomerExists _ _ _) as [[d1 customerUuid]|] eqn:E1;
    [|apply grows_refl].
  apply ensureCustomerExists_frame in E1 as (Ha1 & _). rewrite <- Ha1.
  destruct (ensureAgentExists _ _ _) as [[d2 agentUuid]|] eqn:E2;
    [|apply grows_refl].
  apply ensureAgentExists_grows in E2.
  eapply grows_trans; [exact E2|]. apply record_event_grows.
Qed.

Lemma record_grows (user : nat) (now : Z) (b : body.t) (w : World) :
  grows (agents (db w)) (agents (db (record user now b w).1)).
Proof.
  unfold record.
  pose proof (enforceAgentBudget_grows user now (body.agent_id b)
                (body.cost_amount b) w) as H1.
  destruct (enforceAgentBudget _ _ _ _ _) as [w1 [r|check]];
    cbn [fst] in *; [done|].
  eapply grows_trans; [exact H1|]. apply record_handler_grows.
Qed.

Lemma bulk_loop_grows (user : nat) (now : Z) (events : list event.t)
  (d : Database) (recordedEvents : list nat) :
  grows (agents d)
    (agents (bulk_loop user now events d recordedEvents).1).
Proof.
  revert d recordedEvents.
  induction events as [|v rest IH]; intros d recordedEvents;
    cbn [bulk_loop]; [auto with keys|].
  destruct (ensureCustomerExists _ _ _) as [[d1 customerUuid]|] eqn:E1;
    [|apply grows_refl].
  apply ensureCustomerExists_frame in E1 as (Ha1 & _). rewrite <- Ha1.
  destruct (ensureAgentExists _ _ _) as [[d2 agentUuid]|] eqn:E2;
    [|apply grows_refl].
  apply ensureAgentExists_grows in E2 as H2.
  unfold checkAgentStatus.
  pose proof (is_agent_active_grows agentUuid user now d2) as H3.
  destruct (is_agent_active _ _ _ _) as [d3 isActive]. cbn [fst] in H3.
  destruct isActive; [|by eapply grows_trans].
  unfold insert_usage_event.
  destruct (fits_usage_events v); [|by eapply grows_trans].
  eapply grows_trans; [exact H2|]. eapply grows_trans; [exact H3|].
  apply (IH (with_usage_events _ d3)).
Qed.

Lemma record_bulk_grows (user : nat) (now : Z) (b : bulk_body.t) (w : World) :
  grows (agents (db w)) (agents (db (record_bulk user now b w).1)).
Proof.
  unfold record_bulk.
  pose proof (enforceAgentBudget_grows user now (bulk_body.agent_id b)
                (bulk_body.cost_amount b) w) as H1.
  destruct (enforceAgentBudget _ _ _ _ _) as [w1 [r|check]];
    cbn [fst] in *; [done|].
  eapply grows_trans; [exact H1|]. unfold record_bulk_handler.
  destruct (bulkUsageSchema now b) as [key|events]; [auto with keys|].
  pose proof (bulk_loop_grows user now events (db w1) []) as H2.
  destruct (bulk_loop _ _ _ _ _) as [d [ids|]]; exact H2.
Qed.

Lemma triggerAutoKill_grows (now : Z) (trigger : trigger.t)
  (violation : violation.t) (d : Database) :
  grows (agents d) (agents (triggerAutoKill now trigger violation d)).
Proof.
  unfold triggerAutoKill, logKillSwitchEvent.
  cbn [agents with_kill_switch_events]. auto with keys.
Qed.

Lemma checkInfiniteLoops_grows (now : Z) (d : Database) :
  grows (agents d) (agents (checkInfiniteLoops now d)).
Proof.
  unfold checkInfiniteLoops. generalize (loopDetectionQuery now d) at 1.
  intros rows. revert d. induction rows as [|[[p n] user] rows IH]; intros d.
  - apply grows_refl.
  - cbn [foldl]. eapply grows_trans; [|apply IH].
    apply triggerAutoKill_grows.
Qed.

Lemma serve_grows (q : request) (w : World) :
  ~ reactivation q ->
  grows (agents (db w)) (agents (db (serve q w).1)).
Proof.
  intros Hq.
  destruct q; cbn [serve];
    unfold on_db, emergency_stop_all, emergency_stop_disable, kill_customer,
      kill_agent, pause_agent, revive_agent, revive_agent_null,
      update_returning, logKillSwitchEvent, suspendAgent.
  - pose proof (record_grows user now b w). by destruct (record _ _ _ _).
  - pose proof (record_bulk_grows user now b w).
    by destruct (record_bulk _ _ _ _).
  - repeat case_match; simplify_eq;
      cbn [fst db with_db agents with_kill_switch_events
           with_global_kill_switch]; auto with keys.
    eapply grows_trans; [|apply grows_update; auto with keys].
    apply grows_refl.
  - cbn. auto with keys.
  - repeat case_match; simplify_eq;
      cbn [fst db with_db agents with_kill_switch_events]; auto with keys.
  - repeat case_match; simplify_eq;
      cbn [fst db with_db agents with_kill_switch_events]; auto with keys.
  - repeat case_match; simplify_eq;
      cbn [fst db with_db agents with_kill_switch_events]; auto with keys.
  - repeat case_match; simplify_eq;
      cbn [fst db with_db agents with_kill_switch_events]; auto with keys.
  - repeat case_match; simplify_eq;
      cbn [fst db with_db agents with_kill_switch_events]; auto with keys.
  - repeat case_match; simplify_eq; cbn [fst db with_db]; auto with keys.
  - by destruct Hq.
  - cbn [fst db with_db]. apply checkInfiniteLoops_grows.
Qed.

Lemma serve_all_grows (l : list request) (w : World) :
  Forall (fun q => ~ reactivation q) l ->
  grows (agents (db w)) (agents (db (serve_all l w))).
Proof.
  unfold serve_all. revert w. induction l as [|q l IH]; intros w Hl.
  - apply grows_refl.
  - apply Forall_cons in Hl as [Hq Hl]. cbn [foldl].
    eapply grows_trans; [by apply serve_grows | by apply IH].
Qed.

(** ** Revival *)

Lemma filter_found (c : agents.row -> bool) (l : list agents.row)
  (a : agents.row) :
  a ∈ l -> c a = true -> List.filter c l <> [].
Proof.
  intros Hin Hc E.
  assert (Hf : In a (List.filter c l)).
  { apply filter_In. split; [by apply list_elem_of_In|done]. }
  rewrite E in Hf. destruct Hf.
Qed.

Lemma revive_agent_revives (user : nat) (now : Z) (aid : string)
  (reason : option string) (a : agents.row) (d : Database) :
  agent_by_external aid user d = Some a ->
  agents.status a <> active ->
  let '(d', r) := revive_agent user now aid reason d in
  http_status r = 200%nat
  /\ agent_by_external aid user d' = Some (revive a)
  /\ length (kill_switch_events d') = S (length (kill_switch_events d))
  /\ usage_events d' = usage_events d
  /\ global_kill_switch d' = global_kill_switch d.
Proof.
  intros Ea Hst. unfold revive_agent, update_returning.
  destruct (agent_by_external_keys _ _ _ _ Ea) as [Hi Hu].
  apply select_some in Ea as Hin. destruct Hin as [Hin _].
  set (c := fun r => owned user aid r
                     && (bool_decide (agents.status r = killed)
                         || bool_decide (agents.status r = paused))).
  assert (Hc : c a = true).
  { unfold c, owned. rewrite !bool_decide_true by done.
    destruct (agents.status a); done. }
  destruct (map revive (List.filter c (agents d))) as [|x rows] eqn:E.
  { exfalso. apply map_eq_nil in E. by eapply filter_found. }
  unfold logKillSwitchEvent. cbn. repeat split.
  - change (agent_by_external aid user (update_agents c revive d)
            = Some (revive a)).
    rewrite agent_by_external_update by auto with keys.
    by rewrite Ea; cbn; rewrite Hc.
  - rewrite length_app. cbn. lia.
Qed.

(** C10.  Reviving an agent that is killed or paused and that carries the
    suspension flag succeeds and makes it active, leaves [is_suspended]
    (and the limit) as they were, and after it, whatever requests other
    than a reactivation are served in between, every usage-record request
    of its user that names the agent is denied with 403 and the code
    AGENT_SUSPENDED, and changes nothing. *)
Theorem revive_keeps_suspension (user : nat) (now : Z) (aid : string)
  (reason : option string) (a : agents.row) (d : Database) :
  aid <> "" ->
  agent_by_external aid user d = Some a ->
  agents.is_suspended a = true -> agents.status a <> active ->
  let '(d', r) := revive_agent user now aid reason d in
  http_status r = 200%nat
  /\ agent_by_external aid user d' = Some (revive a)
  /\ agents.status (revive a) = active
  /\ agents.is_suspended (revive a) = true
  /\ agents.monthly_cost_limit (revive a) = agents.monthly_cost_limit a
  /\ forall (r0 : Redis) (later : list request) (now' : Z) (b : body.t),
       Forall (fun q => ~ reactivation q) later ->
       body.agent_id b = Some aid ->
       let w := serve_all later (mkWorld d' r0) in
       record user now' b w = (w, resp_agent_suspended).
Proof.
  intros Hne Ea Hs Hst.
  pose proof (revive_agent_revives user now aid reason a d Ea Hst) as H.
  destruct (revive_agent _ _ _ _ _) as [d' r].
  destruct H as (Hr & Ea' & _). repeat split; try done.
  intros r0 later now' b Hlater Hb.
  destruct (grows_suspended aid user d'
              (db (serve_all later (mkWorld d' r0))) (revive a))
    as (a' & Ea'' & Hs'); try done.
  - by apply (serve_all_grows later (mkWorld d' r0)).
  - by apply (record_suspended user now' b aid a').
Qed.

(** ** Bulk recording *)

Lemma pause_future_not_elapsed (now : Z) (p : option Z) :
  pause_in_future now p = true -> pause_elapsed now p = false.
Proof.
  destruct p as [t|]; cbn; [|done]. intros H. apply Z.ltb_lt in H.
  apply Z.leb_gt. lia.
Qed.

(** When the check answers true, it has found a row that is active or
    whose pause has elapsed, and only the rows with that id changed. *)
Lemma is_agent_active_true (p_agent_id p_user_id : nat) (now : Z)
  (d d' : Database) :
  is_agent_active p_agent_id p_user_id now d = (d', true) ->
  ~ stopped d
  /\ exists a, agent_by_id_user p_agent_id p_user_id d = Some a
               /\ ~ inactive_row now a
               /\ (d' = d
                   \/ d' = update_agents
                             (fun r => bool_decide (agents.id r = p_agent_id))
                             unpause d).
Proof.
  unfold is_agent_active, stopped, inactive_row.
  destruct (global_kill_switch.is_emergency_stopped _); [done|].
  destruct (agent_by_id_user _ _ _) as [a|]; [|done].
  destruct (agents.status a) eqn:Est; [| |done].
  - intros ?. simplify_eq. split; [done|]. exists a.
    split; [done|]. split; [|by left]. intros [?|[? _]]; congruence.
  - destruct (pause_in_future _ _); [done|].
    destruct (pause_elapsed _ _) eqn:Eel; [|done].
    intros ?. simplify_eq. split; [done|]. exists a.
    split; [done|]. split; [|by right]. intros [?|[_ ?]]; congruence.
Qed.

Lemma is_agent_active_inactive (a : agents.row) (user : nat) (now : Z)
  (d : Database) :
  agent_by_id_user (agents.id a) user d = Some a -> inactive_row now a ->
  (is_agent_active (agents.id a) user now d).2 = false.
Proof.
  unfold is_agent_active, inactive_row. intros -> Hin.
  destruct (global_kill_switch.is_emergency_stopped _); [done|].
  destruct Hin as [->|[-> Hel]]; [done|]. rewrite Hel.
  by destruct (pause_in_future _ _).
Qed.

Lemma primary_key_ensureAgentExists (userId : nat) (agentId : string)
  (d d' : Database) (id : nat) :
  primary_key d -> ensureAgentExists userId agentId d = Some (d', id) ->
  primary_key d'.
Proof.
  unfold ensureAgentExists, primary_key. intros Hpk.
  destruct (agent_by_external _ _ _); [by intros [= <- <-]|].
  destruct (varchar 255 agentId); [|done]. intros [= <- <-].
  cbn. rewrite map_app. cbn. apply NoDup_app. split; [done|]. split.
  - intros x Hx Hf. apply list_elem_of_singleton in Hf.
    apply fresh_id_above in Hx. lia.
  - apply NoDup_singleton.
Qed.

Lemma ensureAgentExists_keeps (userId : nat) (agentId aid : string)
  (user : nat) (d d' : Database) (id : nat) (a : agents.row) :
  agent_by_external aid user d = Some a ->
  ensureAgentExists userId agentId d = Some (d', id) ->
  agent_by_external aid user d' = Some a.
Proof.
  intros Ea. unfold ensureAgentExists.
  destruct (agent_by_external agentId userId d); [by intros [= <- <-]|].
  destruct (varchar 255 agentId); [|done]. intros [= <- <-].
  cbn. unfold agent_by_external in *. cbn. by apply select_app.
Qed.

(** One round of the loop: the primary key holds afterwards; an event
    that names an inactive agent fails the check; and when the check
    passes, every agent that was inactive still is. *)
Lemma bulk_round (user : nat) (now : Z) (v : event.t) (d d1 d2 : Database)
  (customerUuid agentUuid : nat) :
  primary_key d ->
  ensureCustomerExists user (event.customer_id v) d
  = Some (d1, customerUuid) ->
  ensureAgentExists user (event.agent_id v) d1 = Some (d2, agentUuid) ->
  let '(d3, isActive) := checkAgentStatus user agentUuid now d2 in
  primary_key d3
  /\ (inactive user now d (event.agent_id v) -> isActive = false)
  /\ (isActive = true ->
      forall aid, inactive user now d aid -> inactive user now d3 aid).
Proof.
  intros Hpk E1 E2.
  apply ensureCustomerExists_frame in E1 as (Ha1 & _ & _ & Hg1).
  assert (Hpk1 : primary_key d1) by (unfold primary_key; by rewrite Ha1).
  assert (Hext : forall aid a, agent_by_external aid user d = Some a ->
                               agent_by_external aid user d1 = Some a).
  { intros aid a. unfold agent_by_external. by rewrite Ha1. }
  pose proof (primary_key_ensureAgentExists _ _ _ _ _ Hpk1 E2) as Hpk2.
  pose proof (ensureAgentExists_frame _ _ _ _ _ E2) as (_ & _ & _ & Hg2).
  pose proof (fun aid a Ea => ensureAgentExists_keeps user (event.agent_id v)
                                aid user d1 d2 agentUuid a Ea E2) as Hext2.
  assert (Hid : forall a, agent_by_external (event.agent_id v) user d1
                          = Some a -> agentUuid = agents.id a).
  { intros a Ea. rewrite (ensureAgentExists_known _ _ _ _ Ea) in E2.
    by simplify_eq. }
  unfold checkAgentStatus.
  pose proof (is_agent_active_frame agentUuid user now d2)
    as (_ & _ & _ & Hg3).
  destruct (is_agent_active agentUuid user now d2) as [d3 isActive] eqn:E3.
  cbn [fst] in Hg3.
  assert (Hstop : stopped d -> isActive = false).
  { intros Hs. rewrite is_agent_active_stopped in E3; [by simplify_eq|].
    unfold stopped in *. by rewrite Hg2, Hg1. }
  split; [|split].
  - destruct isActive.
    + apply is_agent_active_true in E3 as (_ & a & _ & _ & [->| ->]);
        [done|]. by apply primary_key_update; auto with keys.
    + unfold is_agent_active in E3. repeat case_match; by simplify_eq.
  - intros [Hs|(a & Ea & Hin)]; [auto|].
    apply Hext in Ea. rewrite (Hid a Ea) in E3.
    pose proof (is_agent_active_inactive a user now d2) as Hf.
    rewrite E3 in Hf. apply Hf; [|done].
    by apply (by_external_by_id_user (event.agent_id v)), Hext2.
  - intros -> aid [Hs|(a & Ea & Hin)]; [by apply Hstop in Hs|].
    right. apply Hext, Hext2 in Ea.
    apply is_agent_active_true in E3 as (_ & a0 & Ea0 & Hact & [->| ->]).
    + eauto.
    + exists a. split; [|done].
      rewrite agent_by_external_update by auto with keys. rewrite Ea. cbn.
      rewrite bool_decide_false; [done|]. intros Hida.
      apply (by_external_by_id_user aid) in Ea; [|done].
      rewrite Hida, Ea0 in Ea. by simplify_eq.
Qed.

Lemma bulk_loop_fails (user : nat) (now : Z) (events : list event.t)
  (d : Database) (recordedEvents : list nat) :
  primary_key d ->
  (exists v, v ∈ events /\ inactive user now d (event.agent_id v)) ->
  (bulk_loop user now events d recordedEvents).2 = None.
Proof.
  revert d recordedEvents.
  induction events as [|v rest IH]; intros d recordedEvents Hpk
    (v0 & Hin & Hina).
  { by apply not_elem_of_nil in Hin. }
  cbn [bulk_loop].
  destruct (ensureCustomerExists _ _ _) as [[d1 customerUuid]|] eqn:E1;
    [|done].
  destruct (ensureAgentExists _ _ _) as [[d2 agentUuid]|] eqn:E2; [|done].
  pose proof (bulk_round user now v d d1 d2 _ _ Hpk E1 E2) as H.
  destruct (checkAgentStatus _ _ _ _) as [d3 isActive].
  destruct H as (Hpk3 & Hhead & Htail).
  destruct isActive; [|done].
  apply elem_of_cons in Hin as [->|Hin].
  { by apply Hhead in Hina. }
  unfold insert_usage_event. destruct (fits_usage_events v); [|done].
  apply IH; [exact Hpk3|].
  exists v0. split; [done|]. by apply (Htail eq_refl).
Qed.

Lemma validate_items_agent (now : Z) (l : list body.t) (vs : list event.t)
  (e : body.t) (aid : string) :
  validate_items now l = inr vs -> e ∈ l -> body.agent_id e = Some aid ->
  exists v, v ∈ vs /\ event.agent_id v = aid.
Proof.
  revert vs. induction l as [|b l IH]; intros vs Hv Hin Hid.
  { by apply not_elem_of_nil in Hin. }
  cbn [validate_items] in Hv.
  destruct (usageEventSchema now b) as [|v] eqn:Ev; [done|].
  destruct (validate_items now l) as [|vs'] eqn:Evs; [done|]. simplify_eq.
  apply elem_of_cons in Hin as [->|Hin].
  - apply usageEventSchema_valid in Ev as (Hb & _).
    exists v. split; [by constructor|congruence].
  - destruct (IH vs' eq_refl Hin Hid) as (v' & Hv' & Hid').
    exists v'. split; [by constructor|done].
Qed.

(** C9.  A batch with an event that names an agent that is not active
    (the emergency stop is on, or the agent is killed, or paused with a
    pause that has not elapsed) appends nothing to the ledger: the
    handler, once its validation has passed, fails in the loop, rolls
    back and answers 500 with the ledger of the moment of BEGIN; and the
    route as a whole, whether it stops in the budget middleware, in the
    validation or in the loop, leaves the ledger as it was. *)
Theorem record_bulk_atomic (user : nat) (now : Z) (b : bulk_body.t)
  (w : World) (e : body.t) (aid : string) :
  primary_key (db w) ->
  e ∈ bulk_body.events b -> body.agent_id e = Some aid ->
  inactive user now (db w) aid ->
  (forall events, bulkUsageSchema now b = inr events ->
     record_bulk_handler user now b w
     = (with_db (with_usage_events (usage_events (db w))
                   (bulk_loop user now events (db w) []).1) w,
        resp_bulk_failed))
  /\ usage_events (db (record_bulk_handler user now b w).1)
     = usage_events (db w)
  /\ usage_events (db (record_bulk user now b w).1) = usage_events (db w).
Proof.
  intros Hpk Hin Hid Hina.
  assert (Hfail : forall w1 events, db w1 = db w ->
            bulkUsageSchema now b = inr events ->
            (bulk_loop user now events (db w1) []).2 = None).
  { intros w1 events Hdb Hv. rewrite Hdb. apply bulk_loop_fails; [done|].
    unfold bulkUsageSchema in Hv.
    destruct (validate_items now (bulk_body.events b)) as [|vs] eqn:Evs;
      [done|].
    destruct (validate_items_agent now _ vs e aid Evs Hin Hid)
      as (v & Hv' & <-).
    repeat case_match; simplify_eq. eauto. }
  assert (Hh : forall w1, db w1 = db w ->
            usage_events (db (record_bulk_handler user now b w1).1)
            = usage_events (db w)).
  { intros w1 Hdb. unfold record_bulk_handler.
    destruct (bulkUsageSchema now b) as [key|events] eqn:Ev;
      [cbn [fst]; by rewrite Hdb|].
    pose proof (Hfail w1 events Hdb eq_refl) as Hf.
    destruct (bulk_loop _ _ _ _ _) as [d1 [ids|]]; [done|].
    cbn. by rewrite Hdb. }
  split; [|split].
  - intros events Ev. unfold record_bulk_handler. rewrite Ev.
    pose proof (Hfail w events eq_refl Ev) as Hf.
    by destruct (bulk_loop _ _ _ _ _) as [d1 [ids|]].
  - by apply Hh.
  - unfold record_bulk.
    pose proof (enforceAgentBudget_frame user now (bulk_body.agent_id b)
                  (bulk_body.cost_amount b) w) as (_ & Hu & _).
    destruct (enforceAgentBudget _ _ _ _ _) as [w1 [r|check]] eqn:Eg;
      cbn [fst] in *; [done|].
    apply enforceAgentBudget_next in Eg as (Hdb & _). by apply Hh.
Qed.

(** The batch with the killed agent: the first event is inserted, the
    second fails the check, and the rollback leaves the ledger empty. *)
Lemma record_bulk_atomic_witness :
  inactive 1 t0 (db world_mixed) "agent-dead"
  /\ (record_bulk_handler 1 t0 example_batch world_mixed).2
     = resp_bulk_failed
  /\ usage_events (db (record_bulk_handler 1 t0 example_batch world_mixed).1)
     = usage_events (db world_mixed)
  /\ usage_events (db (record_bulk 1 t0 example_batch world_mixed).1)
     = usage_events (db world_mixed).
Proof.
  assert (Hina : inactive 1 t0 (db world_mixed) "agent-dead").
  { right. exists agent_dead. split; [reflexivity|]. by left. }
  destruct (record_bulk_atomic 1 t0 example_batch world_mixed
              (example_body "agent-dead" (usd 1)) "agent-dead")
    as (H1 & H2 & H3).
  - apply (bool_decide_unpack _). vm_compute. exact I.
  - cbn. apply elem_of_cons. right. apply elem_of_cons. by left.
  - reflexivity.
  - exact Hina.
  - split; [exact Hina|]. split; [|split; [exact H2 | exact H3]].
    by rewrite (H1 [example_event "agent-free" (usd 1) t0;
                    example_event "agent-dead" (usd 1) t0] eq_refl).
Defined.

(** As it is mounted, the route never reaches the loop: the budget
    middleware wants [agent_id] at the top level of the body, and the
    schema of the batch rejects a body that has it. *)
Lemma record_bulk_rejects (user : nat) (now : Z) (b : bulk_body.t)
  (w : World) :
  usage_events (db (record_bulk user now b w).1) = usage_events (db w)
  /\ http_status (record_bulk user now b w).2 <> 201%nat.
Proof.
  unfold record_bulk.
  pose proof (enforceAgentBudget_frame user now (bulk_body.agent_id b)
                (bulk_body.cost_amount b) w) as (_ & Hu & _).
  destruct (enforceAgentBudget _ _ _ _ _) as [w1 [r|check]] eqn:Eg;
    cbn [fst snd] in *.
  - split; [done|]. unfold enforceAgentBudget in Eg.
    repeat case_match; by simplify_eq.
  - apply enforceAgentBudget_next in Eg as (Hdb & aid & Haid & _).
    unfold record_bulk_handler, bulkUsageSchema. rewrite Haid.
    destruct (validate_items now (bulk_body.events b)) as [|vs];
      [cbn; by rewrite Hdb|].
    destruct (bool_decide (vs = [])); [cbn; by rewrite Hdb|].
    destruct (100 <? length vs)%nat; [cbn; by rewrite Hdb|].
    rewrite bool_decide_true by eauto. cbn. by rewrite Hdb.
Qed.

(** ** The monitor: automatic kills *)

Lemma triggerAutoKill_agents (now : Z) (trigger : trigger.t)
  (violation : violation.t) (d : Database) :
  agents (triggerAutoKill now trigger violation d)
  = agents (update_agents
              (fun r => bool_decide (agents.id r
                                     = violation.agent_uuid violation)
                        && bool_decide (agents.status r = active))
              (auto_kill now (auto_reason trigger)) d).
Proof. reflexivity. Qed.

Lemma triggerAutoKill_audit (now : Z) (trigger : trigger.t)
  (violation : violation.t) (d : Database) :
  kill_switch_events (triggerAutoKill now trigger violation d)
  = kill_switch_events d
    ++ [kill_switch_events.mk "kill_agent" "agent"
          (Some (violation.agent_id violation)) (trigger.user_id trigger)
          ("auto_" +:+ trigger.trigger_type trigger) (auto_reason trigger)
          now].
Proof. reflexivity. Qed.

Lemma triggerAutoKill_by_id (now : Z) (trigger : trigger.t)
  (violation : violation.t) (u : nat) (d : Database) :
  agent_by_id u (triggerAutoKill now trigger violation d)
  = (fun r => if bool_decide (agents.id r = violation.agent_uuid violation)
                 && bool_decide (agents.status r = active)
              then auto_kill now (auto_reason trigger) r else r)
    <$> agent_by_id u d.
Proof.
  unfold agent_by_id. rewrite triggerAutoKill_agents.
  apply (agent_by_id_update u). auto with keys.
Qed.

Lemma agent_by_id_id (u : nat) (d : Database) (a : agents.row) :
  agent_by_id u d = Some a -> agents.id a = u.
Proof. intros E. by apply select_some in E as [_ ?]. Qed.

(** An automatic kill of an agent that is not active changes no row, and
    still writes its audit record. *)
Lemma triggerAutoKill_idle (now : Z) (trigger : trigger.t)
  (violation : violation.t) (d : Database) :
  (forall r, r ∈ agents d ->
             agents.id r = violation.agent_uuid violation ->
             agents.status r <> active) ->
  agents (triggerAutoKill now trigger violation d) = agents d
  /\ length (kill_switch_events (triggerAutoKill now trigger violation d))
     = S (length (kill_switch_events d)).
Proof.
  intros Hna. rewrite triggerAutoKill_agents, triggerAutoKill_audit. split.
  - rewrite update_agents_idle; [done|]. intros r Hr.
    destruct (bool_decide (agents.id r = _)) eqn:E1; [|done].
    apply bool_decide_eq_true in E1. cbn.
    apply bool_decide_eq_false. by apply Hna.
  - rewrite length_app. cbn. lia.
Qed.

Lemma checkInfiniteLoops_fold (now : Z) (d : Database) :
  checkInfiniteLoops now d
  = foldl (loop_kill now) d (loopDetectionQuery now d).
Proof. reflexivity. Qed.

(** ** The monitor: loop detection *)

Lemma pattern_of_some (now : Z) (d : Database) (e : usage_events.row)
  (p : pattern) :
  pattern_of now d e = Some p ->
  exists a, agent_by_id p.1.1.1.1 d = Some a
            /\ agents.status a = active
            /\ p.1.1.1.2 = agents.agent_id a
            /\ repeats now p.1.1.1.1 p.1.1.2 p.1.2 p.2 e.
Proof.
  unfold pattern_of, repeats.
  destruct (agent_by_id _ _) as [a|] eqn:Ea; [|done].
  destruct (now - 600000 <=? _) eqn:Et; [|done].
  destruct (bool_decide _) eqn:Es; [|done].
  destruct (usage_events.request_hash e) as [h|]; [|done].
  cbn [andb]. intros ?. simplify_eq. cbn. exists a.
  apply bool_decide_eq_true in Es. apply Z.leb_le in Et. done.
Qed.

Lemma pattern_of_repeats (now : Z) (d : Database) (e : usage_events.row)
  (a : agents.row) (u : nat) (name : string) (model : option string)
  (h : string) :
  agent_by_id u d = Some a -> agents.status a = active ->
  repeats now u name model h e ->
  pattern_of now d e = Some (u, agents.agent_id a, name, model, h).
Proof.
  unfold pattern_of, repeats. intros Ea Hst (Hu & Ht & Hn & Hm & Hh).
  rewrite Hu, Ea, Hst, Hh, Hn, Hm.
  by rewrite (proj2 (Z.leb_le _ _) Ht).
Qed.

(** The groups of the query never count more events than repeat. *)
Lemma identical_requests_le (now : Z) (d : Database) (p : pattern)
  (l : list usage_events.row) :
  (identical_requests p (omap (pattern_of now d) l)
   <= length (filter (repeats now p.1.1.1.1 p.1.1.2 p.1.2 p.2) l))%nat.
Proof.
  unfold identical_requests. induction l as [|e l IH]; [done|].
  cbn [omap list_omap]. rewrite (filter_cons (repeats _ _ _ _ _)).
  destruct (pattern_of now d e) as [q|] eqn:Eq.
  - rewrite filter_cons. destruct (decide (q = p)) as [->|Hne].
    + apply pattern_of_some in Eq as (_ & _ & _ & _ & Hr).
      rewrite decide_True by done. cbn. lia.
    + destruct (decide (repeats _ _ _ _ _ e)); cbn; lia.
  - destruct (decide (repeats _ _ _ _ _ e)); cbn; lia.
Qed.

(** For an active agent the group counts exactly the events that
    repeat. *)
Lemma identical_requests_eq (now : Z) (d : Database) (a : agents.row)
  (u : nat) (name : string) (model : option string) (h : string)
  (l : list usage_events.row) :
  agent_by_id u d = Some a -> agents.status a = active ->
  identical_requests (u, agents.agent_id a, name, model, h)
    (omap (pattern_of now d) l)
  = length (filter (repeats now u name model h) l).
Proof.
  intros Ea Hst. unfold identical_requests. induction l as [|e l IH]; [done|].
  cbn [omap list_omap]. rewrite (filter_cons (repeats _ _ _ _ _)).
  destruct (decide (repeats now u name model h e)) as [Hr|Hr].
  - rewrite (pattern_of_repeats now d e a u name model h) by done.
    rewrite filter_cons, decide_True by done. cbn. by rewrite IH.
  - destruct (pattern_of now d e) as [q|] eqn:Eq; [|done].
    rewrite filter_cons. destruct (decide _) as [->|]; [|done].
    apply pattern_of_some in Eq as (_ & _ & _ & _ & Hr'). done.
Qed.

Lemma identical_requests_elem (p : pattern) (l : list pattern) :
  (0 < identical_requests p l)%nat -> p ∈ l.
Proof.
  unfold identical_requests. intros Hc.
  destruct (filter (fun q => q = p) l) as [|q f] eqn:E; [cbn in Hc; lia|].
  assert (Hq : q ∈ filter (fun q => q = p) l) by (rewrite E; constructor).
  by apply list_elem_of_filter in Hq as [-> ?].
Qed.

(** The rows of the query. *)
Lemma loopDetectionQuery_row (now : Z) (d : Database) (p : pattern)
  (n user : nat) :
  (p, n, user) ∈ loopDetectionQuery now d <->
  p ∈ omap (pattern_of now d) (usage_events d)
  /\ (50 <= n)%nat
  /\ n = identical_requests p (omap (pattern_of now d) (usage_events d))
  /\ exists a, agent_by_id p.1.1.1.1 d = Some a /\ user = agents.user_id a.
Proof.
  unfold loopDetectionQuery. rewrite list_elem_of_omap. split.
  - intros (q & Hq & E). rewrite elem_of_remove_dups in Hq.
    destruct (50 <=? _)%nat eqn:Ec; [|done].
    destruct (agent_by_id _ _) as [a|] eqn:Ea; [|done]. simplify_eq.
    apply Nat.leb_le in Ec. eauto 10.
  - intros (Hp & Hn & -> & a & Ea & ->). exists p.
    split; [by apply elem_of_remove_dups|].
    by rewrite (proj2 (Nat.leb_le _ _) Hn), Ea.
Qed.

Lemma loop_kill_by_id (now : Z) (d : Database) (row : pattern * nat * nat)
  (u : nat) :
  agent_by_id u (loop_kill now d row)
  = match agent_by_id u d with
    | Some a =>
      if bool_decide (u = row.1.1.1.1.1.1)
         && bool_decide (agents.status a = active)
      then Some (auto_kill now
                   (auto_reason
                      (trigger.mk row.2 "infinite_loop" "Auto Loop Detection"
                         (Z.of_nat row.1.2))) a)
      else Some a
    | None => None
    end.
Proof.
  destruct row as [[p n] user]. unfold loop_kill.
  rewrite triggerAutoKill_by_id.
  destruct (agent_by_id u d) as [a|] eqn:Ea; [|done].
  apply agent_by_id_id in Ea. cbn. rewrite Ea. by case_match.
Qed.

(** Rows for other agents leave the row of [u] alone. *)
Lemma loop_kills_others (now : Z) (u : nat)
  (rows : list (pattern * nat * nat)) (d : Database) :
  (forall row, row ∈ rows -> row.1.1.1.1.1.1 <> u) ->
  agent_by_id u (foldl (loop_kill now) d rows) = agent_by_id u d.
Proof.
  revert d. induction rows as [|row rows IH]; intros d Hrows; [done|].
  cbn [foldl]. rewrite IH by (intros ? ?; apply Hrows; by constructor).
  rewrite loop_kill_by_id. destruct (agent_by_id u d) as [a|]; [|done].
  rewrite bool_decide_false; [done|].
  intros ->. by eapply Hrows; [constructor|].
Qed.

(** A killed agent stays killed under further rows. *)
Lemma loop_kills_killed (now : Z) (u : nat)
  (rows : list (pattern * nat * nat)) (d : Database) (a : agents.row) :
  agent_by_id u d = Some a -> agents.status a = killed ->
  agent_by_id u (foldl (loop_kill now) d rows) = Some a.
Proof.
  revert d. induction rows as [|row rows IH]; intros d Ea Hst; [done|].
  cbn [foldl]. apply IH; [|done].
  rewrite loop_kill_by_id, Ea, Hst. by rewrite andb_false_r.
Qed.

(** The first row for an active agent kills it, with the reason of that
    row. *)
Lemma loop_kills_active (now : Z) (u : nat)
  (rows : list (pattern * nat * nat)) (d : Database) (a : agents.row) :
  agent_by_id u d = Some a -> agents.status a = active ->
  (exists row, row ∈ rows /\ row.1.1.1.1.1.1 = u) ->
  exists row, row ∈ rows /\ row.1.1.1.1.1.1 = u
    /\ agent_by_id u (foldl (loop_kill now) d rows)
       = Some (auto_kill now
                 (auto_reason
                    (trigger.mk row.2 "infinite_loop" "Auto Loop Detection"
                       (Z.of_nat row.1.2))) a).
Proof.
  revert d. induction rows as [|row rows IH]; intros d Ea Hst (r & Hr & Hu).
  { by apply not_elem_of_nil in Hr. }
  cbn [foldl].
  destruct (decide (row.1.1.1.1.1.1 = u)) as [Hrow|Hrow].
  - exists row. split; [by constructor|]. split; [done|].
    apply loop_kills_killed; [|done].
    rewrite loop_kill_by_id, Ea, Hst, Hrow.
    by rewrite !bool_decide_true.
  - destruct (IH (loop_kill now d row)) as (row' & Hin & Hu' & E); [|done| |].
    + rewrite loop_kill_by_id, Ea. by rewrite bool_decide_false.
    + apply elem_of_cons in Hr as [->|Hr]; [done|eauto].
    + exists row'. split; [by constructor|done].
Qed.

(** C7 (as stated, refuted).  50 requests with one request hash in the
    last ten minutes do not get an agent killed when the agent is paused
    at the tick, nor when the requests differ in their model: the query
    looks at active agents only and groups by event name, model and
    request hash. *)
Lemma duplicate_loop_counterexample :
  length (filter (fun e => usage_events.agent_id e = 4%nat
                           /\ t0 - 600000 <= usage_events.created_at e
                           /\ usage_events.request_hash e = Some "h1")
            (usage_events db_loop_paused)) = 50%nat
  /\ agent_by_id 4 (checkInfiniteLoops t0 db_loop_paused) = Some agent_paused
  /\ length (filter (fun e => usage_events.agent_id e = 2%nat
                              /\ t0 - 600000 <= usage_events.created_at e
                              /\ usage_events.request_hash e = Some "h1")
               (usage_events db_loop_models)) = 50%nat
  /\ agent_by_id 2 (checkInfiniteLoops t0 db_loop_models) = Some agent_free
  /\ agents.status agent_paused <> killed
  /\ agents.status agent_free <> killed.
Proof. vm_compute. repeat split; congruence. Qed.

(** C7 (amended).  An agent whose status is active at the tick and that
    has at least 50 events created in the last ten minutes with the same
    event name, model and request hash is killed by [checkInfiniteLoops]
    of that tick: its row gets the status killed, the time of the tick
    and the reason of the loop rule with a count of at least 50.  An
    agent none of whose groups of such events reaches 50 (49 events, say)
    keeps its row unchanged under this rule. *)
Theorem duplicate_loop_rule (now : Z) (u : nat) (a : agents.row)
  (d : Database) :
  agent_by_id u d = Some a ->
  (agents.status a = active ->
   (exists name model h,
      (50 <= length (filter (repeats now u name model h)
                       (usage_events d)))%nat) ->
   exists n, (50 <= n)%nat
     /\ agent_by_id u (checkInfiniteLoops now d)
        = Some (auto_kill now
                  (auto_reason
                     (trigger.mk (agents.user_id a) "infinite_loop"
                        "Auto Loop Detection" (Z.of_nat n))) a)
     /\ agents.status
          (auto_kill now
             (auto_reason
                (trigger.mk (agents.user_id a) "infinite_loop"
                   "Auto Loop Detection" (Z.of_nat n))) a) = killed)
  /\ ((forall name model h,
         (length (filter (repeats now u name model h) (usage_events d))
          < 50)%nat) ->
      agent_by_id u (checkInfiniteLoops now d) = Some a).
Proof.
  intros Ea. rewrite checkInfiniteLoops_fold. split.
  - intros Hst (name & model & h & Hc).
    rewrite <- (identical_requests_eq now d a) in Hc by done.
    destruct (loop_kills_active now u (loopDetectionQuery now d) d a Ea Hst)
      as ([[p n] user] & Hrow & Hu & E).
    { exists ((u, agents.agent_id a, name, model, h),
              identical_requests (u, agents.agent_id a, name, model, h)
                (omap (pattern_of now d) (usage_events d)),
              agents.user_id a).
      split; [|done].
      apply loopDetectionQuery_row. split; [|split; [exact Hc|]].
      - apply identical_requests_elem. lia.
      - split; [reflexivity|]. exists a. by split. }
    apply loopDetectionQuery_row in Hrow as (_ & Hn & _ & a0 & Ea0 & ->).
    cbn in Hu, E. rewrite Hu, Ea in Ea0. simplify_eq.
    exists n. split; [done|]. split; [exact E|done].
  - intros Hlt. rewrite loop_kills_others; [done|].
    intros [[p n] user] Hrow Hu. cbn in Hu.
    apply loopDetectionQuery_row in Hrow as (_ & Hn & -> & _).
    pose proof (identical_requests_le now d p (usage_events d)) as Hle.
    specialize (Hlt p.1.1.2 p.1.2 p.2). rewrite Hu in Hle. lia.
Qed.

(** The rule at 50 and at 49 repetitions. *)
Lemma duplicate_loop_rule_witness :
  (exists n, (50 <= n)%nat
     /\ agent_by_id 2 (checkInfiniteLoops t0 db_loop_50)
        = Some (auto_kill t0
                  (auto_reason
                     (trigger.mk 1 "infinite_loop" "Auto Loop Detection"
                        (Z.of_nat n))) agent_free))
  /\ agent_by_id 2 (checkInfiniteLoops t0 db_loop_49) = Some agent_free.
Proof.
  split.
  - destruct (proj1 (duplicate_loop_rule t0 2 agent_free db_loop_50 eq_refl)
                eq_refl) as (n & Hn & E & _).
    + exists "completion", (Some "gpt-4"), "h1". vm_compute. lia.
    + exists n. split; [exact Hn | exact E].
  - apply (duplicate_loop_rule t0 2 agent_free db_loop_49 eq_refl).
    intros name model h.
    eapply Nat.le_lt_trans; [apply length_filter|]. vm_compute. lia.
Defined.

(** At 50 repetitions the agent is killed with the count of the group in
    its reason. *)
Example loop_of_50 :
  agent_by_id 2 (checkInfiniteLoops t0 db_loop_50)
  = Some (agents.mk 2 1 "agent-free" "agent-free" false None killed
            (Some "Auto-kill triggered: Auto Loop Detection (infinite_loop) exceeded threshold of 50")
            (Some t0) None None).
Proof. vm_compute. reflexivity. Qed.

(** ** The audit of kills *)

(** C3 (failing input).  An active agent runs two loops at once, so the
    query of one tick has two rows for it.  The first [triggerAutoKill]
    kills the agent; the second finds it killed and updates no row, yet
    appends a second kill_agent record: two audit records for one
    transition.  On the same agent the route POST /kill-agent answers 404
    and appends nothing. *)
Theorem auto_kill_audits_twice :
  let d1 := checkInfiniteLoops t0 db_two_loops in
  length (loopDetectionQuery t0 db_two_loops) = 2%nat
  /\ agents.status <$> agent_by_id 2 db_two_loops = Some active
  /\ agents.status <$> agent_by_id 2 d1 = Some killed
  /\ map (fun e => (kill_switch_events.event_type e,
                    kill_switch_events.target_id e))
       (kill_switch_events d1)
     = [("kill_agent", Some "agent-free"); ("kill_agent", Some "agent-free")]
  /\ (let d2 :=
        triggerAutoKill t0
          (trigger.mk 1 "infinite_loop" "Auto Loop Detection" 50)
          (violation.mk "agent-free" 2 50) d1 in
      agents d2 = agents d1
      /\ length (kill_switch_events d2) = S (length (kill_switch_events d1)))
  /\ (let '(d3, r) := kill_agent 1 t0 "agent-free" (Some "again") d1 in
      d3 = d1 /\ http_status r = 404%nat).
Proof. vm_compute. repeat split. Qed.

Lemma update_returning_idle (c : agents.row -> bool)
  (f : agents.row -> agents.row) (d : Database) :
  (forall r, r ∈ agents d -> c r = false) -> update_returning c f d = (d, []).
Proof.
  intros Hc. unfold update_returning. rewrite update_agents_idle by done.
  f_equal. destruct (List.filter c (agents d)) as [|r l] eqn:E; [done|].
  exfalso.
  assert (Hr : In r (List.filter c (agents d))) by (rewrite E; by left).
  apply filter_In in Hr as [Hin Hcr]. apply list_elem_of_In in Hin.
  rewrite (Hc r Hin) in Hcr. done.
Qed.

(** The routes on one agent append their audit record only when the
    UPDATE has changed a row: killing an agent that is killed already
    answers 404 and leaves the database as it is. *)
Lemma kill_agent_already_killed (user : nat) (now : Z) (agentId : string)
  (reason : option string) (d : Database) :
  (forall r, r ∈ agents d -> owned user agentId r = true ->
             agents.status r = killed) ->
  (kill_agent user now agentId reason d).1 = d
  /\ (400 <= http_status (kill_agent user now agentId reason d).2)%nat.
Proof.
  intros Hk. unfold kill_agent.
  destruct (required_text "reason" 500 reason) as [|why];
    [cbn; split; [done|lia]|].
  rewrite update_returning_idle; [cbn; split; [done|lia]|].
  intros r Hr. destruct (owned user agentId r) eqn:Eo; [|done].
  by rewrite (Hk r Hr Eo).
Qed.

(** Pausing an agent that is not active, and reviving one that is,
    answer 404 and leave the database as it is. *)
Lemma pause_agent_not_active (user : nat) (now : Z) (agentId : string)
  (duration_minutes : option Z) (reason : option string) (d : Database) :
  (forall r, r ∈ agents d -> owned user agentId r = true ->
             agents.status r <> active) ->
  (pause_agent user now agentId duration_minutes reason d).1 = d
  /\ (400 <= http_status
               (pause_agent user now agentId duration_minutes reason d).2)%nat.
Proof.
  intros Hk. unfold pause_agent.
  destruct (pauseAgentSchema duration_minutes reason) as [|[n why]];
    [cbn; split; [done|lia]|].
  rewrite update_returning_idle; [cbn; split; [done|lia]|].
  intros r Hr. destruct (owned user agentId r) eqn:Eo; [|done].
  cbn. apply bool_decide_eq_false. by apply Hk.
Qed.

Lemma revive_agent_already_active (user : nat) (now : Z) (agentId : string)
  (reason : option string) (d : Database) :
  (forall r, r ∈ agents d -> owned user agentId r = true ->
             agents.status r = active) ->
  revive_agent user now agentId reason d
  = (d, resp_not_found "Agent not found or already active").
Proof.
  intros Hk. unfold revive_agent.
  rewrite update_returning_idle; [done|].
  intros r Hr. destruct (owned user agentId r) eqn:Eo; [|done].
  by rewrite (Hk r Hr Eo).
Qed.

(** A pause that changes a row appends exactly one audit record. *)
Lemma pause_agent_effective (user : nat) (now n : Z) (agentId why : string)
  (duration_minutes : option Z) (reason : option string) (a : agents.row)
  (d : Database) :
  pauseAgentSchema duration_minutes reason = inr (n, why) ->
  agent_by_external agentId user d = Some a -> agents.status a = active ->
  let '(d', r) := pause_agent user now agentId duration_minutes reason d in
  http_status r = 200%nat
  /\ agent_by_external agentId user d' = Some (pause (now + n * 60000) why a)
  /\ kill_switch_events d'
     = kill_switch_events d
       ++ [kill_switch_events.mk "pause_agent" "agent" (Some agentId) user
             "manual" why now].
Proof.
  intros Hr Ea Hst. unfold pause_agent, update_returning. rewrite Hr.
  destruct (agent_by_external_keys _ _ _ _ Ea) as [Hi Hu].
  apply select_some in Ea as Hin. destruct Hin as [Hin _].
  set (c := fun r => owned user agentId r
                     && bool_decide (agents.status r = active)).
  assert (Hc : c a = true).
  { unfold c, owned. by rewrite !bool_decide_true. }
  destruct (map _ (List.filter c (agents d))) as [|x rows] eqn:E.
  { exfalso. apply map_eq_nil in E. by eapply filter_found. }
  unfold logKillSwitchEvent. cbn. repeat split.
  change (agent_by_external agentId user
            (update_agents c (pause (now + n * 60000) why) d)
          = Some (pause (now + n * 60000) why a)).
  rewrite agent_by_external_update by auto with keys.
  by rewrite Ea; cbn; rewrite Hc.
Qed.

(** A kill that changes a row appends exactly one audit record. *)
Lemma kill_agent_effective (user : nat) (now : Z) (agentId why : string)
  (reason : option string) (a : agents.row) (d : Database) :
  required_text "reason" 500 reason = inr why ->
  agent_by_external agentId user d = Some a -> agents.status a <> killed ->
  let '(d', r) := kill_agent user now agentId reason d in
  http_status r = 200%nat
  /\ agent_by_external agentId user d' = Some (kill now user why a)
  /\ kill_switch_events d'
     = kill_switch_events d
       ++ [kill_switch_events.mk "kill_agent" "agent" (Some agentId) user
             "manual" why now].
Proof.
  intros Hr Ea Hst. unfold kill_agent, update_returning. rewrite Hr.
  destruct (agent_by_external_keys _ _ _ _ Ea) as [Hi Hu].
  apply select_some in Ea as Hin. destruct Hin as [Hin _].
  set (c := fun r => owned user agentId r
                     && negb (bool_decide (agents.status r = killed))).
  assert (Hc : c a = true).
  { unfold c, owned. rewrite !bool_decide_true by done.
    by rewrite bool_decide_false. }
  destruct (map _ (List.filter c (agents d))) as [|x rows] eqn:E.
  { exfalso. apply map_eq_nil in E. by eapply filter_found. }
  unfold logKillSwitchEvent. cbn. repeat split.
  change (agent_by_external agentId user
            (update_agents c (kill now user why) d)
          = Some (kill now user why a)).
  rewrite agent_by_external_update by auto with keys.
  by rewrite Ea; cbn; rewrite Hc.
Qed.

(** ** The schedule of the monitor *)

(** C6 (as stated, refuted).  After [start()], the first expiry of the
    interval starts a second tick while the first one has not settled:
    two ticks are in flight. *)
Lemma ticks_overlap_counterexample :
  unsettled_checks <$> run [CallStart; IntervalExpires 0] boot
  = Some 2%nat.
Proof. reflexivity. Qed.

Lemma scheduled_step (o : occurrence) (rt rt' : Runtime) :
  scheduled rt -> step o rt = Some rt' -> scheduled rt'.
Proof.
  unfold scheduled. intros [Hi Hr] Hs. destruct o; cbn in Hs.
  - simplify_eq. unfold start.
    destruct (isRunning (monitor rt)) eqn:Er;
      [rewrite Er; split; assumption|]. cbn.
    destruct (monitoringInterval (monitor rt)) as [h|] eqn:Em.
    + exfalso. assert (false = true) by (apply Hr; eauto). done.
    + rewrite Hi. split; [done|]. split; eauto.
  - simplify_eq. unfold stop.
    destruct (monitoringInterval (monitor rt)) as [h|] eqn:Em; cbn.
    + rewrite Hi. rewrite filter_cons, decide_False by (intros Hf; by apply Hf).
      split; [done|]. split; [done|]. by intros [? ?].
    + split; [done|]. split; [done|]. by intros [? ?].
  - case_bool_decide; by simplify_eq.
  - destruct (unsettled_checks rt); by simplify_eq.
Qed.

Lemma scheduled_run (l : list occurrence) (rt rt' : Runtime) :
  scheduled rt -> run l rt = Some rt' -> scheduled rt'.
Proof.
  revert rt. induction l as [|o l IH]; intros rt Hs Hr; cbn in Hr.
  - by simplify_eq.
  - destruct (step o rt) as [rt1|] eqn:E; [|done].
    eapply IH; [|exact Hr]. by eapply scheduled_step.
Qed.

(** C6 (amended).  In every state that the monitor reaches, at most one
    interval timer is set (a second [start()] while it runs sets none),
    and every expiry of that timer starts a tick, whether or not earlier
    ticks have settled: no tick is skipped, and for every [n] there is a
    run in which [n + 1] ticks are in flight at once. *)
Theorem one_timer_unguarded_ticks (l : list occurrence) (rt : Runtime) :
  run l boot = Some rt ->
  (length (intervals rt) <= 1)%nat
  /\ start (start rt) = start rt
  /\ (forall h, h ∈ intervals rt ->
        exists rt', step (IntervalExpires h) rt = Some rt'
                    /\ unsettled_checks rt' = S (unsettled_checks rt)
                    /\ intervals rt' = intervals rt)
  /\ forall n, unsettled_checks
                 <$> run (CallStart :: replicate n (IntervalExpires 0)) boot
               = Some (S n).
Proof.
  intros Hr.
  assert (Hs : scheduled rt).
  { eapply scheduled_run; [|exact Hr]. split; [done|]. split; [done|].
    by intros [? ?]. }
  destruct Hs as [Hi Hrun]. split; [|split; [|split]].
  - rewrite Hi. destruct (monitoringInterval (monitor rt)); cbn; lia.
  - unfold start. destruct (isRunning (monitor rt)) eqn:E; [by rewrite E|].
    done.
  - intros h Hh. cbn. rewrite bool_decide_true by done. eauto.
  - intros n. cbn.
    assert (Hn : forall k m,
              unsettled_checks
                <$> run (replicate k (IntervalExpires 0))
                      (mkRuntime (mkMonitor (Some 0%nat) true) [0%nat] 1 m)
              = Some (k + m)%nat).
    { induction k as [|k IH]; intros m; [done|].
      cbn [replicate run step intervals].
      rewrite bool_decide_true by constructor.
      unfold performMonitoringChecks.
      cbn [monitor intervals next_handle unsettled_checks].
      rewrite IH. f_equal. lia. }
    change (unsettled_checks
              <$> run (replicate n (IntervalExpires 0))
                    (mkRuntime (mkMonitor (Some 0%nat) true) [0%nat] 1 1)
            = Some (S n)).
    rewrite Hn. f_equal. lia.
Qed.

(** The theorem after a start and one expiry of the interval. *)
Lemma one_timer_unguarded_ticks_witness :
  exists rt, run [CallStart; IntervalExpires 0] boot = Some rt
             /\ (length (intervals rt) <= 1)%nat
             /\ start (start rt) = start rt.
Proof.
  eexists. split; [reflexivity|].
  destruct (one_timer_unguarded_ticks [CallStart; IntervalExpires 0] _
              eq_refl) as (H1 & H2 & _).
  split; [exact H1 | exact H2].
Defined.

(** ** The theorems at the example data *)

(** An emergency stop of the mixed example world and its disabling, an
    emergency stop without confirmation, and a disabling in the mixed
    example world, whose agents are active, paused and killed. *)
Lemma emergency_stop_then_disable_witness :
  let d := db world_mixed in
  let d1 := (emergency_stop_all 1 t0 (Some "incident") (Some true) d).1 in
  let d2 := (emergency_stop_disable 1 (t0 + 1000) d1).1 in
  (emergency_stop_all 1 t0 (Some "incident") None d).1 = d
  /\ stopped d1
  /\ (forall r, r ∈ agents d1 -> agents.status r = killed)
  /\ global_kill_switch d2 = global_kill_switch.mk false None None None
  /\ agents d2 = agents d1
  /\ agents (emergency_stop_disable 1 (t0 + 1000) d).1 = agents d.
Proof.
  destruct (emergency_stop_then_disable 1 1 t0 (t0 + 1000) (Some "incident")
              None "incident" (db world_mixed) eq_refl) as (H0 & Hd & H).
  cbn zeta in *.
  destruct H as (H1 & H2 & _ & _ & _ & H3 & H4 & _).
  split; [apply H0; discriminate|].
  split; [exact H1|]. split; [exact H2|]. split; [exact H3|].
  split; [exact H4|]. exact (proj1 (Hd (db world_mixed))).
Defined.

(** The revival of the agent that is suspended and killed, and a request
    for it after two other requests. *)
Lemma revive_keeps_suspension_witness :
  let d' := (revive_agent 1 t0 "agent-late" None (db world_late)).1 in
  let w := serve_all
             [PostEmergencyStopDisable 1 (t0 + 1000);
              PostRecord 1 (t0 + 2000) (example_body "agent-x" (usd 1));
              PostSuspendAgent 1 "agent-x"]
             (mkWorld d' (mkRedis true ∅)) in
  agent_by_external "agent-late" 1 d' = Some (revive agent_late)
  /\ record 1 (t0 + 3000) (example_body "agent-late" (usd 1)) w
     = (w, resp_agent_suspended).
Proof.
  pose proof (revive_keeps_suspension 1 t0 "agent-late" None agent_late
                (db world_late)) as H.
  cbn zeta. destruct (revive_agent _ _ _ _ _) as [d' r]. cbn [fst].
  destruct H as (_ & H1 & _ & _ & _ & H2);
    [discriminate | reflexivity | reflexivity | discriminate |].
  split; [exact H1|]. apply H2; [|reflexivity].
  repeat constructor; exact id.
Defined.

(** * Further properties *)

(** ** What a request to record leaves behind *)

Lemma is_agent_active_answers (p_agent_id p_user_id : nat) (now : Z)
  (d d' : Database) :
  is_agent_active p_agent_id p_user_id now d = (d', true) ->
  ~ stopped d'
  /\ exists a, agent_by_id_user p_agent_id p_user_id d' = Some a
               /\ agents.status a = active.
Proof.
  unfold is_agent_active, stopped. intros E.
  destruct (global_kill_switch.is_emergency_stopped _) eqn:Eg;
    [discriminate|].
  destruct (agent_by_id_user _ _ _) as [a|] eqn:Ea; [|discriminate].
  destruct (agents.status a) eqn:Es; try discriminate.
  - simplify_eq. split; [congruence|]. eauto.
  - destruct (pause_in_future _ _); [discriminate|].
    destruct (pause_elapsed _ _); [|discriminate]. simplify_eq.
    split; [cbn; congruence|].
    rewrite agent_by_id_user_update by apply keeps_keys_unpause.
    rewrite Ea. cbn [fmap option_fmap option_map].
    apply select_some in Ea as [_ [Hid _]].
    rewrite bool_decide_true by done. eauto.
Qed.

Lemma optional_count_inr (key : string) (v r : option Z) :
  optional_count key v = inr r -> r = v /\ 0 <= default 0 v.
Proof.
  unfold optional_count. destruct v as [n|]; cbn.
  - destruct (n <? 0) eqn:E; intros; simplify_eq. split; [done|lia].
  - intros; simplify_eq. done.
Qed.

Lemma usageEventSchema_counts (now : Z) (b : body.t) (v : event.t) :
  usageEventSchema now b = inr v -> 0 <= finalTotalTokens v.
Proof.
  unfold usageEventSchema. intros E.
  repeat match type of E with
         | match ?x with _ => _ end = _ =>
           let H := fresh "E" in destruct x eqn:H; try discriminate
         | (if ?x then _ else _) = _ =>
           let H := fresh "E" in destruct x eqn:H; try discriminate
         end.
  simplify_eq.
  repeat match goal with
         | H : optional_count _ _ = inr _ |- _ =>
           apply optional_count_inr in H as [-> ?]
         end.
  unfold finalTotalTokens. cbn.
  destruct (body.total_tokens b) as [t|]; cbn in *; [|lia].
  case_bool_decide; lia.
Qed.

Lemma record_event_effect (user : nat) (now : Z) (v : event.t)
  (check : budget_check) (customerUuid agentUuid : nat) (d2 : Database)
  (w : World) :
  let '(w', r) :=
    record_event user now v check customerUuid agentUuid d2 w in
  kill_switch_events (db w') = kill_switch_events d2
  /\ global_kill_switch (db w') = global_kill_switch d2
  /\ ((http_status r = 201%nat
       /\ ~ stopped (db w')
       /\ fits_usage_events v = true
       /\ redis w'
          = (incrementAgentSpend now (event.agent_id v) (event.cost_amount v)
               (redis w)).1
       /\ exists event_id a,
            usage_events (db w')
            = usage_events d2
              ++ [usage_row event_id user customerUuid agentUuid now v]
            /\ agent_by_id_user agentUuid user (db w') = Some a
            /\ agents.status a = active)
      \/ (http_status r <> 201%nat
          /\ usage_events (db w') = usage_events d2
          /\ redis w' = redis w)).
Proof.
  unfold record_event.
  assert (H3 : let d3 := (match check with
                          | DEFERRED =>
                            checkAgentBudgetAfterCreation agentUuid
                              (event.cost_amount v) user d2
                          | Checked a => (d2, Some (Allowed a))
                          end).1 in
               usage_events d3 = usage_events d2
               /\ kill_switch_events d3 = kill_switch_events d2
               /\ global_kill_switch d3 = global_kill_switch d2).
  { destruct check; [|done].
    by destruct (checkAgentBudgetAfterCreation_frame agentUuid
                   (event.cost_amount v) user d2) as (_ & ? & ? & ?). }
  destruct (match check with DEFERRED => _ | Checked _ => _ end)
    as [d3 budgetCheck].
  cbn [fst] in H3. destruct H3 as (Hu3 & Hk3 & Hg3).
  destruct budgetCheck as [[a|? ? ? ?]|]; cbn [db with_db redis];
    [|split; [congruence|]; split; [congruence|]; right;
      split; [cbn; lia|]; split; [congruence|done]..].
  unfold checkAgentStatus.
  pose proof (is_agent_active_frame agentUuid user now d3)
    as (_ & Hu4 & Hk4 & Hg4).
  pose proof (is_agent_active_answers agentUuid user now d3) as Hact.
  destruct (is_agent_active _ _ _ _) as [d4 isActive].
  cbn [fst] in Hu4, Hk4, Hg4.
  destruct isActive.
  - unfold insert_usage_event.
    destruct (fits_usage_events v) eqn:Hfit;
      cbn [db with_db redis kill_switch_events global_kill_switch
           with_usage_events usage_events].
    + split; [congruence|]. split; [congruence|]. left.
      destruct (Hact d4 eq_refl) as (Hns & a' & Ha' & Hs').
      split; [done|]. split; [exact Hns|]. split; [done|]. split; [done|].
      eexists _, a'. split; [|split; [exact Ha'|exact Hs']].
      rewrite Hu4, Hu3. reflexivity.
    + split; [congruence|]. split; [congruence|]. right.
      split; [cbn; lia|]. split; [congruence|done].
  - cbn [db with_db redis]. split; [congruence|]. split; [congruence|].
    right. split; [cbn; lia|]. split; [congruence|done].
Qed.

Lemma record_handler_effect (user : nat) (now : Z) (b : body.t)
  (check : budget_check) (w : World) :
  let '(w', r) := record_handler user now b check w in
  kill_switch_events (db w') = kill_switch_events (db w)
  /\ global_kill_switch (db w') = global_kill_switch (db w)
  /\ match usageEventSchema now b with
     | inl _ => w' = w /\ http_status r = 400%nat
     | inr v =>
       (http_status r = 201%nat
        /\ ~ stopped (db w')
        /\ recordable user v (db w) = true
        /\ redis w'
           = (incrementAgentSpend now (event.agent_id v) (event.cost_amount v)
                (redis w)).1
        /\ exists event_id customerUuid agentUuid a,
             usage_events (db w')
             = usage_events (db w)
               ++ [usage_row event_id user customerUuid agentUuid now v]
             /\ agent_by_id_user agentUuid user (db w') = Some a
             /\ agents.status a = active)
       \/ (http_status r <> 201%nat
           /\ usage_events (db w') = usage_events (db w)
           /\ redis w' = redis w)
     end.
Proof.
  unfold record_handler.
  destruct (usageEventSchema now b) as [key|v] eqn:Ev; [done|].
  destruct (ensureCustomerExists _ _ _) as [[d1 customerUuid]|] eqn:E1.
  2:{ split; [done|]. split; [done|]. right. split; [cbn; lia|done]. }
  pose proof (ensureCustomerExists_frame _ _ _ _ _ E1)
    as (Ha1 & Hu1 & Hk1 & Hg1).
  destruct (ensureAgentExists _ _ _) as [[d2 agentUuid]|] eqn:E2.
  2:{ cbn [db with_db redis]. split; [done|]. split; [done|]. right.
      split; [cbn; lia|done]. }
  pose proof (ensureAgentExists_frame _ _ _ _ _ E2)
    as (_ & Hu2 & Hk2 & Hg2).
  assert (Hc : creatable user v (db w) = true).
  { unfold creatable. apply andb_true_intro. split.
    - destruct (customer_by_external _ _ _) eqn:Ec; [done|].
      destruct (varchar 255 (event.customer_id v)) eqn:Ef;
        [by rewrite orb_true_r|].
      by rewrite (proj2 (ensureCustomerExists_None _ _ _)) in E1.
    - destruct (agent_by_external _ _ (db w)) eqn:Ea; [done|].
      destruct (varchar 255 (event.agent_id v)) eqn:Ef;
        [by rewrite orb_true_r|].
      rewrite (proj2 (ensureAgentExists_None _ _ _)) in E2; [done|].
      split; [|done]. unfold agent_by_external in *. by rewrite Ha1. }
  pose proof (record_event_effect user now v check customerUuid agentUuid
                d2 w) as He.
  destruct (record_event _ _ _ _ _ _ _ _) as [w' r].
  destruct He as (Hk' & Hg' & He).
  split; [congruence|]. split; [congruence|].
  destruct He as [(Hr & Hns & Hfit & Hred & id & a & Hl & Ha & Hs)
                 |(Hr & Hl & Hred)].
  - left. split; [done|]. split; [done|]. split.
    { unfold recordable. by rewrite Hc, Hfit. }
    split; [done|]. exists id, customerUuid, agentUuid, a.
    split; [|done]. rewrite Hl. congruence.
  - right. split; [done|]. split; [congruence|done].
Qed.

Lemma enforceAgentBudget_responds (user : nat) (now : Z)
  (agent_id : option string) (cost_amount : option Z) (w w1 : World)
  (r : response) :
  enforceAgentBudget user now agent_id cost_amount w = (w1, Respond r) ->
  http_status r <> 201%nat.
Proof.
  unfold enforceAgentBudget. intros E.
  repeat match type of E with
         | match ?x with _ => _ end = _ => destruct x; try discriminate
         | (if ?x then _ else _) = _ => destruct x; try discriminate
         | (let '(_, _) := ?x in _) = _ => destruct x
         end; simplify_eq; cbn; lia.
Qed.

(** What one request to POST /record does to the three tables. *)
Lemma record_effect (user : nat) (now : Z) (b : body.t)
  (w : World) :
  let '(w', r) := record user now b w in
  kill_switch_events (db w') = kill_switch_events (db w)
  /\ global_kill_switch (db w') = global_kill_switch (db w)
  /\ ((http_status r = 201%nat
       /\ ~ stopped (db w)
       /\ exists e a,
            usage_events (db w') = usage_events (db w) ++ [e]
            /\ usage_events.user_id e = user
            /\ usage_events.created_at e = now
            /\ body.cost_amount b = Some (usage_events.cost_amount e)
            /\ 0 < usage_events.cost_amount e
            /\ 0 <= usage_events.total_tokens e
            /\ agent_by_id_user (usage_events.agent_id e) user (db w')
               = Some a
            /\ agents.status a = active)
      \/ (http_status r <> 201%nat
          /\ usage_events (db w') = usage_events (db w))).
Proof.
  unfold record.
  pose proof (enforceAgentBudget_frame user now (body.agent_id b)
                (body.cost_amount b) w) as (_ & Hu & Hk & Hg).
  destruct (enforceAgentBudget _ _ _ _ _) as [w1 [r0|check]] eqn:Eg;
    cbn [fst] in Hu, Hk, Hg.
  { apply enforceAgentBudget_responds in Eg. auto. }
  pose proof (record_handler_effect user now b check w1) as He.
  destruct (record_handler _ _ _ _ _) as [w' r].
  destruct He as (Hk' & Hg' & He).
  split; [congruence|]. split; [congruence|].
  destruct (usageEventSchema now b) as [key|v] eqn:Ev.
  { destruct He as [-> Hr]. right. split; [lia|done]. }
  destruct He as [(Hr & Hns & _ & _ & id & cu & au & a & Hl & Ha & Hs)
                 |(Hr & Hl & _)].
  - left. split; [done|]. split.
    { unfold stopped in *. congruence. }
    exists (usage_row id user cu au now v), a.
    pose proof (usageEventSchema_counts _ _ _ Ev).
    apply usageEventSchema_valid in Ev as (_ & _ & Hc & Hpos).
    rewrite Hl, Hu. cbn. auto 10.
  - right. split; [done|congruence].
Qed.

(** ** The ledger and the audit table only grow *)

Lemma bulk_loop_effect (user : nat) (now : Z) (events : list event.t)
  (d : Database) (recordedEvents : list nat) :
  let '(d', result) := bulk_loop user now events d recordedEvents in
  kill_switch_events d' = kill_switch_events d
  /\ global_kill_switch d' = global_kill_switch d
  /\ exists l, usage_events d' = usage_events d ++ l
       /\ match result with
          | Some ids =>
            ids = recordedEvents ++ map usage_events.id l
            /\ map usage_events.cost_amount l = map event.cost_amount events
            /\ map usage_events.event_name l = map event.event_name events
            /\ Forall (fun e => usage_events.user_id e = user) l
          | None => (length l < length events)%nat
          end.
Proof.
  revert d recordedEvents.
  induction events as [|v rest IH]; intros d recordedEvents;
    cbn [bulk_loop].
  { split; [done|]. split; [done|]. exists []. by rewrite !app_nil_r. }
  assert (Hnone : forall d0 : Database,
            usage_events d0 = usage_events d ->
            exists l : list usage_events.row,
              usage_events d0 = usage_events d ++ l
              /\ (length l < length (v :: rest))%nat).
  { intros d0 H0. exists []. rewrite app_nil_r. split; [done|cbn; lia]. }
  destruct (ensureCustomerExists _ _ _) as [[d1 customerUuid]|] eqn:E1;
    [|by auto].
  apply ensureCustomerExists_frame in E1 as (_ & Hu1 & Hk1 & Hg1).
  destruct (ensureAgentExists _ _ _) as [[d2 agentUuid]|] eqn:E2;
    [|by auto].
  apply ensureAgentExists_frame in E2 as (_ & Hu2 & Hk2 & Hg2).
  unfold checkAgentStatus.
  pose proof (is_agent_active_frame agentUuid user now d2)
    as (_ & Hu3 & Hk3 & Hg3).
  destruct (is_agent_active _ _ _ _) as [d3 isActive].
  cbn [fst] in Hu3, Hk3, Hg3.
  destruct isActive;
    [|split; [congruence|]; split; [congruence|]; apply Hnone; congruence].
  unfold insert_usage_event.
  destruct (fits_usage_events v);
    [|split; [congruence|]; split; [congruence|]; apply Hnone; congruence].
  - specialize (IH (with_usage_events
                      (usage_events d3
                       ++ [usage_row
                             (fresh_id (map usage_events.id (usage_events d3)))
                             user customerUuid agentUuid now v]) d3)
                  (recordedEvents
                   ++ [fresh_id (map usage_events.id (usage_events d3))])).
    destruct (bulk_loop _ _ _ _ _) as [d' result].
    destruct IH as (Hk & Hg & l & Hl & Hres).
    cbn [with_usage_events kill_switch_events global_kill_switch
         usage_events] in Hk, Hg, Hl.
    split; [congruence|]. split; [congruence|].
    exists (usage_row (fresh_id (map usage_events.id (usage_events d3))) user
              customerUuid agentUuid now v :: l).
    split.
    { rewrite Hl, <- app_assoc. cbn [app]. f_equal. congruence. }
    destruct result as [ids|].
    + destruct Hres as (-> & Hc & Hn & Hus). split; [|split; [|split]].
      * by rewrite <- app_assoc.
      * simpl. by rewrite Hc.
      * simpl. by rewrite Hn.
      * by constructor.
    + cbn [length]. lia.
Qed.

Lemma update_returning_frame (c : agents.row -> bool)
  (f : agents.row -> agents.row) (d : Database) :
  let d' := (update_returning c f d).1 in
  customers d' = customers d /\ usage_events d' = usage_events d
  /\ kill_switch_events d' = kill_switch_events d
  /\ global_kill_switch d' = global_kill_switch d.
Proof. done. Qed.

Lemma triggerAutoKill_ledger (now : Z) (trigger : trigger.t)
  (violation : violation.t) (d : Database) :
  usage_events (triggerAutoKill now trigger violation d) = usage_events d
  /\ customers (triggerAutoKill now trigger violation d) = customers d
  /\ global_kill_switch (triggerAutoKill now trigger violation d)
     = global_kill_switch d.
Proof. done. Qed.

Lemma checkInfiniteLoops_frame (now : Z) (d : Database) :
  usage_events (checkInfiniteLoops now d) = usage_events d
  /\ kill_switch_events d `prefix_of`
     kill_switch_events (checkInfiniteLoops now d).
Proof.
  unfold checkInfiniteLoops. generalize (loopDetectionQuery now d) at 1 2.
  intros rows. revert d. induction rows as [|[[p n] user] rows IH]; intros d.
  - done.
  - cbn [foldl]. destruct (IH (loop_kill now d (p, n, user))) as [-> Hp].
    split; [done|]. etrans; [|exact Hp].
    unfold loop_kill. rewrite triggerAutoKill_audit. by apply prefix_app_r.
Qed.

Lemma serve_ledger (q : request) (w : World) :
  usage_events (db w) `prefix_of` usage_events (db (serve q w).1).
Proof.
  destruct q; cbn [serve];
    unfold on_db, emergency_stop_all, emergency_stop_disable, kill_customer,
      kill_agent, pause_agent, revive_agent, revive_agent_null,
      update_returning, logKillSwitchEvent, suspendAgent, reactivateAgent.
  - pose proof (record_effect user now b w) as H.
    destruct (record _ _ _ _) as [w' r]. cbn [fst].
    destruct H as (_ & _ & [(_ & _ & e & a & -> & _)|(_ & ->)]);
      [by apply prefix_app_r|done].
  - pose proof (record_bulk_rejects user now b w) as [H _].
    destruct (record_bulk _ _ _ _) as [w' r]. cbn [fst] in *. by rewrite H.
  - by repeat case_match; simplify_eq.
  - done.
  - by repeat case_match; simplify_eq.
  - by repeat case_match; simplify_eq.
  - by repeat case_match; simplify_eq.
  - by repeat case_match; simplify_eq.
  - by repeat case_match; simplify_eq.
  - by repeat case_match; simplify_eq.
  - by repeat case_match; simplify_eq.
  - cbn [fst db with_db]. by rewrite (proj1 (checkInfiniteLoops_frame _ _)).
Qed.

Lemma record_bulk_handler_frame (user : nat) (now : Z) (b : bulk_body.t)
  (w : World) :
  let w' := (record_bulk_handler user now b w).1 in
  kill_switch_events (db w') = kill_switch_events (db w)
  /\ global_kill_switch (db w') = global_kill_switch (db w)
  /\ redis w' = redis w.
Proof.
  unfold record_bulk_handler.
  destruct (bulkUsageSchema now b) as [key|events]; [done|].
  pose proof (bulk_loop_effect user now events (db w) []) as H.
  destruct (bulk_loop _ _ _ _ _) as [d [ids|]]; by destruct H as (? & ? & _).
Qed.

Lemma serve_audit (q : request) (w : World) :
  kill_switch_events (db w) `prefix_of` kill_switch_events (db (serve q w).1).
Proof.
  destruct q; cbn [serve];
    unfold on_db, emergency_stop_all, emergency_stop_disable, kill_customer,
      kill_agent, pause_agent, revive_agent, revive_agent_null,
      update_returning, logKillSwitchEvent, suspendAgent, reactivateAgent.
  - pose proof (record_effect user now b w) as H.
    destruct (record _ _ _ _) as [w' r]. cbn [fst].
    destruct H as (-> & _). done.
  - unfold record_bulk.
    pose proof (enforceAgentBudget_frame user now (bulk_body.agent_id b)
                  (bulk_body.cost_amount b) w) as (_ & _ & Hk & _).
    destruct (enforceAgentBudget _ _ _ _ _) as [w1 [r0|check]];
      cbn [fst] in *; [by rewrite Hk|].
    pose proof (record_bulk_handler_frame user now b w1) as (Hk' & _).
    destruct (record_bulk_handler _ _ _ _) as [w' r]. cbn [fst] in *.
    by rewrite Hk', Hk.
  - repeat case_match; simplify_eq;
      cbn [fst db with_db kill_switch_events with_kill_switch_events];
      try done; by apply prefix_app_r.
  - cbn. by apply prefix_app_r.
  - repeat case_match; simplify_eq;
      cbn [fst db with_db kill_switch_events with_kill_switch_events];
      try done; by apply prefix_app_r.
  - repeat case_match; simplify_eq;
      cbn [fst db with_db kill_switch_events with_kill_switch_events];
      try done; by apply prefix_app_r.
  - repeat case_match; simplify_eq;
      cbn [fst db with_db kill_switch_events with_kill_switch_events];
      try done; by apply prefix_app_r.
  - repeat case_match; simplify_eq;
      cbn [fst db with_db kill_switch_events with_kill_switch_events];
      try done; by apply prefix_app_r.
  - by repeat case_match; simplify_eq.
  - by repeat case_match; simplify_eq.
  - by repeat case_match; simplify_eq.
  - cbn [fst db with_db]. apply checkInfiniteLoops_frame.
Qed.

(** X1.  The ledger and the audit table are append-only: whatever
    requests the service serves, the rows that the ledger and the audit
    table held before are still there afterwards, unchanged and in the
    same order, at the head of the two tables. *)
Theorem ledger_and_audit_append_only (l : list request) (w : World) :
  usage_events (db w) `prefix_of` usage_events (db (serve_all l w))
  /\ kill_switch_events (db w)
     `prefix_of` kill_switch_events (db (serve_all l w)).
Proof.
  unfold serve_all. revert w. induction l as [|q l IH]; intros w; [done|].
  cbn [foldl]. destruct (IH (serve q w).1) as [IH1 IH2]. split.
  - etrans; [apply serve_ledger|exact IH1].
  - etrans; [apply serve_audit|exact IH2].
Qed.

(** X2.  What an answer of POST /record says about the ledger.  When
    the request is answered with 201, exactly one row has been appended:
    it carries the authenticated user and the time of the request and
    belongs to an agent of that user whose status is active after the
    request, and no emergency stop is in force.  With every other
    answer the ledger is as it was.  The route never writes to the audit
    table or to the global switch. *)
Theorem record_appends_one_or_nothing (user : nat) (now : Z) (b : body.t)
  (w : World) :
  let '(w', r) := record user now b w in
  kill_switch_events (db w') = kill_switch_events (db w)
  /\ global_kill_switch (db w') = global_kill_switch (db w)
  /\ ((http_status r = 201%nat
       /\ ~ stopped (db w)
       /\ exists e a,
            usage_events (db w') = usage_events (db w) ++ [e]
            /\ usage_events.user_id e = user
            /\ usage_events.created_at e = now
            /\ agent_by_id_user (usage_events.agent_id e) user (db w')
               = Some a
            /\ agents.status a = active)
      \/ (http_status r <> 201%nat
          /\ usage_events (db w') = usage_events (db w))).
Proof.
  pose proof (record_effect user now b w) as H.
  destruct (record user now b w) as [w' r].
  destruct H as (Hk & Hg & [(Hr & Hs & e & a & H)|H]).
  - split; [done|]. split; [done|]. left. split; [done|]. split; [done|].
    exists e, a. tauto.
  - split; [done|]. split; [done|]. by right.
Qed.

(** ** The budget gate over several requests *)

Lemma with_redis_same (w : World) : with_redis (redis w) w = w.
Proof. by destruct w. Qed.

Lemma currentSpend_up (a : agents.row) (now : Z) (w : World) :
  redis_up (redis (currentSpend a now w).1) = redis_up (redis w).
Proof.
  unfold currentSpend, incrementAgentSpend.
  repeat case_match; cbn; done.
Qed.

(** When Redis carries the commands out and the ledger sum is not
    negative, the cache holds the spend that the check has used. *)
Lemma currentSpend_reads (a : agents.row) (now : Z) (w : World) :
  redis_up (redis w) = true ->
  0 <= month_spend (agents.id a) now (db w) ->
  getAgentSpend now (agents.agent_id a) (redis (currentSpend a now w).1)
  = (currentSpend a now w).2.
Proof.
  intros Hup Hpos. unfold currentSpend.
  case_bool_decide as Hc.
  - destruct (0 <? month_spend _ _ _) eqn:E; cbn [fst snd]; [done|].
    apply Z.ltb_ge in E. lia.
  - done.
Qed.

(** When Redis refuses the commands, the spend that the check uses is
    never positive. *)
Lemma currentSpend_down (a : agents.row) (now : Z) (w : World) :
  redis_up (redis w) = false ->
  (currentSpend a now w).1 = w /\ (currentSpend a now w).2 <= 0.
Proof.
  intros Hup. unfold currentSpend, getAgentSpend, incrementAgentSpend.
  rewrite !Hup. rewrite bool_decide_true by done.
  destruct (0 <? month_spend _ _ _) eqn:E; cbn [fst snd].
  - rewrite Hup. split; [apply with_redis_same|lia].
  - apply Z.ltb_ge in E. done.
Qed.

(** X3.  When Redis refuses the commands with an error, the budget check
    does not see the spend of the month: [getAgentSpend] reads 0, the
    backfill fails, and a request for an agent that is not suspended
    passes the middleware whenever its own cost is below the limit,
    whatever the ledger holds; nothing is written. *)
Theorem budget_unchecked_without_redis (user : nat) (now : Z) (aid : string)
  (cost_amount : option Z) (a : agents.row) (limit : Z) (w : World) :
  redis_up (redis w) = false ->
  aid <> "" -> agent_by_external aid user (db w) = Some a ->
  agents.is_suspended a = false ->
  agents.monthly_cost_limit a = Some limit ->
  default 0 cost_amount < limit ->
  enforceAgentBudget user now (Some aid) cost_amount w
  = (w, Next (Checked a)).
Proof.
  intros Hup Hne Ha Hs Hl Hc.
  rewrite (enforceAgentBudget_limited _ _ _ _ _ _ _ Hne Ha Hs Hl).
  destruct (currentSpend_down a now w Hup) as [H1 H2].
  destruct (currentSpend a now w) as [w1 current]. cbn [fst snd] in *.
  subst w1. destruct (limit <? _) eqn:E; [|done].
  apply Z.ltb_lt in E. lia.
Qed.

(** The agent [agent_x], limit 10 dollars, has spent 12 dollars this
    month; Redis refuses the commands; a request of 1 dollar passes the
    middleware. *)
Lemma budget_unchecked_without_redis_witness :
  month_spend 1 t0 (db world_zero_entry) = usd 12
  /\ enforceAgentBudget 1 t0 (Some "agent-x") (Some (usd 1))
       (mkWorld (db world_zero_entry) (mkRedis false ∅))
     = (mkWorld (db world_zero_entry) (mkRedis false ∅),
        Next (Checked agent_x)).
Proof.
  split; [reflexivity|].
  apply (budget_unchecked_without_redis 1 t0 "agent-x" (Some (usd 1)) agent_x
           (usd 10)); try reflexivity; try discriminate.
Defined.

(** X4.  A denial for budget sticks.  When the spend that the check uses
    plus the requested cost exceeds the limit of an agent, the request is
    answered with BUDGET_LIMIT_EXCEEDED and the figures of the check,
    nothing is recorded, and the agent is suspended: every later request
    to record for it, whatever its cost and whatever other requests were
    served in between, is answered with AGENT_SUSPENDED and changes
    nothing, as long as the agent is not reactivated. *)
Theorem budget_denial_sticks (user : nat) (now : Z) (aid : string)
  (a : agents.row) (limit : Z) (b : body.t) (w : World) :
  aid <> "" -> agent_by_external aid user (db w) = Some a ->
  agents.is_suspended a = false ->
  agents.monthly_cost_limit a = Some limit ->
  body.agent_id b = Some aid ->
  limit < (currentSpend a now w).2 + default 0 (body.cost_amount b) ->
  let '(w1, r1) := record user now b w in
  r1 = resp_budget_limit_exceeded limit (currentSpend a now w).2
         (default 0 (body.cost_amount b))
  /\ usage_events (db w1) = usage_events (db w)
  /\ agent_by_external aid user (db w1) = Some (suspend a)
  /\ forall (later : list request) (now' : Z) (b' : body.t),
       Forall (fun q => ~ reactivation q) later ->
       body.agent_id b' = Some aid ->
       let w2 := serve_all later w1 in
       record user now' b' w2 = (w2, resp_agent_suspended).
Proof.
  intros Hne Ha Hs Hl Hb Hover. unfold record. rewrite Hb.
  rewrite (enforceAgentBudget_limited _ _ _ _ _ _ _ Hne Ha Hs Hl).
  pose proof (currentSpend_db a now w) as Hdb.
  destruct (currentSpend a now w) as [w0 current]. cbn [fst snd] in *.
  apply Z.ltb_lt in Hover. rewrite Hover.
  split; [done|]. cbn [db with_db]. split; [by rewrite Hdb|].
  assert (Ha1 : agent_by_external aid user
                  (update_agents
                     (fun r => bool_decide (agents.id r = agents.id a))
                     suspend (db w0)) = Some (suspend a)).
  { rewrite agent_by_external_update by apply keeps_keys_suspend.
    rewrite Hdb, Ha. cbn. by rewrite bool_decide_true. }
  split; [exact Ha1|].
  intros later now' b' Hlater Hb'. cbn zeta.
  destruct (grows_suspended aid user _ _ (suspend a)
              (serve_all_grows later (with_db _ w0) Hlater) Ha1 eq_refl)
    as (a' & Ha' & Hs').
  by eapply record_suspended.
Qed.

(** The agent [agent_x], limit 10 dollars, asks for 11 dollars; the
    agent is killed and revived in between, and asks for 1 dollar. *)
Lemma budget_denial_sticks_witness :
  let '(w1, r1) := record 1 t0 (example_body "agent-x" (usd 11)) world_x in
  let w2 :=
    serve_all [PostKillAgent 1 (t0 + 1000) "agent-x" (Some "stop");
               PostReviveAgent 1 (t0 + 2000) "agent-x" None] w1 in
  code r1 = Some "BUDGET_LIMIT_EXCEEDED"
  /\ record 1 (t0 + 3000) (example_body "agent-x" (usd 1)) w2
     = (w2, resp_agent_suspended).
Proof.
  pose proof (budget_denial_sticks 1 t0 "agent-x" agent_x (usd 10)
                (example_body "agent-x" (usd 11)) world_x) as H.
  destruct (record _ _ _ _) as [w1 r1].
  destruct H as (-> & _ & _ & H);
    [discriminate | reflexivity | reflexivity | reflexivity | reflexivity
     | vm_compute; reflexivity |].
  split; [reflexivity|]. apply H; [|reflexivity].
  repeat constructor; exact id.
Defined.

(** X5.  The spend in the cache stays within the limit, for a request
    that is served with no other request between its budget check and
    the update of the cache.  With Redis carrying the commands out and a
    ledger sum that is not negative, such a request, when it is recorded
    for an agent with a limit, leaves in the cache the spend that the
    check has used plus the cost of the request, and that amount does
    not exceed the limit. *)
Theorem accepted_spend_within_limit (user : nat) (now : Z) (b : body.t)
  (v : event.t) (a : agents.row) (limit : Z) (w : World) :
  redis_up (redis w) = true ->
  0 <= month_spend (agents.id a) now (db w) ->
  usageEventSchema now b = inr v ->
  agent_by_external (event.agent_id v) user (db w) = Some a ->
  agents.monthly_cost_limit a = Some limit ->
  http_status (record user now b w).2 = 201%nat ->
  getAgentSpend now (event.agent_id v) (redis (record user now b w).1)
  = (currentSpend a now w).2 + event.cost_amount v
  /\ (currentSpend a now w).2 + event.cost_amount v <= limit.
Proof.
  intros Hup Hpos Ev Ha Hl. unfold record.
  destruct (usageEventSchema_valid _ _ _ Ev) as (Hb & Hne & Hc & _).
  rewrite Hb, Hc.
  destruct (agents.is_suspended a) eqn:Hs.
  { rewrite (enforceAgentBudget_suspended _ _ _ _ _ _ Hne Ha Hs).
    cbn. lia. }
  rewrite (enforceAgentBudget_limited _ _ _ _ _ _ _ Hne Ha Hs Hl).
  pose proof (currentSpend_reads a now w Hup Hpos) as Hread.
  pose proof (currentSpend_up a now w) as Hup1.
  destruct (currentSpend a now w) as [w1 current]. cbn [fst snd] in *.
  cbn [default]. destruct (limit <? _) eqn:E; [cbn; lia|].
  apply Z.ltb_ge in E.
  pose proof (record_handler_effect user now b (Checked a) w1) as He.
  destruct (record_handler _ _ _ _ _) as [w' r]. cbn [fst snd].
  rewrite Ev in He. destruct He as (_ & _ & He). intros Hr.
  destruct He as [(_ & _ & _ & -> & _)|(Hr' & _)]; [|done].
  split; [|done].
  rewrite getAgentSpend_increment by congruence.
  apply agent_by_external_keys in Ha as [<- _]. by rewrite Hread.
Qed.

(** The agent [agent_x], limit 10 dollars, records 9 dollars. *)
Lemma accepted_spend_within_limit_witness :
  getAgentSpend t0 "agent-x"
    (redis (record 1 t0 (example_body "agent-x" (usd 9)) world_x).1)
  = usd 9.
Proof.
  refine (proj1 (accepted_spend_within_limit 1 t0
                   (example_body "agent-x" (usd 9))
                   (example_event "agent-x" (usd 9) t0) agent_x (usd 10)
                   world_x _ _ _ _ _ _));
    try reflexivity; vm_compute; discriminate.
Defined.

(** ** Agents that the route creates *)

Lemma new_agent_by_id (userId : nat) (agentId : string) (d : Database) :
  let id := fresh_id (map agents.id (agents d)) in
  agent_by_id_user id userId
    (with_agents (agents d ++ [new_agent id userId agentId]) d)
  = Some (new_agent id userId agentId).
Proof.
  cbn zeta. unfold agent_by_id_user. cbn [agents with_agents].
  rewrite select_app_none by apply fresh_agent_unknown.
  rewrite filter_cons. by rewrite decide_True.
Qed.

Lemma new_agent_by_external (userId : nat) (agentId : string) (id : nat)
  (d : Database) :
  agent_by_external agentId userId d = None ->
  agent_by_external agentId userId
    (with_agents (agents d ++ [new_agent id userId agentId]) d)
  = Some (new_agent id userId agentId).
Proof.
  intros E. unfold agent_by_external in *. cbn [agents with_agents].
  rewrite select_app_none by exact E.
  rewrite filter_cons. by rewrite decide_True.
Qed.

Lemma enforceAgentBudget_unknown (user : nat) (now : Z) (aid : string)
  (cost_amount : option Z) (w : World) :
  aid <> "" -> agent_by_external aid user (db w) = None ->
  enforceAgentBudget user now (Some aid) cost_amount w = (w, Next DEFERRED).
Proof.
  intros Hne Ha. unfold enforceAgentBudget.
  destruct aid; [done|]. by rewrite Ha.
Qed.

(** The first request for an agent. *)
Lemma record_unknown_agent (user : nat) (now : Z) (b : body.t)
  (v : event.t) (w : World) :
  ~ stopped (db w) -> usageEventSchema now b = inr v ->
  agent_by_external (event.agent_id v) user (db w) = None ->
  recordable user v (db w) = true ->
  let '(w', r) := record user now b w in
  let a := new_agent (fresh_id (map agents.id (agents (db w)))) user
             (event.agent_id v) in
  http_status r = 201%nat
  /\ agents (db w') = agents (db w) ++ [a]
  /\ agent_by_external (event.agent_id v) user (db w') = Some a
  /\ redis w'
     = (incrementAgentSpend now (event.agent_id v) (event.cost_amount v)
          (redis w)).1
  /\ exists event_id customerUuid,
       usage_events (db w')
       = usage_events (db w)
         ++ [usage_row event_id user customerUuid (agents.id a) now v].
Proof.
  intros Hns Ev Ha [Hc Hfit]%recordable_creatable. unfold record.
  destruct (usageEventSchema_valid _ _ _ Ev) as (Hb & Hne & _).
  rewrite Hb, (enforceAgentBudget_unknown _ _ _ _ _ Hne Ha).
  unfold record_handler. rewrite Ev.
  destruct (creatable_customer _ _ _ Hc) as [[d1 customerUuid] E1].
  rewrite E1.
  apply ensureCustomerExists_frame in E1 as (Ha1 & Hu1 & _ & Hg1).
  assert (Ha' : agent_by_external (event.agent_id v) user d1 = None).
  { unfold agent_by_external in *. by rewrite Ha1. }
  destruct (creatable_agent _ _ _ d1 Hc Ha1) as [[d2 agentUuid] E2].
  rewrite E2.
  pose proof (new_agent_allowed user (event.agent_id v) (event.cost_amount v)
                d1 Ha' _ _ E2) as Hnew.
  unfold ensureAgentExists in E2. rewrite Ha' in E2.
  destruct (varchar 255 (event.agent_id v)); [|done].
  injection E2 as <- <-.
  unfold record_event. rewrite Hnew.
  unfold checkAgentStatus.
  pose proof (new_agent_by_id user (event.agent_id v) d1) as Hid.
  cbn zeta in Hid.
  rewrite (is_agent_active_active
             (new_agent (fresh_id (map agents.id (agents d1))) user
                (event.agent_id v)) user now _) ;
    [|unfold stopped in *; cbn; congruence|exact Hid|done].
  unfold insert_usage_event. rewrite Hfit.
  cbn [db agents with_agents with_usage_events usage_events].
  rewrite Ha1, Hu1. split; [done|]. split; [done|].
  split; [|split; [done|by eexists _, _]].
  apply (new_agent_by_external user (event.agent_id v) _
           (mkDatabase (agents (db w)) (customers d1)
              (usage_events (db w)
               ++ [usage_row
                     (fresh_id (map usage_events.id (usage_events (db w))))
                     user customerUuid
                     (fresh_id (map agents.id (agents (db w)))) now v])
              (kill_switch_events d1) (global_kill_switch d1))).
  exact Ha.
Qed.

(** X6.  The first request for an agent creates it without a limit:
    when no emergency stop is in force, a valid request that names an
    agent that the user does not have yet and whose values fit the
    columns (ids of at most 255 characters, a cost below 10000 dollars
    and so on) is recorded with no limit to hold its cost against, and
    leaves a new row for the agent that is active, is not suspended and
    has no monthly limit. *)
Theorem unknown_agent_recorded (user : nat) (now : Z) (b : body.t)
  (v : event.t) (w : World) :
  ~ stopped (db w) -> usageEventSchema now b = inr v ->
  agent_by_external (event.agent_id v) user (db w) = None ->
  recordable user v (db w) = true ->
  let '(w', r) := record user now b w in
  let a := new_agent (fresh_id (map agents.id (agents (db w)))) user
             (event.agent_id v) in
  http_status r = 201%nat
  /\ agents (db w') = agents (db w) ++ [a]
  /\ agent_by_external (event.agent_id v) user (db w') = Some a
  /\ agents.status a = active
  /\ agents.is_suspended a = false
  /\ agents.monthly_cost_limit a = None
  /\ exists e,
       usage_events (db w') = usage_events (db w) ++ [e]
       /\ usage_events.user_id e = user
       /\ usage_events.agent_id e = agents.id a
       /\ usage_events.event_name e = event.event_name v.
Proof.
  intros Hns Ev Ha Hfit.
  pose proof (record_unknown_agent user now b v w Hns Ev Ha Hfit) as H.
  destruct (record user now b w) as [w' r]. cbn zeta in *.
  destruct H as (H1 & H2 & H3 & _ & event_id & customerUuid & H4).
  do 6 (split; [done|]). eexists. by split; [exact H4|].
Qed.

(** A request of 1000 dollars for an agent that user 1 does not have. *)
Lemma unknown_agent_recorded_witness :
  http_status (record 1 t0 (example_body "agent-new" (usd 1000)) world_x).2
  = 201%nat.
Proof.
  pose proof (unknown_agent_recorded 1 t0 (example_body "agent-new" (usd 1000))
                (example_event "agent-new" (usd 1000) t0) world_x) as H.
  destruct (record _ _ _ _) as [w' r].
  apply H; [discriminate|reflexivity|reflexivity|reflexivity].
Defined.

(** [ensureAgentExists] finds or creates. *)
Lemma ensureAgentExists_again (userId : nat) (agentId : string)
  (d d1 : Database) (id : nat) :
  ensureAgentExists userId agentId d = Some (d1, id) ->
  ensureAgentExists userId agentId d1 = Some (d1, id)
  /\ (exists a, agent_by_external agentId userId d1 = Some a
                /\ agents.id a = id)
  /\ (forall aid user a, agent_by_external aid user d = Some a ->
                         agent_by_external aid user d1 = Some a)
  /\ (primary_key d -> primary_key d1)
  /\ (unique_agent_id d -> unique_agent_id d1).
Proof.
  intros E.
  pose proof (fun H => primary_key_ensureAgentExists userId agentId d d1 id
                         H E) as Hpk.
  pose proof (fun aid user a Ha =>
                ensureAgentExists_keeps userId agentId aid user d d1 id a
                  Ha E) as Hk.
  unfold ensureAgentExists in *.
  destruct (agent_by_external agentId userId d) as [a|] eqn:Ea.
  - injection E as <- <-. rewrite Ea. split; [done|]. split; [eauto|].
    by repeat split.
  - destruct (varchar 255 agentId); [|done]. injection E as <- <-.
    rewrite new_agent_by_external by done. split; [done|].
    split; [eauto|]. split; [exact Hk|]. split; [exact Hpk|].
    unfold unique_agent_id. cbn [agents with_agents].
    rewrite map_app. intros Hu. apply NoDup_app. split; [done|].
    split; [|apply NoDup_singleton].
    intros k Hk1 Hk2. apply list_elem_of_singleton in Hk2 as ->.
    apply list_elem_of_fmap in Hk1 as (r & Hr & Hin). cbn in Hr.
    unfold agent_by_external in Ea.
    eapply select_none in Ea; [|exact Hin]. apply Ea. by simplify_eq.
Qed.



(** ** Suspension and reactivation *)

Lemma filter_update (P : agents.row -> Prop) `{!forall r, Decision (P r)}
  (c : agents.row -> bool) (f : agents.row -> agents.row)
  (l : list agents.row) :
  (forall r, r ∈ l -> c r = true -> ~ P r /\ ~ P (f r)) ->
  filter P (map (fun r => if c r then f r else r) l) = filter P l.
Proof.
  induction l as [|a l IH]; intros Hc; [done|].
  cbn [map]. rewrite !filter_cons.
  rewrite IH by (intros r Hr; apply Hc; by right).
  destruct (c a) eqn:E; [|done].
  destruct (Hc a (list_elem_of_here _ _) E) as [H1 H2].
  by rewrite !decide_False.
Qed.

(** X8.  Suspension and reactivation are inverse to each other on an
    agent that was not suspended: [suspendAgent] succeeds and leaves the
    agent suspended, and [reactivateAgent] after it succeeds and leaves
    it not suspended, with the id, the limit, the status and the end of
    the pause that it had; the rows of the other agents, the customers
    and the ledger are not touched.  (Both UPDATEs set [updated_at] of
    the row that they change, a column that the model leaves out.) *)
Theorem suspend_then_reactivate (agentId : string) (userId : nat)
  (d : Database) (a : agents.row) :
  agent_by_external agentId userId d = Some a ->
  agents.is_suspended a = false ->
  exists d1 d2 a2,
    suspendAgent agentId userId d = Some d1
    /\ agent_by_external agentId userId d1 = Some (suspend a)
    /\ agents.is_suspended (suspend a) = true
    /\ reactivateAgent agentId userId d1 = Some d2
    /\ agent_by_external agentId userId d2 = Some a2
    /\ agents.id a2 = agents.id a
    /\ agents.is_suspended a2 = false
    /\ agents.monthly_cost_limit a2 = agents.monthly_cost_limit a
    /\ agents.status a2 = agents.status a
    /\ agents.pause_until a2 = agents.pause_until a
    /\ filter (fun r => ~ (agents.agent_id r = agentId
                           /\ agents.user_id r = userId)) (agents d2)
       = filter (fun r => ~ (agents.agent_id r = agentId
                             /\ agents.user_id r = userId)) (agents d)
    /\ customers d2 = customers d
    /\ usage_events d2 = usage_events d.
Proof.
  intros Ha Hs. unfold suspendAgent, reactivateAgent. rewrite Ha.
  set (c := fun r => bool_decide (agents.agent_id r = agentId)
                     && bool_decide (agents.user_id r = userId)).
  assert (Hc : c a = true).
  { apply agent_by_external_keys in Ha as [H1 H2]. unfold c.
    by rewrite !bool_decide_true. }
  assert (Ha1 : agent_by_external agentId userId (update_agents c suspend d)
                = Some (suspend a)).
  { rewrite agent_by_external_update by apply keeps_keys_suspend.
    rewrite Ha. cbn [fmap option_fmap option_map]. by rewrite Hc. }
  assert (Ha2 : agent_by_external agentId userId
                  (update_agents c reactivate (update_agents c suspend d))
                = Some (reactivate (suspend a))).
  { rewrite agent_by_external_update by apply keeps_keys_reactivate.
    rewrite Ha1. cbn [fmap option_fmap option_map].
    replace (c (suspend a)) with (c a) by done. by rewrite Hc. }
  exists (update_agents c suspend d),
    (update_agents c reactivate (update_agents c suspend d)),
    (reactivate (suspend a)).
  split; [done|]. split; [exact Ha1|]. split; [done|].
  rewrite Ha1. split; [done|]. split; [exact Ha2|].
  do 5 (split; [done|]). split; [|done].
  unfold update_agents. cbn [agents with_agents].
  assert (Hnamed : forall r, c r = true ->
            agents.agent_id r = agentId /\ agents.user_id r = userId).
  { intros r [H1%bool_decide_eq_true H2%bool_decide_eq_true]%andb_prop.
    done. }
  rewrite filter_update.
  - rewrite filter_update; [done|]. intros r _ Hr.
    destruct (Hnamed r Hr) as [H1 H2]. split; intros Hn; by apply Hn.
  - intros r _ Hr.
    destruct (Hnamed r Hr) as [H1 H2]. split; intros Hn; by apply Hn.
Qed.

Lemma suspend_then_reactivate_witness :
  exists d1 d2,
    suspendAgent "agent-x" 1 (db world_x) = Some d1
    /\ reactivateAgent "agent-x" 1 d1 = Some d2
    /\ agents.is_suspended <$> agent_by_external "agent-x" 1 d1 = Some true
    /\ agents.is_suspended <$> agent_by_external "agent-x" 1 d2 = Some false.
Proof.
  destruct (suspend_then_reactivate "agent-x" 1 (db world_x) agent_x)
    as (d1 & d2 & a2 & H1 & H2 & H3 & H4 & H5 & _ & H6 & _);
    [reflexivity | reflexivity |].
  exists d1, d2. split; [exact H1|]. split; [exact H4|].
  rewrite H2, H5. cbn [fmap option_fmap option_map]. by rewrite H3, H6.
Defined.

(** The spend of the check depends on the time through the month only. *)
Lemma currentSpend_month (a : agents.row) (now now' : Z) (w : World) :
  month_of now' = month_of now -> currentSpend a now' w = currentSpend a now w.
Proof.
  intros Hm.
  unfold currentSpend, getAgentSpend, incrementAgentSpend, month_spend.
  by rewrite !Hm.
Qed.

(** A second check reads the spend that the first one has used. *)
Lemma currentSpend_again (a : agents.row) (now : Z) (w : World)
  (d : Database) :
  usage_events d = usage_events (db w) ->
  (currentSpend a now (mkWorld d (redis (currentSpend a now w).1))).2
  = (currentSpend a now w).2.
Proof.
  intros Hu. unfold currentSpend at 2 3.
  case_bool_decide as Hc.
  - destruct (0 <? month_spend (agents.id a) now (db w)) eqn:E;
      cbn [fst snd redis with_redis].
    + unfold currentSpend. cbn [redis db].
      case_bool_decide as Hc'; [|done].
      assert (Hm : month_spend (agents.id a) now d
                   = month_spend (agents.id a) now (db w)).
      { unfold month_spend. by rewrite Hu. }
      rewrite Hm, E. cbn [fst snd].
      unfold getAgentSpend, incrementAgentSpend in *.
      destruct (redis_up (redis w)) eqn:Hup; cbn [fst redis_up agent_spend]
        in *; [|by rewrite Hup].
      rewrite lookup_insert_eq in Hc'. apply Z.ltb_lt in E.
      destruct (agent_spend (redis w) !! _); cbn in *; lia.
    + unfold currentSpend. cbn [redis db]. rewrite bool_decide_true by done.
      assert (Hm : month_spend (agents.id a) now d
                   = month_spend (agents.id a) now (db w)).
      { unfold month_spend. by rewrite Hu. }
      by rewrite Hm, E.
  - unfold currentSpend. cbn [redis db fst snd].
    by rewrite bool_decide_false.
Qed.

(** X9.  A reactivation does not reset the spend: after a denial for
    budget, a reactivation of the agent succeeds and leaves the agent
    not suspended, with the limit that it had, and the same request in
    the same month is denied again, with the same answer, and suspends
    the agent again. *)
Theorem reactivation_keeps_spend (user : nat) (now now' : Z) (aid : string)
  (cost_amount : option Z) (a : agents.row) (limit : Z) (w : World) :
  aid <> "" -> agent_by_external aid user (db w) = Some a ->
  agents.is_suspended a = false ->
  agents.monthly_cost_limit a = Some limit ->
  limit < (currentSpend a now w).2 + default 0 cost_amount ->
  month_of now' = month_of now ->
  let '(w1, g1) := enforceAgentBudget user now (Some aid) cost_amount w in
  g1 = Respond (resp_budget_limit_exceeded limit (currentSpend a now w).2
                  (default 0 cost_amount))
  /\ agents.is_suspended <$> agent_by_external aid user (db w1) = Some true
  /\ exists d2 a2, reactivateAgent aid user (db w1) = Some d2
       /\ agent_by_external aid user d2 = Some a2
       /\ agents.is_suspended a2 = false
       /\ agents.monthly_cost_limit a2 = Some limit
       /\ let '(w3, g3) :=
            enforceAgentBudget user now' (Some aid) cost_amount
              (with_db d2 w1) in
          g3 = g1
          /\ agents.is_suspended <$> agent_by_external aid user (db w3)
             = Some true.
Proof.
  intros Hne Ha Hs Hl Hover Hm.
  rewrite (enforceAgentBudget_limited _ _ _ _ _ _ _ Hne Ha Hs Hl).
  pose proof (currentSpend_db a now w) as Hdb.
  pose proof (currentSpend_again a now w) as Hagain.
  destruct (currentSpend a now w) as [w0 current]. cbn [fst snd] in *.
  apply Z.ltb_lt in Hover. rewrite Hover. split; [done|].
  cbn [db with_db].
  assert (Ha1 : agent_by_external aid user
                  (update_agents
                     (fun r => bool_decide (agents.id r = agents.id a))
                     suspend (db w0)) = Some (suspend a)).
  { rewrite agent_by_external_update by apply keeps_keys_suspend.
    rewrite Hdb, Ha. cbn. by rewrite bool_decide_true. }
  split; [by rewrite Ha1|].
  unfold reactivateAgent. rewrite Ha1. eexists _, a. split; [reflexivity|].
  assert (Ha2 : agent_by_external aid user
                  (update_agents
                     (fun r => bool_decide (agents.agent_id r = aid)
                               && bool_decide (agents.user_id r = user))
                     reactivate
                     (update_agents
                        (fun r => bool_decide (agents.id r = agents.id a))
                        suspend (db w0))) = Some a).
  { rewrite agent_by_external_update by apply keeps_keys_reactivate.
    rewrite Ha1. cbn [fmap option_fmap option_map].
    apply agent_by_external_keys in Ha as [<- <-].
    cbn [suspend agents.agent_id agents.user_id].
    rewrite !bool_decide_true by done. cbn [andb]. f_equal.
    destruct a; cbn in *. by subst. }
  split; [exact Ha2|]. split; [exact Hs|]. split; [exact Hl|].
  set (d1 := update_agents _ suspend _) in *.
  set (d2 := update_agents _ reactivate _) in *.
  rewrite (enforceAgentBudget_limited user now' aid cost_amount a limit
             (with_db d2 (with_db d1 w0)) Hne Ha2 Hs Hl).
  rewrite (currentSpend_month a now now' _ Hm).
  assert (Hu2 : usage_events d2 = usage_events (db w)).
  { subst d2 d1. cbn. by rewrite Hdb. }
  specialize (Hagain d2 Hu2).
  pose proof (currentSpend_db a now (with_db d2 (with_db d1 w0))) as Hdb2.
  change (with_db d2 (with_db d1 w0)) with (mkWorld d2 (redis w0)) in *.
  destruct (currentSpend a now (mkWorld d2 (redis w0))) as [w3 current3].
  cbn [fst snd] in *. subst current3. rewrite Hover. split; [done|].
  cbn [db with_db].
  rewrite agent_by_external_update by apply keeps_keys_suspend.
  rewrite Hdb2. cbn [db]. rewrite Ha2. cbn. by rewrite bool_decide_true.
Qed.

(** The agent [agent_x], limit 10 dollars, asks for 11 dollars, is
    reactivated and asks again. *)
Lemma reactivation_keeps_spend_witness :
  let '(w1, g1) :=
    enforceAgentBudget 1 t0 (Some "agent-x") (Some (usd 11)) world_x in
  exists d2, reactivateAgent "agent-x" 1 (db w1) = Some d2
    /\ (enforceAgentBudget 1 (t0 + 1000) (Some "agent-x") (Some (usd 11))
          (with_db d2 w1)).2
       = Respond (resp_budget_limit_exceeded (usd 10) 0 (usd 11)).
Proof.
  pose proof (reactivation_keeps_spend 1 t0 (t0 + 1000) "agent-x"
                (Some (usd 11)) agent_x (usd 10) world_x) as H.
  destruct (enforceAgentBudget 1 t0 _ _ _) as [w1 g1].
  destruct H as (-> & _ & d2 & a2 & H1 & _ & _ & _ & H2);
    [discriminate | reflexivity | reflexivity | reflexivity
     | vm_compute; reflexivity | reflexivity |].
  exists d2. split; [exact H1|].
  destruct (enforceAgentBudget 1 (t0 + 1000) _ _ _) as [w3 g3].
  by destruct H2 as [-> _].
Defined.

(** ** The kill-switch check, again *)

(** X10.  The kill-switch check settles: when [is_agent_active] answers
    true, the row of the agent is active afterwards and the check
    answers true again at any later time without another write; when it
    answers false it has written nothing.  The rows of the other agents
    are never touched. *)
Theorem is_agent_active_settles (p_agent_id p_user_id : nat) (now : Z)
  (d : Database) :
  let '(d1, isActive) := is_agent_active p_agent_id p_user_id now d in
  (isActive = true ->
   forall now', is_agent_active p_agent_id p_user_id now' d1 = (d1, true))
  /\ (isActive = false -> d1 = d)
  /\ filter (fun r => agents.id r <> p_agent_id) (agents d1)
     = filter (fun r => agents.id r <> p_agent_id) (agents d).
Proof.
  pose proof (is_agent_active_answers p_agent_id p_user_id now d) as Hans.
  pose proof (is_agent_active_true p_agent_id p_user_id now d) as Htrue.
  destruct (is_agent_active p_agent_id p_user_id now d) as [d1 isActive]
    eqn:E.
  split; [|split].
  - intros -> now'. destruct (Hans d1 eq_refl) as (Hns & a & Ha & Hs).
    pose proof Ha as Hid. apply select_some in Hid as [_ [Hid _]].
    subst p_agent_id. by apply is_agent_active_active.
  - intros ->. unfold is_agent_active in E.
    repeat case_match; by simplify_eq.
  - destruct isActive.
    + destruct (Htrue d1 eq_refl) as (_ & a & _ & _ & [->| ->]); [done|].
      unfold update_agents. cbn [agents with_agents].
      apply filter_update. intros r _ Hr%bool_decide_eq_true.
      split; intros Hn; by apply Hn.
    + unfold is_agent_active in E. repeat case_match; by simplify_eq.
Qed.

(** X11.  The status that GET /status reports agrees with the
    kill-switch check: when no emergency stop is in force,
    [is_agent_active] admits an agent exactly when the
    [effective_status] of its row is active. *)
Theorem effective_status_agrees (a : agents.row) (user : nat) (now : Z)
  (d : Database) :
  ~ stopped d -> agent_by_id_user (agents.id a) user d = Some a ->
  (is_agent_active (agents.id a) user now d).2
  = bool_decide (effective_status now a = active).
Proof.
  intros Hns Ha. unfold is_agent_active, effective_status.
  unfold stopped in Hns. apply not_true_is_false in Hns. rewrite Hns, Ha.
  destruct (agents.status a) eqn:Es,
    (pause_in_future now (agents.pause_until a)) eqn:E1,
    (pause_elapsed now (agents.pause_until a)) eqn:E2; by cbn.
Qed.

Lemma effective_status_agrees_witness :
  (is_agent_active 4 1 (t0 + minutes_ms 6) (db world_paused)).2 = true
  /\ effective_status (t0 + minutes_ms 6) agent_paused = active
  /\ (is_agent_active 4 1 (t0 + minutes_ms 1) (db world_paused)).2 = false
  /\ effective_status (t0 + minutes_ms 1) agent_paused = paused.
Proof.
  split; [|split; [reflexivity|split; [|reflexivity]]].
  - refine (eq_trans (effective_status_agrees agent_paused 1
                        (t0 + minutes_ms 6) (db world_paused) _ _) _);
      [discriminate|reflexivity|reflexivity].
  - refine (eq_trans (effective_status_agrees agent_paused 1
                        (t0 + minutes_ms 1) (db world_paused) _ _) _);
      [discriminate|reflexivity|reflexivity].
Defined.

(** ** Pause, kill and revival *)

Lemma pauseAgentSchema_inr (duration_minutes : option Z)
  (reason : option string) (n : Z) (why : string) :
  pauseAgentSchema duration_minutes reason = inr (n, why) ->
  duration_minutes = Some n /\ 1 <= n <= 10080.
Proof.
  unfold pauseAgentSchema. destruct duration_minutes as [m|]; [|done].
  destruct (m <? 1) eqn:E1; [done|]. destruct (10080 <? m) eqn:E2; [done|].
  cbn [orb]. destruct (required_text _ _ _); [done|].
  intros; simplify_eq. apply Z.ltb_ge in E1, E2. split; [done|lia].
Qed.

(** X12.  A pause lasts for the minutes that the request gives, between
    one minute and one week: after POST /pause-agent has paused an active
    agent at time [now] for [n] minutes, the kill-switch check refuses
    the agent at every time before [now + n] minutes and admits it at
    every time from then on. *)
Theorem paused_for_the_duration (user : nat) (now n : Z)
  (agentId why : string) (duration_minutes : option Z)
  (reason : option string) (a : agents.row) (d : Database) :
  primary_key d -> ~ stopped d ->
  pauseAgentSchema duration_minutes reason = inr (n, why) ->
  agent_by_external agentId user d = Some a -> agents.status a = active ->
  let d' := (pause_agent user now agentId duration_minutes reason d).1 in
  1 <= n <= 10080
  /\ forall now',
       (is_agent_active (agents.id a) user now' d').2
       = bool_decide (now + n * 60000 <= now').
Proof.
  intros Hpk Hns Hr Ea Hst. cbn zeta.
  split; [by apply pauseAgentSchema_inr in Hr as [_ ?]|].
  pose proof (pause_agent_effective user now n agentId why duration_minutes
                reason a d Hr Ea Hst) as He.
  assert (Hd : exists rows,
            pause_agent user now agentId duration_minutes reason d
            = (logKillSwitchEvent "pause_agent" "agent" (Some agentId) user
                 why "manual" now
                 (update_agents
                    (fun r => owned user agentId r
                              && bool_decide (agents.status r = active))
                    (pause (now + n * 60000) why) d), rows)).
  { unfold pause_agent, update_returning. rewrite Hr.
    destruct (map _ (List.filter _ (agents d))) as [|x rows] eqn:E;
      [|by eexists].
    exfalso. apply map_eq_nil in E.
    apply select_some in Ea as Hin. destruct Hin as [Hin [Hi Hu]].
    eapply filter_found; [exact Hin| |exact E].
    unfold owned. by rewrite !bool_decide_true. }
  destruct Hd as [rows Hd]. rewrite Hd in *. cbn [fst].
  destruct He as (_ & Ea' & _).
  set (d' := logKillSwitchEvent _ _ _ _ _ _ _ _) in *.
  assert (Hpk' : primary_key d').
  { apply (primary_key_update _ (pause (now + n * 60000) why) d);
      [apply keeps_keys_pause|done]. }
  assert (Hns' : ~ stopped d') by done.
  intros now'.
  pose proof (by_external_by_id_user _ _ _ _ Hpk' Ea') as Hid.
  pose proof (is_agent_active_paused (pause (now + n * 60000) why a)
                (now + n * 60000) user now' d' Hns' Hid eq_refl eq_refl)
    as Hp.
  cbn [pause agents.id] in Hp. rewrite Hp.
  destruct (now' <? now + n * 60000) eqn:E; cbn [snd].
  - apply Z.ltb_lt in E. by rewrite bool_decide_false by lia.
  - apply Z.ltb_ge in E. by rewrite bool_decide_true by lia.
Qed.

(** The agent [agent_x] is paused at [t0] for five minutes. *)
Lemma paused_for_the_duration_witness :
  let d' := (pause_agent 1 t0 "agent-x" (Some 5) (Some "maintenance")
               (db world_x)).1 in
  (is_agent_active 1 1 (t0 + minutes_ms 5 - 1) d').2 = false
  /\ (is_agent_active 1 1 (t0 + minutes_ms 5) d').2 = true.
Proof.
  destruct (paused_for_the_duration 1 t0 5 "agent-x" "maintenance" (Some 5)
              (Some "maintenance") agent_x (db world_x)) as [_ H];
    [apply (bool_decide_unpack _); vm_compute; exact I | discriminate
     | reflexivity | reflexivity | reflexivity |].
  split; [exact (H (t0 + minutes_ms 5 - 1)) | exact (H (t0 + minutes_ms 5))].
Defined.

Lemma kill_agent_agents (user : nat) (now : Z) (agentId why : string)
  (reason : option string) (d : Database) :
  required_text "reason" 500 reason = inr why ->
  let d' := (kill_agent user now agentId reason d).1 in
  agents d'
  = map (fun r => if owned user agentId r
                     && negb (bool_decide (agents.status r = killed))
                  then kill now user why r else r) (agents d)
  /\ customers d' = customers d /\ usage_events d' = usage_events d
  /\ global_kill_switch d' = global_kill_switch d.
Proof.
  intros Hr. unfold kill_agent, update_returning. rewrite Hr.
  by destruct (map _ (List.filter _ (agents d))).
Qed.

Lemma revive_agent_agents (user : nat) (now : Z) (agentId : string)
  (reason : option string) (d : Database) :
  let d' := (revive_agent user now agentId reason d).1 in
  agents d'
  = map (fun r => if owned user agentId r
                     && (bool_decide (agents.status r = killed)
                         || bool_decide (agents.status r = paused))
                  then revive r else r) (agents d)
  /\ customers d' = customers d /\ usage_events d' = usage_events d
  /\ global_kill_switch d' = global_kill_switch d.
Proof.
  unfold revive_agent, update_returning.
  by destruct (map _ (List.filter _ (agents d))).
Qed.

(** X13.  A kill followed by a revival resets the rows of the agent:
    whatever their status was before, every row that the two requests
    name ends active with the reason, the time and the author of the
    kill and the end of a pause cleared, the other columns as they were;
    no other row, and nothing of the ledger, the customers or the
    global switch, is changed. *)
Theorem kill_then_revive (user : nat) (now now' : Z) (agentId why : string)
  (reason reason' : option string) (d : Database) :
  required_text "reason" 500 reason = inr why ->
  let d1 := (kill_agent user now agentId reason d).1 in
  let d2 := (revive_agent user now' agentId reason' d1).1 in
  agents d2
  = map (fun r => if owned user agentId r then revive r else r) (agents d)
  /\ customers d2 = customers d /\ usage_events d2 = usage_events d
  /\ global_kill_switch d2 = global_kill_switch d.
Proof.
  intros Hr. cbn zeta.
  destruct (kill_agent_agents user now agentId why reason d Hr)
    as (Ha1 & Hc1 & Hu1 & Hg1).
  destruct (revive_agent_agents user now' agentId reason'
              (kill_agent user now agentId reason d).1)
    as (Ha2 & Hc2 & Hu2 & Hg2).
  cbn zeta in *. rewrite Ha2, Ha1, Hc2, Hc1, Hu2, Hu1, Hg2, Hg1.
  split; [|done]. rewrite map_map. apply map_ext. intros r.
  destruct (owned user agentId r) eqn:Eo; cbn [andb]; [|by rewrite Eo].
  destruct (bool_decide (agents.status r = killed)) eqn:Ek; cbn [negb].
  - by rewrite Eo, Ek.
  - change (owned user agentId (kill now user why r))
      with (owned user agentId r).
    change (agents.status (kill now user why r)) with killed.
    rewrite Eo. by destruct r.
Qed.

Lemma kill_then_revive_witness :
  let d1 := (kill_agent 1 t0 "agent-paused" (Some "stop") (db world_mixed)).1
  in
  let d2 := (revive_agent 1 (t0 + 1000) "agent-paused" None d1).1 in
  agent_by_external "agent-paused" 1 d1
  = Some (kill t0 1 "stop" agent_paused)
  /\ agent_by_external "agent-paused" 1 d2 = Some (revive agent_paused).
Proof.
  pose proof (kill_then_revive 1 t0 (t0 + 1000) "agent-paused" "stop"
                (Some "stop") None (db world_mixed) eq_refl) as [H _].
  cbn zeta in *. split; [reflexivity|].
  unfold agent_by_external. rewrite H. reflexivity.
Defined.

(** X14.  POST /kill-customer kills by user, not by customer: for any
    customer of the user that the request names, every agent of the user
    that is not killed yet is killed, whichever customers it has worked
    for, and one audit record is written for the customer; the agents
    of other users are not touched. *)
Theorem kill_customer_reaches_every_agent (user : nat) (now : Z)
  (customerId why : string) (reason : option string) (c : customers.row)
  (d : Database) :
  primary_key d ->
  required_text "reason" 500 reason = inr why ->
  customer_by_external user customerId d = Some c ->
  let '(d', r) := kill_customer user now customerId reason d in
  http_status r = 200%nat
  /\ agents d'
     = map (fun r => if bool_decide (agents.user_id r = user)
                        && negb (bool_decide (agents.status r = killed))
                     then kill now user why r else r) (agents d)
  /\ kill_switch_events d'
     = kill_switch_events d
       ++ [kill_switch_events.mk "kill_customer" "customer" (Some customerId)
             user "manual" why now]
  /\ usage_events d' = usage_events d.
Proof.
  intros Hpk Hr Hc. unfold kill_customer, update_returning.
  rewrite Hr, Hc. cbn [fst snd]. unfold logKillSwitchEvent.
  cbn [agents kill_switch_events usage_events with_kill_switch_events
       update_agents with_agents http_status resp_ok].
  split; [done|]. split; [|done].
  apply map_ext_in. intros r Hin%list_elem_of_In.
  destruct (bool_decide (agents.user_id r = user)) eqn:Eu; [|done].
  cbn [andb]. apply bool_decide_eq_true in Eu.
  apply select_some in Hc as [Hcin [Hcu _]].
  match goal with
  | |- (if bool_decide ?P then _ else _) = _ =>
    destruct (decide P) as [Hs|Hs];
      [rewrite (bool_decide_true P Hs)|rewrite (bool_decide_false P Hs)]
  end.
  - apply list_elem_of_fmap in Hs as (a & Hid & Ha).
    apply list_elem_of_In, filter_In in Ha as [Ha Hca].
    apply list_elem_of_In in Ha.
    assert (a = r) as -> by (by eapply primary_key_row).
    apply andb_prop in Hca as [_ Hk]. by rewrite Hk.
  - destruct (bool_decide (agents.status r = killed)) eqn:Ek; [done|].
    exfalso. apply Hs. apply list_elem_of_fmap. exists r. split; [done|].
    apply list_elem_of_In, filter_In. split; [by apply list_elem_of_In|].
    rewrite Ek. cbn [negb]. rewrite andb_true_r.
    apply existsb_exists. exists c. split; [by apply list_elem_of_In|].
    rewrite !bool_decide_true by congruence. done.
Qed.

(** User 1 has two customers and three agents; killing for one customer
    kills the three agents. *)
Lemma kill_customer_reaches_every_agent_witness :
  let d := mkDatabase [agent_x; agent_free; agent_over]
             [customers.mk 1 1 "customer-1" "customer-1";
              customers.mk 2 1 "customer-2" "customer-2"] [] []
             not_stopped in
  map agents.status
    (agents (kill_customer 1 t0 "customer-2" (Some "stop") d).1)
  = [killed; killed; killed].
Proof.
  intros d.
  pose proof (kill_customer_reaches_every_agent 1 t0 "customer-2" "stop"
                (Some "stop") (customers.mk 2 1 "customer-2" "customer-2")
                d) as H.
  destruct (kill_customer 1 t0 "customer-2" (Some "stop") d) as [d' r].
  destruct H as (_ & H & _);
    [apply (bool_decide_unpack _); vm_compute; exact I
    | reflexivity | reflexivity |].
  cbn [fst]. rewrite H. reflexivity.
Defined.

(** ** The keys of agents, and the agents of other users *)

Lemma kept_keys (user : nat) (d d' : Database) :
  kept user d d' -> keys_kept d d'.
Proof. intros [H1 H2]. split; [|done]. intros Hpk. by apply H1. Qed.

Lemma keys_kept_refl (d : Database) : keys_kept d d.
Proof. done. Qed.

Lemma keys_kept_trans (d1 d2 d3 : Database) :
  keys_kept d1 d2 -> keys_kept d2 d3 -> keys_kept d1 d3.
Proof. intros [? ?] [? ?]. split; auto. Qed.

Lemma kept_refl (user : nat) (d : Database) : kept user d d.
Proof. done. Qed.

Lemma kept_trans (user : nat) (d1 d2 d3 : Database) :
  kept user d1 d2 -> kept user d2 d3 -> kept user d1 d3.
Proof.
  intros [H1 H2] [H3 H4]. split; [|auto]. intros Hpk.
  destruct (H1 Hpk) as [Hpk2 Ho2]. destruct (H3 Hpk2) as [Hpk3 Ho3].
  split; [done|congruence].
Qed.

Lemma kept_agents (user : nat) (d d' : Database) :
  agents d' = agents d -> kept user d d'.
Proof.
  unfold kept, primary_key, unique_agent_id, others. by intros ->.
Qed.

Lemma unique_agent_id_update (c : agents.row -> bool)
  (f : agents.row -> agents.row) (d : Database) :
  keeps_keys f -> unique_agent_id d -> unique_agent_id (update_agents c f d).
Proof.
  intros Hf Hu.
  unfold unique_agent_id in *. cbn [agents update_agents with_agents].
  rewrite map_map.
  erewrite map_ext; [exact Hu|]. intros r. cbn.
  destruct (c r); [|done]. by destruct (Hf r) as (_ & -> & ->).
Qed.

Lemma keys_kept_update (c : agents.row -> bool)
  (f : agents.row -> agents.row) (d : Database) :
  keeps_keys f -> keys_kept d (update_agents c f d).
Proof.
  intros Hf. split; [by apply primary_key_update|].
  by apply unique_agent_id_update.
Qed.

Lemma others_update_owned (user : nat) (c : agents.row -> bool)
  (f : agents.row -> agents.row) (d : Database) :
  keeps_keys f ->
  (forall r, r ∈ agents d -> c r = true -> agents.user_id r = user) ->
  others user (update_agents c f d) = others user d.
Proof.
  intros Hf Hc. unfold others, update_agents. cbn [agents with_agents].
  apply filter_update. intros r Hr Hcr.
  destruct (Hf r) as (_ & Hu & _). rewrite Hu.
  specialize (Hc r Hr Hcr). split; intros Hn; by apply Hn.
Qed.

Lemma kept_update_owned (user : nat) (c : agents.row -> bool)
  (f : agents.row -> agents.row) (d : Database) :
  keeps_keys f ->
  (forall r, c r = true -> agents.user_id r = user) ->
  kept user d (update_agents c f d).
Proof.
  intros Hf Hc. split; [|by apply unique_agent_id_update].
  intros Hpk. split; [by apply primary_key_update|].
  apply others_update_owned; auto.
Qed.

Lemma kept_update_by_id (user p : nat) (a : agents.row)
  (f : agents.row -> agents.row) (d : Database) :
  keeps_keys f -> agent_by_id_user p user d = Some a ->
  kept user d (update_agents (fun r => bool_decide (agents.id r = p)) f d).
Proof.
  intros Hf Ha. split; [|by apply unique_agent_id_update].
  intros Hpk. split; [by apply primary_key_update|].
  apply others_update_owned; [done|].
  intros r Hr Hc%bool_decide_eq_true.
  apply select_some in Ha as [Hin [Hid Hu]].
  assert (r = a) as -> by (eapply primary_key_row; eauto; congruence).
  done.
Qed.

Lemma kept_ensureAgentExists (user : nat) (agentId : string)
  (d d1 : Database) (id : nat) :
  ensureAgentExists user agentId d = Some (d1, id) -> kept user d d1.
Proof.
  intros E.
  pose proof (ensureAgentExists_again user agentId d d1 id E) as H.
  assert (Ho : others user d1 = others user d).
  { unfold ensureAgentExists, others in *.
    destruct (agent_by_external agentId user d); [by simplify_eq|].
    destruct (varchar 255 agentId); [|done]. injection E as <- <-.
    cbn [fst agents with_agents]. rewrite filter_app, filter_cons.
    rewrite decide_False by (cbn; auto). by rewrite filter_nil, app_nil_r. }
  destruct H as (_ & _ & _ & H1 & H2). split; auto.
Qed.

Lemma is_agent_active_kept (p user : nat) (now : Z) (d : Database) :
  kept user d (is_agent_active p user now d).1.
Proof.
  unfold is_agent_active.
  destruct (global_kill_switch.is_emergency_stopped _); [done|].
  destruct (agent_by_id_user p user d) as [a|] eqn:Ea; [|done].
  repeat case_match; cbn [fst]; try done.
  by eapply kept_update_by_id; [apply keeps_keys_unpause|].
Qed.

Lemma checkAgentBudgetAfterCreation_kept (p : nat) (cost : Z) (user : nat)
  (d : Database) :
  kept user d (checkAgentBudgetAfterCreation p cost user d).1.
Proof.
  unfold checkAgentBudgetAfterCreation.
  destruct (agent_by_id_user p user d) as [a|] eqn:Ea; [|done].
  repeat case_match; cbn [fst]; try done.
  by eapply kept_update_by_id; [apply keeps_keys_suspend|].
Qed.

Lemma enforceAgentBudget_kept (user : nat) (now : Z)
  (agent_id : option string) (cost_amount : option Z) (w : World) :
  kept user (db w)
    (db (enforceAgentBudget user now agent_id cost_amount w).1).
Proof.
  unfold enforceAgentBudget.
  destruct agent_id as [[|c s]|]; try done.
  destruct (agent_by_external _ _ _) as [a|] eqn:Ea; [|done].
  destruct (agents.is_suspended a); [done|].
  destruct (agents.monthly_cost_limit a) as [limit|]; [|done].
  pose proof (currentSpend_db a now w) as Hdb.
  destruct (currentSpend a now w) as [w1 current]. cbn [fst] in Hdb.
  case_match; cbn [fst db with_db]; rewrite Hdb; [|done].
  split; [|by apply unique_agent_id_update, keeps_keys_suspend].
  intros Hpk.
  pose proof (by_external_by_id_user _ _ _ _ Hpk Ea) as Hid.
  by apply (kept_update_by_id user (agents.id a) a suspend (db w)
              keeps_keys_suspend Hid).
Qed.

Lemma record_event_kept (user : nat) (now : Z) (v : event.t)
  (check : budget_check) (cu au : nat) (d2 : Database) (w : World) :
  kept user d2 (db (record_event user now v check cu au d2 w).1).
Proof.
  unfold record_event.
  assert (H3 : kept user d2
                 (match check with
                  | DEFERRED =>
                    checkAgentBudgetAfterCreation au
                      (event.cost_amount v) user d2
                  | Checked a => (d2, Some (Allowed a))
                  end).1).
  { destruct check; [|done]. apply checkAgentBudgetAfterCreation_kept. }
  destruct (match check with DEFERRED => _ | Checked _ => _ end)
    as [d3 budgetCheck].
  cbn [fst] in H3.
  destruct budgetCheck as [[a|? ? ? ?]|]; cbn [fst db with_db]; try done.
  unfold checkAgentStatus.
  pose proof (is_agent_active_kept au user now d3) as H4.
  destruct (is_agent_active _ _ _ _) as [d4 isActive]. cbn [fst] in *.
  destruct isActive; [|cbn [fst db with_db]; by eapply kept_trans].
  unfold insert_usage_event.
  destruct (fits_usage_events v); cbn [fst db with_db];
    [|by eapply kept_trans].
  eapply kept_trans; [exact H3|]. eapply kept_trans; [exact H4|].
  by apply kept_agents.
Qed.

Lemma record_handler_kept (user : nat) (now : Z) (b : body.t)
  (check : budget_check) (w : World) :
  kept user (db w) (db (record_handler user now b check w).1).
Proof.
  unfold record_handler.
  destruct (usageEventSchema now b) as [key|v]; [done|].
  destruct (ensureCustomerExists _ _ _) as [[d1 cu]|] eqn:E1; [|done].
  apply ensureCustomerExists_frame in E1 as (Ha1 & _).
  destruct (ensureAgentExists _ _ _) as [[d2 au]|] eqn:E2;
    [|by apply (kept_agents user (db w) d1)].
  apply kept_ensureAgentExists in E2.
  eapply kept_trans; [by apply (kept_agents user (db w) d1)|].
  eapply kept_trans; [exact E2|]. apply record_event_kept.
Qed.

Lemma record_kept (user : nat) (now : Z) (b : body.t) (w : World) :
  kept user (db w) (db (record user now b w).1).
Proof.
  unfold record.
  pose proof (enforceAgentBudget_kept user now (body.agent_id b)
                (body.cost_amount b) w) as H1.
  destruct (enforceAgentBudget _ _ _ _ _) as [w1 [r|check]];
    cbn [fst] in *; [done|].
  eapply kept_trans; [exact H1|]. apply record_handler_kept.
Qed.

Lemma bulk_loop_kept (user : nat) (now : Z) (events : list event.t)
  (d : Database) (recordedEvents : list nat) :
  kept user d (bulk_loop user now events d recordedEvents).1.
Proof.
  revert d recordedEvents.
  induction events as [|v rest IH]; intros d recordedEvents;
    cbn [bulk_loop]; [done|].
  destruct (ensureCustomerExists _ _ _) as [[d1 cu]|] eqn:E1; [|done].
  apply ensureCustomerExists_frame in E1 as (Ha1 & _).
  destruct (ensureAgentExists _ _ _) as [[d2 au]|] eqn:E2;
    [|by apply (kept_agents user d d1)].
  apply kept_ensureAgentExists in E2 as H2.
  unfold checkAgentStatus.
  pose proof (is_agent_active_kept au user now d2) as H3.
  destruct (is_agent_active _ _ _ _) as [d3 isActive]. cbn [fst] in *.
  assert (Hend : kept user d d3).
  { eapply kept_trans; [by apply (kept_agents user d d1)|].
    by eapply kept_trans. }
  destruct isActive; [|done]. unfold insert_usage_event.
  destruct (fits_usage_events v); [|done].
  eapply kept_trans; [exact Hend|].
  eapply kept_trans; [|apply IH]. by apply kept_agents.
Qed.

Lemma record_bulk_kept (user : nat) (now : Z) (b : bulk_body.t) (w : World) :
  kept user (db w) (db (record_bulk user now b w).1).
Proof.
  unfold record_bulk.
  pose proof (enforceAgentBudget_kept user now (bulk_body.agent_id b)
                (bulk_body.cost_amount b) w) as H1.
  destruct (enforceAgentBudget _ _ _ _ _) as [w1 [r|check]];
    cbn [fst] in *; [done|].
  eapply kept_trans; [exact H1|]. unfold record_bulk_handler.
  destruct (bulkUsageSchema now b) as [key|events]; [done|].
  pose proof (bulk_loop_kept user now events (db w1) []) as H2.
  destruct (bulk_loop _ _ _ _ _) as [d [ids|]]; cbn [fst db with_db] in *;
    [done|].
  eapply kept_trans; [exact H2|]. by apply kept_agents.
Qed.

Lemma checkInfiniteLoops_keys (now : Z) (d : Database) :
  keys_kept d (checkInfiniteLoops now d).
Proof.
  unfold checkInfiniteLoops. generalize (loopDetectionQuery now d) at 1.
  intros rows. revert d. induction rows as [|[[p n] user] rows IH]; intros d.
  - done.
  - cbn [foldl]. eapply keys_kept_trans; [|apply IH].
    unfold loop_kill, triggerAutoKill.
    apply (keys_kept_update _ (auto_kill now _) d), keeps_keys_auto_kill.
Qed.

Lemma owned_user (user : nat) (agentId : string) (r : agents.row) :
  owned user agentId r = true -> agents.user_id r = user.
Proof. unfold owned. by intros [?%bool_decide_eq_true _]%andb_prop. Qed.

Lemma serve_kept (user : nat) (q : request) (w : World) :
  request_of user q -> kept user (db w) (db (serve q w).1).
Proof.
  destruct q; cbn [request_of serve]; intros Hq; try done; subst;
    unfold on_db, kill_customer, kill_agent, pause_agent, revive_agent,
      revive_agent_null, update_returning, logKillSwitchEvent, suspendAgent,
      reactivateAgent.
  - pose proof (record_kept user now b w). by destruct (record _ _ _ _).
  - pose proof (record_bulk_kept user now b w).
    by destruct (record_bulk _ _ _ _).
  - repeat case_match; simplify_eq; cbn [fst db with_db]; try done.
    apply (kept_update_owned user _ (kill now user _) (db w));
      [apply keeps_keys_kill|].
    by intros x [?%bool_decide_eq_true _]%andb_prop.
  - repeat case_match; simplify_eq; cbn [fst db with_db]; try done;
      (apply (kept_update_owned user _ (kill now user _) (db w));
       [apply keeps_keys_kill|];
       intros x [?%owned_user _]%andb_prop; done).
  - repeat case_match; simplify_eq; cbn [fst db with_db]; try done;
      (apply (kept_update_owned user _ (pause _ _) (db w));
       [apply keeps_keys_pause|];
       intros x [?%owned_user _]%andb_prop; done).
  - repeat case_match; simplify_eq; cbn [fst db with_db]; try done;
      (apply (kept_update_owned user _ revive (db w));
       [apply keeps_keys_revive|];
       intros x [?%owned_user _]%andb_prop; done).
  - repeat case_match; simplify_eq; cbn [fst db with_db]; try done;
      (apply (kept_update_owned user _ revive (db w));
       [apply keeps_keys_revive|];
       intros x [?%owned_user _]%andb_prop; done).
  - repeat case_match; simplify_eq; cbn [fst db with_db]; try done.
    apply kept_update_owned; [apply keeps_keys_suspend|].
    by intros x [_ ?%bool_decide_eq_true]%andb_prop.
  - repeat case_match; simplify_eq; cbn [fst db with_db]; try done.
    apply kept_update_owned; [apply keeps_keys_reactivate|].
    by intros x [_ ?%bool_decide_eq_true]%andb_prop.
Qed.

Lemma serve_keys (q : request) (w : World) :
  keys_kept (db w) (db (serve q w).1).
Proof.
  destruct q;
    try (apply (kept_keys user), serve_kept; reflexivity).
  - cbn [serve]. unfold on_db, emergency_stop_all, logKillSwitchEvent.
    repeat case_match; simplify_eq; cbn [fst db with_db]; try done.
    apply (keys_kept_update _ (kill now user _) (db w)), keeps_keys_kill.
  - done.
  - cbn [serve fst db with_db]. apply checkInfiniteLoops_keys.
Qed.

(** X15.  The requests of one user never change an agent of another
    user: under the primary key of agents, whatever requests to record,
    to kill, pause or revive an agent, to kill the agents of a customer,
    to suspend or to reactivate a user makes, the rows of the agents of
    all other users are afterwards what they were. *)
Theorem requests_touch_own_agents_only (user : nat) (l : list request)
  (w : World) :
  primary_key (db w) -> Forall (request_of user) l ->
  others user (db (serve_all l w)) = others user (db w).
Proof.
  unfold serve_all. revert w. induction l as [|q l IH]; intros w Hpk Hl;
    [done|].
  apply Forall_cons in Hl as [Hq Hl]. cbn [foldl].
  destruct (serve_kept user q w Hq) as [H _].
  destruct (H Hpk) as [Hpk' Ho]. rewrite IH by done. exact Ho.
Qed.

(** User 1 kills the agents of a customer and records for a new agent;
    the agent of user 2 is as it was. *)
Lemma requests_touch_own_agents_only_witness :
  let a2 := agents.mk 7 2 "agent-x" "agent-x" false None active None None
              None None in
  let w := mkWorld (mkDatabase [agent_x; a2]
                      [customers.mk 1 1 "customer-1" "customer-1"] [] []
                      not_stopped) (mkRedis true ∅) in
  others 1
    (db (serve_all [PostKillCustomer 1 t0 "customer-1" (Some "stop");
                    PostRecord 1 t0 (example_body "agent-new" (usd 1))] w))
  = [a2].
Proof.
  intros a2 w.
  rewrite (requests_touch_own_agents_only 1 _ w);
    [reflexivity | apply (bool_decide_unpack _); vm_compute; exact I
     | repeat constructor].
Defined.

(** X16.  The keys of [agents] hold through every request: whatever
    requests the service serves, no two rows of agents ever share an id,
    and no user ever has two agents with one external id. *)
Theorem agent_keys_kept (l : list request) (w : World) :
  (primary_key (db w) -> primary_key (db (serve_all l w)))
  /\ (unique_agent_id (db w) -> unique_agent_id (db (serve_all l w))).
Proof.
  change (keys_kept (db w) (db (serve_all l w))).
  unfold serve_all. revert w. induction l as [|q l IH]; intros w; [done|].
  cbn [foldl]. eapply keys_kept_trans; [apply serve_keys|apply IH].
Qed.

(** ** A batch that is committed *)

Lemma active_not_inactive (now : Z) (a : agents.row) :
  agents.status a = active -> ~ inactive_row now a.
Proof. intros Hs [Hk|[Hp _]]; congruence. Qed.

Lemma is_agent_active_admits (a : agents.row) (user : nat) (now : Z)
  (d : Database) :
  ~ stopped d -> agent_by_id_user (agents.id a) user d = Some a ->
  ~ inactive_row now a ->
  (is_agent_active (agents.id a) user now d).2 = true.
Proof.
  intros Hns Ha Hin. unfold is_agent_active, stopped in *.
  apply not_true_is_false in Hns. rewrite Hns, Ha.
  destruct (agents.status a) eqn:Es; [done| |].
  - destruct (pause_elapsed now (agents.pause_until a)) eqn:Ee.
    + destruct (pause_in_future now (agents.pause_until a)) eqn:Ef; [|done].
      apply pause_future_not_elapsed in Ef. congruence.
    + exfalso. apply Hin. right. done.
  - exfalso. apply Hin. by left.
Qed.

Lemma is_agent_active_cases (p_agent_id p_user_id : nat) (now : Z)
  (d : Database) :
  (is_agent_active p_agent_id p_user_id now d).1 = d
  \/ (is_agent_active p_agent_id p_user_id now d).1
     = update_agents (fun r => bool_decide (agents.id r = p_agent_id))
         unpause d.
Proof.
  unfold is_agent_active. repeat case_match; cbn [fst]; eauto.
Qed.

Lemma bulk_loop_succeeds (user : nat) (now : Z) (events : list event.t)
  (d : Database) (recordedEvents : list nat) :
  primary_key d -> ~ stopped d -> admissible user now events d ->
  Forall (fun v => fits_columns v = true) events ->
  is_Some (bulk_loop user now events d recordedEvents).2.
Proof.
  revert d recordedEvents.
  induction events as [|v rest IH];
    intros d recordedEvents Hpk Hns Hadm Hfits;
    cbn [bulk_loop]; [by eexists|].
  apply Forall_cons in Hfits as [Hfit Hfits].
  apply fits_columns_varchar in Hfit as (Hf1 & Hf2 & Hf3).
  destruct (ensureCustomerExists_fits user _ d Hf1) as [[d1 cu] E1].
  rewrite E1.
  apply ensureCustomerExists_frame in E1 as (Ha1 & _ & _ & Hg1).
  assert (Hpk1 : primary_key d1) by (unfold primary_key; by rewrite Ha1).
  assert (Hadm1 : admissible user now (v :: rest) d1).
  { intros v' a' Hv' Ha'. apply (Hadm v' a' Hv').
    unfold agent_by_external in *. by rewrite <- Ha1. }
  clear Hadm.
  destruct (ensureAgentExists_fits user _ d1 Hf2) as [[d2 au] E2].
  rewrite E2.
  pose proof (ensureAgentExists_again user (event.agent_id v) d1 d2 au E2)
    as He.
  pose proof (ensureAgentExists_frame user (event.agent_id v) d1 d2 au E2)
    as (_ & _ & _ & Hg2).
  destruct He as (_ & (a2 & Ha2 & Hid2) & Hkeep & Hpk2 & _).
  specialize (Hpk2 Hpk1).
  assert (Hadm2 : admissible user now (v :: rest) d2).
  { intros v' a' Hv' Ha'.
    destruct (agent_by_external (event.agent_id v') user d1) as [y|] eqn:Ey.
    - rewrite (Hkeep _ _ _ Ey) in Ha'. simplify_eq. by eapply Hadm1.
    - unfold ensureAgentExists in E2.
      destruct (agent_by_external (event.agent_id v) user d1) eqn:Ev;
        simplify_eq; try congruence.
      rewrite Hf2 in E2. injection E2 as <- _.
      unfold agent_by_external in Ha', Ey. cbn [agents with_agents] in Ha'.
      rewrite select_app_none in Ha' by exact Ey.
      rewrite filter_cons in Ha'. case_decide; simplify_eq. cbn in Ha'.
      simplify_eq. by apply active_not_inactive. }
  assert (Hns2 : ~ stopped d2).
  { unfold stopped in *. by rewrite Hg2, Hg1. }
  unfold checkAgentStatus.
  pose proof (by_external_by_id_user _ _ _ _ Hpk2 Ha2) as Hby.
  rewrite Hid2 in Hby.
  pose proof (is_agent_active_admits a2 user now d2 Hns2) as Hadmit.
  rewrite Hid2 in Hadmit. specialize (Hadmit Hby).
  pose proof (is_agent_active_frame au user now d2) as (_ & _ & _ & Hg3).
  pose proof (is_agent_active_kept au user now d2) as [Hk3 _].
  pose proof (is_agent_active_cases au user now d2) as Hcases.
  destruct (is_agent_active au user now d2) as [d3 isActive].
  cbn [fst snd] in *.
  rewrite Hadmit by (eapply Hadm2; [by left|exact Ha2]).
  unfold insert_usage_event. rewrite Hf3. apply IH; [| | |exact Hfits].
  - unfold primary_key. cbn [agents with_usage_events]. by apply Hk3.
  - unfold stopped in *. cbn. by rewrite Hg3.
  - intros v' a' Hv' Ha'.
    change (agent_by_external (event.agent_id v') user d3 = Some a') in Ha'.
    destruct Hcases as [->| ->].
    + eapply Hadm2; [by right|exact Ha'].
    + rewrite agent_by_external_update in Ha' by apply keeps_keys_unpause.
      destruct (agent_by_external (event.agent_id v') user d2) as [x|] eqn:Ex;
        [|done].
      cbn in Ha'. case_bool_decide; simplify_eq.
      * by apply active_not_inactive.
      * eapply Hadm2; [by right|exact Ex].
Qed.

(** X17.  The handler of POST /record-bulk commits a whole batch: when
    no emergency stop is in force, every agent that the batch names is
    admitted by the kill-switch check (or does not exist yet) and the
    values of every event fit the columns, the handler answers 201 and
    the ledger gains one row for each event of the batch, in the order
    of the batch, with its name and the authenticated user.  The budget
    of the agents is not looked at and the spend cache is not updated:
    Redis is as it was. *)
Theorem bulk_commits_all (user : nat) (now : Z) (b : bulk_body.t)
  (events : list event.t) (w : World) :
  primary_key (db w) -> ~ stopped (db w) ->
  bulkUsageSchema now b = inr events ->
  admissible user now events (db w) ->
  Forall (fun v => fits_columns v = true) events ->
  let '(w', r) := record_bulk_handler user now b w in
  redis w' = redis w
  /\ exists l,
       r = resp_bulk_recorded (length events) (map usage_events.id l)
       /\ usage_events (db w') = usage_events (db w) ++ l
       /\ map usage_events.event_name l = map event.event_name events
       /\ Forall (fun e => usage_events.user_id e = user) l.
Proof.
  intros Hpk Hns Hb Hadm Hfits. unfold record_bulk_handler. rewrite Hb.
  pose proof (bulk_loop_succeeds user now events (db w) [] Hpk Hns Hadm
                Hfits) as [ids Hids].
  pose proof (bulk_loop_effect user now events (db w) []) as He.
  destruct (bulk_loop _ _ _ _ _) as [d result]. cbn [snd] in Hids.
  subst result. destruct He as (_ & _ & l & Hl & -> & _ & Hn & Hus).
  split; [done|]. exists l. by cbn.
Qed.

(** A batch of two events for the agent without a limit, 1000 dollars
    each. *)
Lemma bulk_commits_all_witness :
  let b := bulk_body.mk None None
             [example_body "agent-free" (usd 1000);
              example_body "agent-free" (usd 1000)] in
  let '(w', r) := record_bulk_handler 1 t0 b world_x in
  redis w' = redis world_x
  /\ exists l, usage_events (db w') = usage_events (db world_x) ++ l
               /\ length l = 2%nat.
Proof.
  intros b.
  pose proof (bulk_commits_all 1 t0 b
                [example_event "agent-free" (usd 1000) t0;
                 example_event "agent-free" (usd 1000) t0] world_x) as H.
  destruct (record_bulk_handler 1 t0 b world_x) as [w' r].
  destruct H as (H1 & l & _ & H2 & H3 & _).
  - apply (bool_decide_unpack _). vm_compute. exact I.
  - discriminate.
  - reflexivity.
  - intros v a Hv Ha.
    assert (event.agent_id v = "agent-free") as Hid.
    { repeat (apply elem_of_cons in Hv as [->|Hv]); try reflexivity.
      by apply elem_of_nil in Hv. }
    rewrite Hid in Ha. vm_compute in Ha. simplify_eq.
    by apply active_not_inactive.
  - by repeat constructor.
  - split; [exact H1|]. exists l. split; [exact H2|].
    apply (f_equal length) in H3. by rewrite !length_map in H3.
Defined.

(** ** The spend cache, again *)

(** X19.  A reset of the cache does not reset the budget: after
    [resetAgentSpend] for an agent whose ledger holds a positive spend
    for the month, the next budget check reads 0 from the cache, sums
    the ledger, and writes the sum back to the cache, so that the check
    uses the spend of the ledger and the entry is there again. *)
Theorem reset_is_undone_by_the_check (a : agents.row) (now : Z) (w : World) :
  redis_up (redis w) = true ->
  0 < month_spend (agents.id a) now (db w) ->
  let w0 :=
    with_redis (resetAgentSpend now (agents.agent_id a) (redis w)).1 w in
  getAgentSpend now (agents.agent_id a) (redis w0) = 0
  /\ (currentSpend a now w0).2 = month_spend (agents.id a) now (db w)
  /\ getAgentSpend now (agents.agent_id a) (redis (currentSpend a now w0).1)
     = month_spend (agents.id a) now (db w)
  /\ db (currentSpend a now w0).1 = db w.
Proof.
  intros Hup Hpos. cbn zeta.
  unfold currentSpend, resetAgentSpend, getAgentSpend, incrementAgentSpend.
  rewrite Hup. cbn [fst redis with_redis redis_up agent_spend db].
  rewrite !lookup_delete_eq. rewrite bool_decide_true by done.
  apply Z.ltb_lt in Hpos. rewrite Hpos.
  cbn [fst redis with_redis redis_up agent_spend db default].
  rewrite lookup_insert_eq. done.
Qed.

(** The cache says that [agent_x] has spent 1 dollar, the ledger 12. *)
Lemma reset_is_undone_by_the_check_witness :
  let w := mkWorld (db world_zero_entry)
             (mkRedis true {[ (month_of t0, "agent-x") := usd 1 ]}) in
  let w0 := with_redis (resetAgentSpend t0 "agent-x" (redis w)).1 w in
  (currentSpend agent_x t0 w).2 = usd 1
  /\ (currentSpend agent_x t0 w0).2 = usd 12.
Proof.
  intros w w0. split; [reflexivity|].
  destruct (reset_is_undone_by_the_check agent_x t0 w eq_refl)
    as (_ & H & _); [vm_compute; reflexivity|].
  exact H.
Defined.

(** X20.  The spend cache is keyed by the external id of the agent
    alone, so two users who each have an agent with one external id
    share one entry: what user A records for a new agent of that id is
    counted against the limit of the agent of user B.  A valid request
    of A whose values fit the columns is recorded; when the cached spend
    plus the cost that A has recorded plus the cost that B asks for
    exceeds the limit of B's agent, B is then denied with
    BUDGET_LIMIT_EXCEEDED, with a current spend that includes the cost
    of A, whatever B's own ledger holds. *)
Theorem spend_cache_shared_between_users (userA userB : nat) (now now' : Z)
  (b b' : body.t) (v : event.t) (a' : agents.row) (limit : Z) (w : World) :
  ~ stopped (db w) -> redis_up (redis w) = true ->
  usageEventSchema now b = inr v ->
  recordable userA v (db w) = true ->
  agent_by_external (event.agent_id v) userA (db w) = None ->
  agent_by_external (event.agent_id v) userB (db w) = Some a' ->
  agents.is_suspended a' = false ->
  agents.monthly_cost_limit a' = Some limit ->
  0 <= getAgentSpend now (event.agent_id v) (redis w) ->
  month_of now' = month_of now ->
  body.agent_id b' = Some (event.agent_id v) ->
  let spent :=
    getAgentSpend now (event.agent_id v) (redis w) + event.cost_amount v in
  limit < spent + default 0 (body.cost_amount b') ->
  let '(w1, r1) := record userA now b w in
  http_status r1 = 201%nat
  /\ (record userB now' b' w1).2
     = resp_budget_limit_exceeded limit spent
         (default 0 (body.cost_amount b')).
Proof.
  intros Hns Hup Ev Hfit HA HB Hs Hl Hpos Hm Hb' spent Hover.
  pose proof (record_unknown_agent userA now b v w Hns Ev HA Hfit) as H.
  destruct (record userA now b w) as [w1 r1]. cbn zeta in H.
  destruct H as (Hr & Hag & _ & Hred & _). split; [exact Hr|].
  destruct (usageEventSchema_valid _ _ _ Ev) as (_ & Hne & _ & Hc).
  assert (HB1 : agent_by_external (event.agent_id v) userB (db w1) = Some a').
  { unfold agent_by_external in *. rewrite Hag. by apply select_app. }
  assert (Hcached : getAgentSpend now' (event.agent_id v) (redis w1) = spent).
  { rewrite Hred. by apply getAgentSpend_increment. }
  unfold record. rewrite Hb'.
  rewrite (enforceAgentBudget_limited _ _ _ _ _ _ _ Hne HB1 Hs Hl).
  pose proof (agent_by_external_keys _ _ _ _ HB) as [Hid _].
  rewrite currentSpend_cached by (rewrite Hid, Hcached; unfold spent; lia).
  rewrite Hid, Hcached.
  apply Z.ltb_lt in Hover. by rewrite Hover.
Qed.

(** User 2 has an agent "agent-x" as well, with a limit of 10 dollars
    and an empty ledger; user 1 records 8 dollars for a new agent
    "agent-x", and user 2 asks for 3 dollars. *)
Lemma spend_cache_shared_between_users_witness :
  let a2 := agents.mk 7 2 "agent-x" "agent-x" false (Some (usd 10)) active
              None None None None in
  let w := mkWorld (mkDatabase [a2] [] [] [] not_stopped) (mkRedis true ∅) in
  let '(w1, r1) := record 1 t0 (example_body "agent-x" (usd 8)) w in
  http_status r1 = 201%nat
  /\ (record 2 (t0 + 1000) (example_body "agent-x" (usd 3)) w1).2
     = resp_budget_limit_exceeded (usd 10) (usd 8) (usd 3).
Proof.
  intros a2 w.
  apply (spend_cache_shared_between_users 1 2 t0 (t0 + 1000)
           (example_body "agent-x" (usd 8)) (example_body "agent-x" (usd 3))
           (example_event "agent-x" (usd 8) t0) a2 (usd 10) w);
    try reflexivity; try discriminate.
Defined.

(** ** The budget of an agent *)

Lemma keeps_keys_set_limit (limit : option Z) : keeps_keys (set_limit limit).
Proof. by intros []. Qed.

Lemma patch_budget_found (user : nat) (agentId : string)
  (monthly_cost_limit : option Z) (a : agents.row) (d : Database) :
  agent_by_external agentId user d = Some a ->
  from_option decimal_10_2 true monthly_cost_limit = true ->
  patch_budget user agentId monthly_cost_limit d
  = (update_agents
       (fun r => bool_decide (agents.agent_id r = agentId)
                 && bool_decide (agents.user_id r = user))
       (set_limit monthly_cost_limit) d,
     resp_ok "Budget limit updated successfully")
  /\ agent_by_external agentId user
       (update_agents
          (fun r => bool_decide (agents.agent_id r = agentId)
                    && bool_decide (agents.user_id r = user))
          (set_limit monthly_cost_limit) d)
     = Some (set_limit monthly_cost_limit a).
Proof.
  intros Ea Hfit. unfold patch_budget, update_returning. rewrite Hfit.
  apply select_some in Ea as Hin. destruct Hin as [Hin [Hi Hu]].
  set (c := fun r => bool_decide (agents.agent_id r = agentId)
                     && bool_decide (agents.user_id r = user)).
  assert (Hc : c a = true).
  { unfold c. by rewrite !bool_decide_true. }
  split.
  - destruct (map _ (List.filter c (agents d))) as [|x rows] eqn:E; [|done].
    exfalso. apply map_eq_nil in E. by eapply filter_found.
  - rewrite agent_by_external_update by apply keeps_keys_set_limit.
    rewrite Ea. cbn. by rewrite Hc.
Qed.

(** X21.  The way back after a denial for budget.  When a request has
    been denied with BUDGET_LIMIT_EXCEEDED, raising the limit of the
    agent by PATCH /:agentId/budget (to an amount that the schema lets
    through and that fits the column) is answered with 200 but is not
    enough: the same request is then denied with AGENT_SUSPENDED.  Once
    the agent is reactivated as well, the same request passes the
    middleware, provided the spend that the check uses plus the cost of
    the request lies below the new limit. *)
Theorem raised_budget_needs_reactivation (user : nat) (now : Z)
  (aid : string) (cost_amount : option Z) (a : agents.row)
  (limit limit' : Z) (w : World) :
  aid <> "" -> agent_by_external aid user (db w) = Some a ->
  agents.is_suspended a = false ->
  agents.monthly_cost_limit a = Some limit ->
  limit < (currentSpend a now w).2 + default 0 cost_amount ->
  (currentSpend a now w).2 + default 0 cost_amount < limit' ->
  budget_amount limit' = true -> decimal_10_2 limit' = true ->
  let w1 := (enforceAgentBudget user now (Some aid) cost_amount w).1 in
  let '(d2, r2) := patch_budget user aid (Some limit') (db w1) in
  http_status r2 = 200%nat
  /\ (enforceAgentBudget user now (Some aid) cost_amount (with_db d2 w1)).2
     = Respond resp_agent_suspended
  /\ exists d3, reactivateAgent aid user d2 = Some d3
       /\ (enforceAgentBudget user now (Some aid) cost_amount
             (with_db d3 w1)).2
          = Next (Checked (set_limit (Some limit') a)).
Proof.
  intros Hne Ha Hs Hl Hover Hfit _ Hcol. cbn zeta.
  rewrite (enforceAgentBudget_limited _ _ _ _ _ _ _ Hne Ha Hs Hl).
  pose proof (currentSpend_db a now w) as Hdb.
  pose proof (currentSpend_again a now w) as Hagain.
  destruct (currentSpend a now w) as [w0 current]. cbn [fst snd] in *.
  apply Z.ltb_lt in Hover. rewrite Hover. cbn [fst db with_db].
  set (d1 := update_agents _ suspend _).
  assert (Ha1 : agent_by_external aid user d1 = Some (suspend a)).
  { subst d1. rewrite agent_by_external_update by apply keeps_keys_suspend.
    rewrite Hdb, Ha. cbn. by rewrite bool_decide_true. }
  destruct (patch_budget_found user aid (Some limit') (suspend a) d1 Ha1
              Hcol) as [-> Ha2].
  set (d2 := update_agents _ (set_limit _) _) in *.
  split; [done|]. split.
  { rewrite (enforceAgentBudget_suspended user now aid cost_amount
               (set_limit (Some limit') (suspend a)) (with_db d2 _) Hne Ha2
               eq_refl). done. }
  unfold reactivateAgent. rewrite Ha2. eexists. split; [reflexivity|].
  set (d3 := update_agents _ reactivate _).
  assert (Ha3 : agent_by_external aid user d3
                = Some (set_limit (Some limit') a)).
  { subst d3. rewrite agent_by_external_update by apply keeps_keys_reactivate.
    rewrite Ha2. cbn [fmap option_fmap option_map].
    apply agent_by_external_keys in Ha as [<- <-].
    cbn [suspend set_limit agents.agent_id agents.user_id].
    rewrite !bool_decide_true by done. cbn [andb]. f_equal.
    destruct a; cbn in *. by subst. }
  rewrite (enforceAgentBudget_limited user now aid cost_amount
             (set_limit (Some limit') a) limit' (with_db d3 (with_db d1 w0))
             Hne Ha3 Hs eq_refl).
  assert (Hu3 : usage_events d3 = usage_events (db w)).
  { subst d3 d2 d1. cbn. by rewrite Hdb. }
  specialize (Hagain d3 Hu3).
  change (with_db d3 (with_db d1 w0)) with (mkWorld d3 (redis w0)).
  change (currentSpend (set_limit (Some limit') a) now
            (mkWorld d3 (redis w0)))
    with (currentSpend a now (mkWorld d3 (redis w0))).
  destruct (currentSpend a now (mkWorld d3 (redis w0))) as [w3 current3].
  cbn [fst snd] in *. subst current3.
  destruct (limit' <? current + default 0 cost_amount) eqn:E; [|done].
  apply Z.ltb_lt in E. lia.
Qed.

(** The agent [agent_x], limit 10 dollars, asks for 11 dollars; the
    limit is raised to 20 dollars. *)
Lemma raised_budget_needs_reactivation_witness :
  let w1 := (enforceAgentBudget 1 t0 (Some "agent-x") (Some (usd 11))
               world_x).1 in
  let '(d2, r2) := patch_budget 1 "agent-x" (Some (usd 20)) (db w1) in
  (enforceAgentBudget 1 t0 (Some "agent-x") (Some (usd 11))
     (with_db d2 w1)).2
  = Respond resp_agent_suspended
  /\ exists d3, reactivateAgent "agent-x" 1 d2 = Some d3
       /\ (enforceAgentBudget 1 t0 (Some "agent-x") (Some (usd 11))
             (with_db d3 w1)).2
          = Next (Checked (set_limit (Some (usd 20)) agent_x)).
Proof.
  intros w1.
  pose proof (raised_budget_needs_reactivation 1 t0 "agent-x"
                (Some (usd 11)) agent_x (usd 10) (usd 20) world_x) as H.
  cbn zeta in H. fold w1 in H.
  destruct (patch_budget 1 "agent-x" (Some (usd 20)) (db w1)) as [d2 r2].
  destruct H as (_ & H1 & H2);
    [discriminate | reflexivity | reflexivity | reflexivity
     | vm_compute; reflexivity | vm_compute; reflexivity | reflexivity
     | reflexivity |].
  split; [exact H1|exact H2].
Defined.

(** ** Stopping the monitor *)

(** X22.  [stop()] cancels the timer and nothing else: in every state
    that the monitor reaches, after [stop()] no interval timer is set,
    so that no expiry can start a tick; the calls that are in flight are
    not cancelled; and a later [start()] sets one timer again and starts
    one tick at once. *)
Theorem stop_cancels_the_timer (l : list occurrence) (rt : Runtime) :
  run l boot = Some rt ->
  intervals (stop rt) = []
  /\ isRunning (monitor (stop rt)) = false
  /\ (forall h, step (IntervalExpires h) (stop rt) = None)
  /\ unsettled_checks (stop rt) = unsettled_checks rt
  /\ length (intervals (start (stop rt))) = 1%nat
  /\ unsettled_checks (start (stop rt)) = S (unsettled_checks rt).
Proof.
  intros Hr.
  assert (Hs : scheduled rt).
  { eapply scheduled_run; [|exact Hr]. split; [done|]. split; [done|].
    by intros [? ?]. }
  destruct Hs as [Hi Hrun]. unfold stop.
  destruct (monitoringInterval (monitor rt)) as [h|] eqn:Em;
    cbn [intervals monitor isRunning unsettled_checks step start
         performMonitoringChecks next_handle monitoringInterval length].
  - rewrite Hi, filter_cons, decide_False by (intros Hf; by apply Hf).
    rewrite filter_nil. repeat split; try done;
      intros h'; by rewrite bool_decide_false by apply not_elem_of_nil.
  - rewrite Hi. repeat split; try done;
      intros h'; by rewrite bool_decide_false by apply not_elem_of_nil.
Qed.

Lemma stop_cancels_the_timer_witness :
  exists rt, run [CallStart; IntervalExpires 0] boot = Some rt
    /\ intervals rt = [0%nat] /\ intervals (stop rt) = []
    /\ unsettled_checks (stop rt) = 2%nat.
Proof.
  eexists. split; [reflexivity|].
  destruct (stop_cancels_the_timer [CallStart; IntervalExpires 0] _ eq_refl)
    as (H1 & _ & _ & H2 & _).
  split; [reflexivity|]. split; [exact H1|exact H2].
Defined.

(** ** The monitor: kills by a list of violations *)

Lemma triggerAutoKill_decimal_by_id (now : Z) (user_id : nat)
  (trigger_name trigger_type : string) (threshold_value : Z)
  (violation : violation.t) (u : nat) (d : Database) :
  agent_by_id u
    (triggerAutoKill_decimal now user_id trigger_name trigger_type
       threshold_value violation d)
  = (fun r => if bool_decide (agents.id r = violation.agent_uuid violation)
                 && bool_decide (agents.status r = active)
              then auto_kill now
                     (decimal_reason trigger_name trigger_type
                        threshold_value) r
              else r)
    <$> agent_by_id u d.
Proof.
  unfold triggerAutoKill_decimal, logKillSwitchEvent.
  exact (agent_by_id_update u _ _ d (keeps_keys_auto_kill now _)).
Qed.

Lemma triggerAutoKill_decimal_frame (now : Z) (user_id : nat)
  (trigger_name trigger_type : string) (threshold_value : Z)
  (violation : violation.t) (d : Database) :
  let d' := triggerAutoKill_decimal now user_id trigger_name trigger_type
              threshold_value violation d in
  usage_events d' = usage_events d /\ customers d' = customers d.
Proof. done. Qed.

Section AutoKills.
Context {X : Type} (now : Z) (kill_one : Database -> X -> Database)
  (uuid : X -> nat) (reason : X -> string).
Hypothesis kill_one_by_id : forall u d x,
  agent_by_id u (kill_one d x)
  = (fun r => if bool_decide (agents.id r = uuid x)
                 && bool_decide (agents.status r = active)
              then auto_kill now (reason x) r else r)
    <$> agent_by_id u d.

Lemma kills_others (u : nat) (rows : list X) (d : Database) :
  (forall x, x ∈ rows -> uuid x <> u) ->
  agent_by_id u (foldl kill_one d rows) = agent_by_id u d.
Proof.
  revert d. induction rows as [|x rows IH]; intros d Hx; [done|].
  cbn [foldl]. rewrite IH by (intros y Hy; apply Hx; by right).
  rewrite kill_one_by_id.
  destruct (agent_by_id u d) as [a|] eqn:Ea; [|done]. cbn.
  apply agent_by_id_id in Ea.
  rewrite bool_decide_false; [done|].
  rewrite Ea. intros Hu. by apply (Hx x); [left|].
Qed.

Lemma kills_inactive (u : nat) (rows : list X) (d : Database)
  (a : agents.row) :
  agent_by_id u d = Some a -> agents.status a <> active ->
  agent_by_id u (foldl kill_one d rows) = Some a.
Proof.
  revert d. induction rows as [|x rows IH]; intros d Ea Hs; [done|].
  cbn [foldl]. apply IH; [|done]. rewrite kill_one_by_id, Ea. cbn.
  rewrite (bool_decide_false (agents.status a = active)) by done.
  by rewrite andb_false_r.
Qed.

Lemma kills_active (u : nat) (rows : list X) (d : Database)
  (a : agents.row) :
  agent_by_id u d = Some a -> agents.status a = active ->
  (exists x, x ∈ rows /\ uuid x = u) ->
  exists x, x ∈ rows /\ uuid x = u
    /\ agent_by_id u (foldl kill_one d rows)
       = Some (auto_kill now (reason x) a).
Proof.
  revert d. induction rows as [|x rows IH]; intros d Ea Hs (y & Hy & Hu).
  { by apply elem_of_nil in Hy. }
  cbn [foldl]. destruct (decide (uuid x = u)) as [Hx|Hx].
  - exists x. split; [by left|]. split; [done|].
    apply kills_inactive; [|done].
    rewrite kill_one_by_id, Ea. cbn.
    apply agent_by_id_id in Ea.
    by rewrite !bool_decide_true by congruence.
  - destruct (IH (kill_one d x)) as (z & Hz & Hzu & Hres).
    + rewrite kill_one_by_id, Ea. cbn.
      apply agent_by_id_id in Ea.
      rewrite bool_decide_false by congruence. done.
    + done.
    + apply elem_of_cons in Hy as [->|Hy]; [done|eauto].
    + exists z. split; [by right|]. done.
Qed.

Lemma kills_survivor (u : nat) (rows : list X) (d : Database)
  (a : agents.row) :
  agent_by_id u (foldl kill_one d rows) = Some a ->
  agents.status a = active -> agent_by_id u d = Some a.
Proof.
  revert d. induction rows as [|x rows IH]; intros d Ea Hs; [done|].
  cbn [foldl] in Ea. specialize (IH _ Ea Hs).
  rewrite kill_one_by_id in IH.
  destruct (agent_by_id u d) as [a0|]; [|done]. cbn in IH.
  destruct (_ && _); simplify_eq; done.
Qed.

End AutoKills.

(** ** The monitor: spend rates *)

Lemma customer_by_id_frame (id : nat) (d d' : Database) :
  customers d' = customers d -> customer_by_id id d' = customer_by_id id d.
Proof. unfold customer_by_id. by intros ->. Qed.

Lemma spend_row_of_group (user : nat) (since : Z) (d : Database)
  (e : usage_events.row) (u : nat) (a : agents.row) (cid : string) :
  agent_by_id u d = Some a -> agents.status a = active ->
  match spend_row_of user since d e with
  | Some (g, c) =>
    c = usage_events.cost_amount e
    /\ (g = (u, agents.agent_id a, agents.agent_name a, cid)
        <-> usage_events.user_id e = user
            /\ usage_events.agent_id e = u
            /\ since <= usage_events.created_at e
            /\ customers.customer_id
                 <$> customer_by_id (usage_events.customer_id e) d
               = Some cid)
  | None =>
    ~ (usage_events.user_id e = user
       /\ usage_events.agent_id e = u
       /\ since <= usage_events.created_at e
       /\ customers.customer_id
            <$> customer_by_id (usage_events.customer_id e) d
          = Some cid)
  end.
Proof.
  intros Ea Hs. unfold spend_row_of.
  destruct (agent_by_id (usage_events.agent_id e) d) as [a'|] eqn:Ea'.
  - destruct (customer_by_id (usage_events.customer_id e) d) as [c'|] eqn:Ec.
    + destruct (bool_decide (usage_events.user_id e = user)) eqn:E1;
        [|cbn; apply bool_decide_eq_false in E1; tauto].
      destruct (since <=? usage_events.created_at e) eqn:E2;
        [|cbn; apply Z.leb_gt in E2; intros (_ & _ & ? & _); lia].
      destruct (bool_decide (agents.status a' = active)) eqn:E3; cbn.
      * apply bool_decide_eq_true in E1, E3. apply Z.leb_le in E2.
        split; [done|]. pose proof (agent_by_id_id _ _ _ Ea') as Hid. split.
        -- intros Hg. injection Hg as H1 H2 H3 H4.
           repeat split; [done|congruence|done|cbn; congruence].
        -- intros (_ & Hu & _ & Hc).
           assert (a' = a) as -> by congruence. cbn in Hc.
           assert (customers.customer_id c' = cid) as <- by congruence.
           by rewrite Hid, Hu.
      * apply bool_decide_eq_false in E3. intros (_ & Hu & _).
        assert (a' = a) as -> by congruence. done.
    + cbn. by intros (_ & _ & _ & ?).
  - intros (_ & Hu & _). subst u. congruence.
Qed.

Lemma total_cost_spent (user : nat) (since : Z) (d : Database)
  (u : nat) (a : agents.row) (cid : string) (l : list usage_events.row) :
  agent_by_id u d = Some a -> agents.status a = active ->
  total_cost (u, agents.agent_id a, agents.agent_name a, cid)
    (omap (spend_row_of user since d) l)
  = foldr Z.add 0
      (map usage_events.cost_amount
         (filter (fun e => usage_events.user_id e = user
                           /\ usage_events.agent_id e = u
                           /\ since <= usage_events.created_at e
                           /\ customers.customer_id
                                <$> customer_by_id
                                      (usage_events.customer_id e) d
                              = Some cid) l)).
Proof.
  intros Ea Hs. unfold total_cost.
  induction l as [|e l IH]; [done|].
  pose proof (spend_row_of_group user since d e u a cid Ea Hs) as He.
  cbn [omap list_omap]. rewrite (filter_cons _ e).
  destruct (spend_row_of user since d e) as [[g c]|].
  - destruct He as [-> Hg]. rewrite filter_cons. cbn [fst].
    destruct (decide (g = _)) as [Hd|Hd].
    + rewrite decide_True by (by apply Hg). cbn. by rewrite IH.
    + rewrite decide_False by (intros Hp; by apply Hd, Hg). exact IH.
  - by rewrite decide_False.
Qed.

Lemma total_cost_positive (g : spend_group) (l : list (spend_group * Z)) :
  0 < total_cost g l -> g ∈ map fst l.
Proof.
  unfold total_cost. intros Hpos.
  destruct (filter (fun x => x.1 = g) l) as [|x k] eqn:E; [cbn in Hpos; lia|].
  assert (Hx : x ∈ filter (fun x => x.1 = g) l) by (rewrite E; by left).
  apply list_elem_of_filter in Hx as [Hg Hx].
  apply list_elem_of_fmap. by exists x.
Qed.

Lemma spendRateQuery_row (user : nat) (since threshold : Z) (d : Database)
  (row : spend_group * Z * nat) :
  row ∈ spendRateQuery user since threshold d <->
  row.1.1 ∈ map fst (omap (spend_row_of user since d) (usage_events d))
  /\ threshold
     < total_cost row.1.1 (omap (spend_row_of user since d) (usage_events d))
  /\ row.1.2
     = total_cost row.1.1 (omap (spend_row_of user since d) (usage_events d))
  /\ row.2
     = event_count row.1.1
         (omap (spend_row_of user since d) (usage_events d)).
Proof.
  unfold spendRateQuery. rewrite list_elem_of_omap. split.
  - intros (g & Hg & Hrow). rewrite elem_of_remove_dups in Hg.
    destruct (threshold <? _) eqn:E; [|done]. simplify_eq. cbn.
    apply Z.ltb_lt in E. done.
  - intros (Hg & Hlt & Ht & Hn). exists row.1.1.
    rewrite elem_of_remove_dups. split; [done|].
    apply Z.ltb_lt in Hlt. rewrite Hlt. destruct row as [[g t] n].
    cbn in *. by subst.
Qed.

Lemma kills_frame {X : Type} (kill_one : Database -> X -> Database)
  (rows : list X) (d : Database) :
  (forall d x, usage_events (kill_one d x) = usage_events d
               /\ customers (kill_one d x) = customers d) ->
  usage_events (foldl kill_one d rows) = usage_events d
  /\ customers (foldl kill_one d rows) = customers d.
Proof.
  intros Hf. revert d. induction rows as [|x rows IH]; intros d; [done|].
  cbn [foldl]. destruct (IH (kill_one d x)) as [-> ->]. apply Hf.
Qed.

Lemma spend_row_of_some (user : nat) (since : Z) (d : Database)
  (e : usage_events.row) (g : spend_group) (c : Z) :
  spend_row_of user since d e = Some (g, c) ->
  exists a cid, agent_by_id g.1.1.1 d = Some a
    /\ agents.status a = active
    /\ g = (g.1.1.1, agents.agent_id a, agents.agent_name a, cid).
Proof.
  unfold spend_row_of. intros E.
  destruct (agent_by_id (usage_events.agent_id e) d) as [a|] eqn:Ea;
    [|done].
  destruct (customer_by_id _ d) as [c'|]; [|done].
  destruct (_ && _) eqn:Ec; [|done]. simplify_eq. cbn.
  apply andb_prop in Ec as [_ Hs%bool_decide_eq_true].
  exists a, (customers.customer_id c').
  pose proof (agent_by_id_id _ _ _ Ea) as Hid. rewrite Hid. done.
Qed.

Lemma spent_since_frame (user : nat) (since : Z) (u : nat) (cid : string)
  (d d' : Database) :
  usage_events d' = usage_events d -> customers d' = customers d ->
  spent_since user since u cid d' = spent_since user since u cid d.
Proof.
  intros Hu Hc. unfold spent_since, customer_by_id. by rewrite Hu, Hc.
Qed.

Lemma checkSpendRateTrigger_frame (now : Z) (t : kill_switch_triggers.row)
  (d : Database) :
  usage_events (checkSpendRateTrigger now t d) = usage_events d
  /\ customers (checkSpendRateTrigger now t d) = customers d.
Proof.
  unfold checkSpendRateTrigger.
  destruct (timeWindow now t) as [since|]; [|done].
  destruct (kill_switch_triggers.threshold_value t) as [thr|]; [|done].
  by apply kills_frame.
Qed.

Lemma spend_kill_by_id (now : Z) (t : kill_switch_triggers.row) (thr : Z)
  (u : nat) (d : Database) (x : spend_group * Z * nat) :
  agent_by_id u (spend_kill now t thr d x)
  = (fun r => if bool_decide (agents.id r = x.1.1.1.1.1)
                 && bool_decide (agents.status r = active)
              then auto_kill now
                     (decimal_reason (kill_switch_triggers.trigger_name t)
                        (kill_switch_triggers.trigger_type t) thr) r
              else r)
    <$> agent_by_id u d.
Proof. apply triggerAutoKill_decimal_by_id. Qed.

(** One trigger: it kills an active agent that has spent more than the
    threshold for one customer in the window, and leaves alone an agent
    that is not active or has not. *)
Lemma checkSpendRateTrigger_rule (now : Z) (t : kill_switch_triggers.row)
  (since thr : Z) (u : nat) (a : agents.row) (d : Database) :
  timeWindow now t = Some since ->
  kill_switch_triggers.threshold_value t = Some thr ->
  agent_by_id u d = Some a ->
  (agents.status a = active -> 0 <= thr ->
   (exists cid,
      thr < spent_since (kill_switch_triggers.user_id t) since u cid d) ->
   agent_by_id u (checkSpendRateTrigger now t d)
   = Some (auto_kill now
             (decimal_reason (kill_switch_triggers.trigger_name t)
                (kill_switch_triggers.trigger_type t) thr) a))
  /\ ((agents.status a = active ->
       forall cid,
         spent_since (kill_switch_triggers.user_id t) since u cid d <= thr) ->
      agent_by_id u (checkSpendRateTrigger now t d) = Some a).
Proof.
  intros Hw Ht Ea. unfold checkSpendRateTrigger. rewrite Hw, Ht.
  pose proof (spend_kill_by_id now t thr) as Hone.
  split.
  - intros Hs Hpos (cid & Hlt).
    destruct (kills_active now (spend_kill now t thr)
                (fun x => x.1.1.1.1.1) _ Hone u
                (spendRateQuery (kill_switch_triggers.user_id t) since thr d)
                d a Ea Hs) as (x & _ & _ & Hres); [|exact Hres].
    set (g := (u, agents.agent_id a, agents.agent_name a, cid)).
    set (joined := omap (spend_row_of (kill_switch_triggers.user_id t) since
                           d) (usage_events d)).
    assert (Htot : total_cost g joined
                   = spent_since (kill_switch_triggers.user_id t) since u
                       cid d).
    { by apply total_cost_spent. }
    exists (g, total_cost g joined, event_count g joined).
    split; [|done]. apply spendRateQuery_row. cbn [fst snd].
    fold joined. split; [|split; [lia|done]].
    apply total_cost_positive. lia.
  - intros Hle.
    rewrite (kills_others now (spend_kill now t thr)
               (fun x => x.1.1.1.1.1) _ Hone); [done|].
    intros row Hrow Hu.
    apply spendRateQuery_row in Hrow as (Hg & Hlt & _).
    apply list_elem_of_fmap in Hg as ([g c] & Hgc & Hin).
    apply list_elem_of_omap in Hin as (e & _ & He).
    apply spend_row_of_some in He as (a' & cid & Ha' & Hs' & Hgeq).
    cbn [fst] in Hgc. subst g. rewrite Hu in Ha', Hgeq.
    assert (a' = a) as -> by congruence.
    rewrite Hgeq, (total_cost_spent _ _ _ _ _ cid _ Ea Hs') in Hlt.
    specialize (Hle Hs' cid). unfold spent_since in Hle. lia.
Qed.

Lemma timeWindow_some (now : Z) (t : kill_switch_triggers.row) (since : Z) :
  timeWindow now t = Some since ->
  kill_switch_triggers.trigger_type t = "spend_rate"
  \/ kill_switch_triggers.trigger_type t = "total_daily_spend".
Proof.
  unfold timeWindow. repeat case_bool_decide; intros; simplify_eq; auto.
Qed.

Lemma checkSpendRateTrigger_cases (now : Z) (t : kill_switch_triggers.row)
  (u : nat) (a : agents.row) (d : Database) :
  agent_by_id u d = Some a ->
  agent_by_id u (checkSpendRateTrigger now t d) = Some a
  \/ exists thr, kill_switch_triggers.threshold_value t = Some thr
       /\ agent_by_id u (checkSpendRateTrigger now t d)
          = Some (auto_kill now
                    (decimal_reason (kill_switch_triggers.trigger_name t)
                       (kill_switch_triggers.trigger_type t) thr) a).
Proof.
  intros Ea. unfold checkSpendRateTrigger.
  destruct (timeWindow now t) as [since|]; [|by left].
  destruct (kill_switch_triggers.threshold_value t) as [thr|]; [|by left].
  generalize (spendRateQuery (kill_switch_triggers.user_id t) since thr d).
  intros rows. revert d Ea.
  induction rows as [|x rows IH]; intros d Ea; [by left|].
  cbn [foldl].
  pose proof (spend_kill_by_id now t thr u d x) as H1.
  rewrite Ea in H1. cbn in H1.
  destruct (_ && _) eqn:E.
  - right. exists thr. split; [done|].
    apply (kills_inactive now (spend_kill now t thr) (fun x => x.1.1.1.1.1)
             _ (spend_kill_by_id now t thr)); [exact H1|done].
  - destruct (IH _ H1) as [H|(thr' & Ht & H)]; [by left|right].
    exists thr'. by simplify_eq.
Qed.

Lemma checkSpendRates_inactive (now : Z)
  (ts : list kill_switch_triggers.row) (u : nat) (a : agents.row)
  (d : Database) :
  agent_by_id u d = Some a -> agents.status a <> active ->
  agent_by_id u (foldl (fun d t => checkSpendRateTrigger now t d) d ts)
  = Some a.
Proof.
  revert d. induction ts as [|t ts IH]; intros d Ea Hs; [done|].
  cbn [foldl]. apply IH; [|done].
  unfold checkSpendRateTrigger.
  destruct (timeWindow now t) as [since|]; [|done].
  destruct (kill_switch_triggers.threshold_value t) as [thr|]; [|done].
  by apply (kills_inactive now (spend_kill now t thr)
              (fun x => x.1.1.1.1.1) _ (spend_kill_by_id now t thr)).
Qed.

(** X23.  The spend rules of the monitor.  [checkSpendRates] kills an
    active agent when some active trigger of type spend_rate
    or total_daily_spend has a threshold that the agent has exceeded, in
    events of the user of the trigger, for one customer, since the start
    of the window of the trigger (one minute or one hour before the
    tick, or the start of the day): the agent ends killed, with the
    reason of one of the active triggers.  It leaves unchanged an agent
    that has not exceeded the threshold of any active trigger for any
    single customer: the sums are taken by agent and customer, and
    inactive triggers do not count. *)
Theorem spend_rate_rule (now : Z) (triggers : list kill_switch_triggers.row)
  (u : nat) (a : agents.row) (d : Database) :
  agent_by_id u d = Some a ->
  (agents.status a = active ->
   (exists t since thr cid,
      t ∈ triggers /\ kill_switch_triggers.is_active t = true
      /\ timeWindow now t = Some since
      /\ kill_switch_triggers.threshold_value t = Some thr /\ 0 <= thr
      /\ thr < spent_since (kill_switch_triggers.user_id t) since u cid d) ->
   exists t thr,
     t ∈ triggers /\ kill_switch_triggers.is_active t = true
     /\ kill_switch_triggers.threshold_value t = Some thr
     /\ agent_by_id u (checkSpendRates now triggers d)
        = Some (auto_kill now
                  (decimal_reason (kill_switch_triggers.trigger_name t)
                     (kill_switch_triggers.trigger_type t) thr) a))
  /\ ((forall t since thr cid,
         t ∈ triggers -> kill_switch_triggers.is_active t = true ->
         timeWindow now t = Some since ->
         kill_switch_triggers.threshold_value t = Some thr ->
         spent_since (kill_switch_triggers.user_id t) since u cid d <= thr) ->
      agent_by_id u (checkSpendRates now triggers d) = Some a).
Proof.
  intros Ea. unfold checkSpendRates.
  set (ts := filter _ triggers).
  assert (Hts : forall t, t ∈ ts ->
            t ∈ triggers /\ kill_switch_triggers.is_active t = true).
  { intros t Ht. apply list_elem_of_filter in Ht as [[? _] ?]. done. }
  assert (Hin : forall t since,
            t ∈ triggers -> kill_switch_triggers.is_active t = true ->
            timeWindow now t = Some since -> t ∈ ts).
  { intros t since Ht Hact Hw. apply list_elem_of_filter.
    split; [|done]. split; [done|]. by eapply timeWindow_some. }
  clearbody ts.
  assert (Hgen : forall d',
            usage_events d' = usage_events d -> customers d' = customers d ->
            agent_by_id u d' = Some a ->
            (agents.status a = active ->
             (exists t since thr cid,
                t ∈ ts /\ timeWindow now t = Some since
                /\ kill_switch_triggers.threshold_value t = Some thr
                /\ 0 <= thr
                /\ thr < spent_since (kill_switch_triggers.user_id t) since u
                           cid d) ->
             exists t thr,
               t ∈ ts /\ kill_switch_triggers.threshold_value t = Some thr
               /\ agent_by_id u
                    (foldl (fun d t => checkSpendRateTrigger now t d) d' ts)
                  = Some (auto_kill now
                            (decimal_reason
                               (kill_switch_triggers.trigger_name t)
                               (kill_switch_triggers.trigger_type t) thr) a))
            /\ ((forall t since thr cid,
                   t ∈ ts -> timeWindow now t = Some since ->
                   kill_switch_triggers.threshold_value t = Some thr ->
                   spent_since (kill_switch_triggers.user_id t) since u cid d
                   <= thr) ->
                agent_by_id u
                  (foldl (fun d t => checkSpendRateTrigger now t d) d' ts)
                = Some a)).
  { clear Hts Hin. induction ts as [|t0 ts IH]; intros d' Hu' Hc' Ea'.
    { split; [|done]. intros _ (t & ? & ? & ? & Ht & _).
      by apply elem_of_nil in Ht. }
    cbn [foldl].
    destruct (checkSpendRateTrigger_frame now t0 d') as [Hu1 Hc1].
    specialize (IH (checkSpendRateTrigger now t0 d')
                  (eq_trans Hu1 Hu') (eq_trans Hc1 Hc')).
    split.
    - intros Hs (t & since & thr & cid & Ht & Hw & Hthr & Hpos & Hlt).
      assert (Hkilled : forall thr0,
                agent_by_id u (checkSpendRateTrigger now t0 d')
                = Some (auto_kill now
                          (decimal_reason
                             (kill_switch_triggers.trigger_name t0)
                             (kill_switch_triggers.trigger_type t0) thr0) a)
                -> kill_switch_triggers.threshold_value t0 = Some thr0 ->
                exists t thr,
                  t ∈ t0 :: ts
                  /\ kill_switch_triggers.threshold_value t = Some thr
                  /\ agent_by_id u
                       (foldl (fun d t => checkSpendRateTrigger now t d)
                          (checkSpendRateTrigger now t0 d') ts)
                     = Some (auto_kill now
                               (decimal_reason
                                  (kill_switch_triggers.trigger_name t)
                                  (kill_switch_triggers.trigger_type t) thr)
                               a)).
      { intros thr0 H0 Ht0. exists t0, thr0. split; [by left|].
        split; [done|]. by apply checkSpendRates_inactive. }
      apply elem_of_cons in Ht as [->|Ht].
      + apply (Hkilled thr); [|done].
        apply (checkSpendRateTrigger_rule now t0 since thr u a d' Hw Hthr
                 Ea'); [done..|].
        exists cid. by rewrite (spent_since_frame _ _ _ _ d d').
      + destruct (checkSpendRateTrigger_cases now t0 u a d' Ea')
          as [H0|(thr0 & Ht0 & H0)]; [|by apply (Hkilled thr0)].
        destruct (IH H0) as [IH1 _].
        destruct IH1 as (t' & thr' & Ht' & Hthr' & Hres);
          [done|by exists t, since, thr, cid|].
        exists t', thr'. split; [by right|]. done.
    - intros Hle.
      assert (H0 : agent_by_id u (checkSpendRateTrigger now t0 d') = Some a).
      { destruct (timeWindow now t0) as [since|] eqn:Hw;
          [|by unfold checkSpendRateTrigger; rewrite Hw].
        destruct (kill_switch_triggers.threshold_value t0) as [thr|] eqn:Ht;
          [|by unfold checkSpendRateTrigger; rewrite Hw, Ht].
        apply (checkSpendRateTrigger_rule now t0 since thr u a d' Hw Ht Ea').
        intros _ cid. rewrite (spent_since_frame _ _ _ _ d d') by done.
        eapply Hle; [by left|done..]. }
      destruct (IH H0) as [_ IH2]. apply IH2.
      intros t since thr cid Ht. apply Hle. by right. }
  destruct (Hgen d eq_refl eq_refl Ea) as [H1 H2]. split.
  - intros Hs (t & since & thr & cid & Ht & Hact & Hw & Hthr & Hpos & Hlt).
    destruct H1 as (t' & thr' & Ht' & Hthr' & Hres);
      [done|exists t, since, thr, cid; eauto 10|].
    exists t', thr'. destruct (Hts t' Ht'). done.
  - intros Hle. apply H2. intros t since thr cid Ht.
    destruct (Hts t Ht). by apply Hle.
Qed.

(** User 1 has a trigger of 100 dollars per minute; the agent without a
    limit has spent 125 dollars for one customer in the last second. *)
Lemma spend_rate_rule_witness :
  let t := kill_switch_triggers.mk 1 1 "High Spend Rate Protection"
             "spend_rate" (Some (usd 100)) (Some "per_minute") true in
  let d := mkDatabase [agent_x; agent_free]
             [customers.mk 1 1 "customer-1" "customer-1"]
             (map (fun i => example_row i 2 (usd 25) (t0 - 1000) "gpt-4" None)
                (seq 1 5))
             [] not_stopped in
  agents.status <$> agent_by_id 2 (checkSpendRates t0 [t] d) = Some killed.
Proof.
  intros t d.
  destruct (proj1 (spend_rate_rule t0 [t] 2 agent_free d eq_refl) eq_refl)
    as (t' & thr' & _ & _ & _ & ->); [|reflexivity].
  exists t, (t0 - 60000), (usd 100), "customer-1".
  split; [by left|]. split; [reflexivity|]. split; [reflexivity|].
  split; [reflexivity|]. split; [vm_compute; discriminate|].
  vm_compute. reflexivity.
Defined.

(** ** The monitor: error rates *)

Lemma error_kill_by_id (now : Z) (u : nat) (d : Database)
  (x : stats_group * nat * nat * Z) :
  agent_by_id u (error_kill now d x)
  = (fun r => if bool_decide (agents.id r = x.1.1.1.1.1)
                 && bool_decide (agents.status r = active)
              then auto_kill now
                     (decimal_reason "Auto Error Rate Detection" "error_rate"
                        x.2) r
              else r)
    <$> agent_by_id u d.
Proof. apply triggerAutoKill_decimal_by_id. Qed.

Lemma stats_row_of_group (now : Z) (d : Database) (e : usage_events.row)
  (u : nat) (a : agents.row) :
  agent_by_id u d = Some a -> agents.status a = active ->
  match stats_row_of now d e with
  | Some (g, b) =>
    b = bool_decide (is_Some (usage_events.error e))
    /\ (g = (u, agents.agent_id a, agents.user_id a)
        <-> usage_events.agent_id e = u
            /\ now - 900000 <= usage_events.created_at e)
  | None =>
    ~ (usage_events.agent_id e = u
       /\ now - 900000 <= usage_events.created_at e)
  end.
Proof.
  intros Ea Hs. unfold stats_row_of.
  destruct (agent_by_id (usage_events.agent_id e) d) as [a'|] eqn:Ea'.
  - destruct (now - 900000 <=? usage_events.created_at e) eqn:E2;
      [|cbn; apply Z.leb_gt in E2; intros [_ ?]; lia].
    destruct (bool_decide (agents.status a' = active)) eqn:E3; cbn.
    + apply bool_decide_eq_true in E3. apply Z.leb_le in E2.
      split; [done|]. pose proof (agent_by_id_id _ _ _ Ea') as Hid. split.
      * intros Hg. injection Hg as H1 H2 H3. split; [congruence|done].
      * intros [Hu _]. assert (a' = a) as -> by congruence.
        by rewrite Hid, Hu.
    + apply bool_decide_eq_false in E3. intros [Hu _].
      assert (a' = a) as -> by congruence. done.
  - intros [Hu _]. subst u. congruence.
Qed.

Lemma stats_row_of_some (now : Z) (d : Database) (e : usage_events.row)
  (g : stats_group) (b : bool) :
  stats_row_of now d e = Some (g, b) ->
  exists a, agent_by_id g.1.1 d = Some a /\ agents.status a = active
            /\ g = (g.1.1, agents.agent_id a, agents.user_id a).
Proof.
  unfold stats_row_of. intros E.
  destruct (agent_by_id (usage_events.agent_id e) d) as [a|] eqn:Ea;
    [|done].
  destruct (_ && _) eqn:Ec; [|done]. simplify_eq. cbn.
  apply andb_prop in Ec as [_ Hs%bool_decide_eq_true].
  exists a. pose proof (agent_by_id_id _ _ _ Ea) as Hid. rewrite Hid. done.
Qed.

Lemma stats_counts (now : Z) (d : Database) (u : nat) (a : agents.row)
  (l : list usage_events.row) :
  agent_by_id u d = Some a -> agents.status a = active ->
  let g := (u, agents.agent_id a, agents.user_id a) in
  total_requests g (omap (stats_row_of now d) l)
  = length (filter (fun e => usage_events.agent_id e = u
                             /\ now - 900000 <= usage_events.created_at e) l)
  /\ error_count g (omap (stats_row_of now d) l)
     = length (filter (fun e => is_Some (usage_events.error e))
                 (filter (fun e => usage_events.agent_id e = u
                                   /\ now - 900000
                                      <= usage_events.created_at e) l)).
Proof.
  intros Ea Hs. cbn zeta. unfold total_requests, error_count.
  induction l as [|e l [IH1 IH2]]; [done|].
  pose proof (stats_row_of_group now d e u a Ea Hs) as He.
  cbn [omap list_omap]. rewrite (filter_cons _ e).
  destruct (stats_row_of now d e) as [[g b]|].
  - destruct He as [-> Hg]. rewrite !(filter_cons _ (g, _)). cbn [fst snd].
    destruct (decide (g = _)) as [Hd|Hd].
    + rewrite (decide_True (P := _ /\ now - 900000 <= _)) by (by apply Hg).
      rewrite filter_cons. cbn [length]. rewrite IH1. split; [done|].
      destruct (decide (is_Some (usage_events.error e))) as [He|He].
      * rewrite decide_True by (by rewrite bool_decide_true).
        cbn [length]. by rewrite IH2.
      * rewrite decide_False; [done|].
        rewrite bool_decide_false by done. by intros [_ ?].
    + rewrite (decide_False (P := _ /\ now - 900000 <= _))
        by (intros Hp; by apply Hd, Hg).
      rewrite decide_False by (by intros [? _]). done.
  - by rewrite decide_False.
Qed.

Lemma total_requests_positive (g : stats_group)
  (l : list (stats_group * bool)) :
  (0 < total_requests g l)%nat -> g ∈ map fst l.
Proof.
  unfold total_requests. intros Hpos.
  destruct (filter (fun x => x.1 = g) l) as [|x k] eqn:E; [cbn in Hpos; lia|].
  assert (Hx : x ∈ filter (fun x => x.1 = g) l) by (rewrite E; by left).
  apply list_elem_of_filter in Hx as [Hg Hx].
  apply list_elem_of_fmap. by exists x.
Qed.

Lemma errorRateQuery_row (now : Z) (triggers : list kill_switch_triggers.row)
  (d : Database) (row : stats_group * nat * nat * Z) :
  row ∈ errorRateQuery now triggers d <->
  let joined := omap (stats_row_of now d) (usage_events d) in
  row.1.1.1 ∈ map fst joined
  /\ (10 <= row.1.1.2)%nat
  /\ row.1.1.2 = total_requests row.1.1.1 joined
  /\ row.1.2 = error_count row.1.1.1 joined
  /\ exists t, t ∈ triggers
       /\ kill_switch_triggers.threshold_value t = Some row.2
       /\ kill_switch_triggers.user_id t = row.1.1.1.2
       /\ kill_switch_triggers.trigger_type t = "error_rate"
       /\ kill_switch_triggers.is_active t = true
       /\ row.2 * Z.of_nat row.1.1.2 < Z.of_nat row.1.2 * 100 * 1000000.
Proof.
  unfold errorRateQuery. cbn zeta.
  rewrite list_elem_of_In, in_flat_map. split.
  - intros (ast & Hast%list_elem_of_In & Hrow%list_elem_of_In).
    apply list_elem_of_omap in Hast as (g & Hg & Hast).
    rewrite elem_of_remove_dups in Hg.
    destruct (10 <=? _)%nat eqn:E; [|done]. simplify_eq.
    apply Nat.leb_le in E.
    apply list_elem_of_omap in Hrow as (t & Ht & Hrow).
    destruct (kill_switch_triggers.threshold_value t) as [thr|] eqn:Hthr;
      [|done].
    destruct (_ && _) eqn:Ec; [|done]. simplify_eq. cbn [fst snd] in *.
    apply andb_prop in Ec as [Ec Hex]. apply andb_prop in Ec as [Ec Hact].
    apply andb_prop in Ec as [Hu%bool_decide_eq_true Hty%bool_decide_eq_true].
    apply Z.ltb_lt in Hex.
    repeat split; try done. exists t. repeat split; done.
  - intros (Hg & Hten & Htot & Herr & t & Ht & Hthr & Hu & Hty & Hact & Hex).
    destruct row as [[[g total] errors] thr]. cbn [fst snd] in *.
    exists (g, total, errors). split; apply list_elem_of_In.
    + apply list_elem_of_omap. exists g.
      rewrite elem_of_remove_dups. split; [done|].
      rewrite <- Htot. apply Nat.leb_le in Hten. rewrite Hten. by subst.
    + apply list_elem_of_omap. exists t. split; [done|].
      rewrite Hthr. cbn [fst snd].
      rewrite !bool_decide_true by done. rewrite Hact.
      unfold error_rate_exceeds. apply Z.ltb_lt in Hex. by rewrite Hex.
Qed.

(** X24.  The error rule of the monitor.  [checkErrorRates] kills an
    active agent that has at least 10 events in the last 15 minutes,
    when the user of the agent has an active trigger of type error_rate
    and the share of these events that report an error, in percent,
    exceeds the threshold of the trigger.  An agent with fewer than 10
    events in the window is left unchanged whatever its errors, and so
    is an agent whose error rate exceeds the threshold of no active
    error_rate trigger of its user. *)
Theorem error_rate_rule (now : Z) (triggers : list kill_switch_triggers.row)
  (u : nat) (a : agents.row) (d : Database) :
  agent_by_id u d = Some a ->
  let total := length (recent_events now u d) in
  let errors := length (recent_errors now u d) in
  (agents.status a = active -> (10 <= total)%nat ->
   (exists t thr,
      t ∈ triggers
      /\ kill_switch_triggers.user_id t = agents.user_id a
      /\ kill_switch_triggers.trigger_type t = "error_rate"
      /\ kill_switch_triggers.is_active t = true
      /\ kill_switch_triggers.threshold_value t = Some thr
      /\ thr * Z.of_nat total < Z.of_nat errors * 100 * 1000000) ->
   exists thr,
     agent_by_id u (checkErrorRates now triggers d)
     = Some (auto_kill now
               (decimal_reason "Auto Error Rate Detection" "error_rate" thr)
               a))
  /\ ((total < 10)%nat
      \/ (forall t thr,
            t ∈ triggers ->
            kill_switch_triggers.user_id t = agents.user_id a ->
            kill_switch_triggers.trigger_type t = "error_rate" ->
            kill_switch_triggers.is_active t = true ->
            kill_switch_triggers.threshold_value t = Some thr ->
            Z.of_nat errors * 100 * 1000000 <= thr * Z.of_nat total) ->
      agent_by_id u (checkErrorRates now triggers d) = Some a).
Proof.
  intros Ea total errors. unfold checkErrorRates.
  pose proof (error_kill_by_id now) as Hone.
  split.
  - intros Hs Hten (t & thr & Ht & Hu & Hty & Hact & Hthr & Hex).
    destruct (stats_counts now d u a (usage_events d) Ea Hs) as [Htot Herr].
    cbn zeta in Htot, Herr.
    destruct (kills_active now (error_kill now) (fun x => x.1.1.1.1.1) _
                Hone u (errorRateQuery now triggers d) d a Ea Hs)
      as (x & _ & _ & Hres); [|by exists x.2].
    exists (u, agents.agent_id a, agents.user_id a, total, errors, thr).
    split; [|done]. apply errorRateQuery_row. cbn [fst snd].
    split; [|split; [done|split; [by rewrite Htot|split; [by rewrite Herr|]]]].
    + apply total_requests_positive. rewrite Htot. fold (recent_events now u d).
      fold total. lia.
    + exists t. repeat split; done.
  - intros Hno.
    rewrite (kills_others now (error_kill now) (fun x => x.1.1.1.1.1) _ Hone);
      [done|].
    intros row Hrow Hu.
    apply errorRateQuery_row in Hrow.
    destruct Hrow as (Hg & Hten & Htot & Herr & t & Ht & Hthr & Hut & Hty
                      & Hact & Hex).
    apply list_elem_of_fmap in Hg as ([g b] & Hgb & Hin).
    apply list_elem_of_omap in Hin as (e & _ & He).
    apply stats_row_of_some in He as (a' & Ha' & Hs' & Hgeq).
    cbn [fst] in Hgb. subst g. rewrite Hu in Ha', Hgeq.
    assert (a' = a) as -> by congruence.
    destruct (stats_counts now d u a (usage_events d) Ea Hs') as [Htot' Herr'].
    cbn zeta in Htot', Herr'. rewrite Hgeq in Htot, Herr, Hut.
    rewrite Htot' in Htot. rewrite Herr' in Herr. cbn [snd] in Hut.
    fold (recent_events now u d) in Htot, Herr.
    fold (recent_errors now u d) in Herr. fold total in Htot.
    fold errors in Herr.
    destruct Hno as [Hlt|Hle]; [lia|].
    specialize (Hle t row.2 Ht Hut Hty Hact Hthr).
    rewrite Htot, Herr in Hex. lia.
Qed.

(** User 1 has a trigger of 20 percent; the agent without a limit has
    10 events in the last second, 3 of them with an error; with 9
    events, all of them with an error, it is left alone. *)
Lemma error_rate_rule_witness :
  let t := kill_switch_triggers.mk 1 1 "Error Rate Protection" "error_rate"
             (Some 20000000) (Some "percentage") true in
  let d := ledger_world
             (map (fun i => failed_row i 2 (t0 - 1000)) (seq 1 3)
              ++ map (fun i => example_row i 2 10000 (t0 - 1000) "gpt-4" None)
                   (seq 4 7)) in
  let d9 := ledger_world
              (map (fun i => failed_row i 2 (t0 - 1000)) (seq 1 9)) in
  agents.status <$> agent_by_id 2 (checkErrorRates t0 [t] d) = Some killed
  /\ agent_by_id 2 (checkErrorRates t0 [t] d9) = Some agent_free.
Proof.
  intros t d d9. split.
  - destruct (proj1 (error_rate_rule t0 [t] 2 agent_free d eq_refl) eq_refl)
      as (thr & ->); [vm_compute; lia| |reflexivity].
    exists t, 20000000. split; [by left|].
    repeat (split; [reflexivity|]). vm_compute. reflexivity.
  - apply (error_rate_rule t0 [t] 2 agent_free d9 eq_refl).
    left. vm_compute. lia.
Defined.

(** ** The manual routes on one agent *)

Lemma unique_agent_id_row (d : Database) (r1 r2 : agents.row) :
  unique_agent_id d -> r1 ∈ agents d -> r2 ∈ agents d ->
  agents.user_id r1 = agents.user_id r2 ->
  agents.agent_id r1 = agents.agent_id r2 -> r1 = r2.
Proof.
  unfold unique_agent_id.
  induction (agents d) as [|r l IH]; intros Hnd H1 H2 Hu Hi.
  - by apply not_elem_of_nil in H1.
  - cbn [map] in Hnd. apply NoDup_cons in Hnd as [Hr Hnd].
    apply elem_of_cons in H1 as [->|H1], H2 as [->|H2]; auto.
    + exfalso. apply Hr. rewrite Hu, Hi.
      apply (list_elem_of_fmap_2
               (fun r => (agents.user_id r, agents.agent_id r))). done.
    + exfalso. apply Hr. rewrite <- Hu, <- Hi.
      apply (list_elem_of_fmap_2
               (fun r => (agents.user_id r, agents.agent_id r))). done.
Qed.

Lemma owned_row (user : nat) (agentId : string) (d : Database)
  (a r : agents.row) :
  unique_agent_id d -> agent_by_external agentId user d = Some a ->
  r ∈ agents d -> owned user agentId r = true -> r = a.
Proof.
  intros Hu Ea Hr Ho. apply select_some in Ea as [Ha [Hi Hus]].
  unfold owned in Ho.
  apply andb_prop in Ho as [H1%bool_decide_eq_true H2%bool_decide_eq_true].
  eapply unique_agent_id_row; eauto; congruence.
Qed.

(** X25.  The manual routes change the status of an agent along three
    transitions and audit exactly those.  For the one agent that a
    request names: POST /kill-agent kills it unless it is killed already
    (status killed, with the reason, the time and the user of the
    request), POST /pause-agent pauses it if it is active (status
    paused, until the minutes of the request have passed), POST
    /revive-agent makes it active if it is killed or paused (status
    active, the reason, time and user of the kill and the end of the
    pause cleared); each of them then answers 200 and appends one audit
    record, and leaves the suspension flag and the limit as they were.
    Otherwise the request is answered with 404 and the database is left
    as it was, the audit table included.  A revival with [reason: null]
    changes the row in the same way, but appends no audit record and is
    answered with 500. *)
Theorem manual_transitions (user : nat) (now : Z) (agentId : string)
  (a : agents.row) (d : Database) :
  unique_agent_id d -> agent_by_external agentId user d = Some a ->
  (forall reason why,
     required_text "reason" 500 reason = inr why ->
     let '(d', r) := kill_agent user now agentId reason d in
     if bool_decide (agents.status a = killed)
     then d' = d /\ http_status r = 404%nat
     else http_status r = 200%nat
          /\ (exists a', agent_by_external agentId user d' = Some a'
                /\ agents.status a' = killed
                /\ agents.kill_reason a' = Some why
                /\ agents.killed_at a' = Some now
                /\ agents.killed_by a' = Some user
                /\ agents.is_suspended a' = agents.is_suspended a
                /\ agents.monthly_cost_limit a'
                   = agents.monthly_cost_limit a)
          /\ kill_switch_events d'
             = kill_switch_events d
               ++ [kill_switch_events.mk "kill_agent" "agent" (Some agentId)
                     user "manual" why now])
  /\ (forall duration_minutes reason n why,
        pauseAgentSchema duration_minutes reason = inr (n, why) ->
        let '(d', r) :=
          pause_agent user now agentId duration_minutes reason d in
        if bool_decide (agents.status a = active)
        then http_status r = 200%nat
             /\ (exists a', agent_by_external agentId user d' = Some a'
                   /\ agents.status a' = paused
                   /\ agents.pause_until a' = Some (now + n * 60000)
                   /\ agents.kill_reason a' = Some why
                   /\ agents.is_suspended a' = agents.is_suspended a
                   /\ agents.monthly_cost_limit a'
                      = agents.monthly_cost_limit a)
             /\ kill_switch_events d'
                = kill_switch_events d
                  ++ [kill_switch_events.mk "pause_agent" "agent"
                        (Some agentId) user "manual" why now]
        else d' = d /\ http_status r = 404%nat)
  /\ (forall reason,
        let '(d', r) := revive_agent user now agentId reason d in
        if bool_decide (agents.status a = active)
        then d' = d /\ http_status r = 404%nat
        else http_status r = 200%nat
             /\ (exists a', agent_by_external agentId user d' = Some a'
                   /\ agents.status a' = active
                   /\ agents.pause_until a' = None
                   /\ agents.kill_reason a' = None
                   /\ agents.killed_at a' = None
                   /\ agents.killed_by a' = None
                   /\ agents.is_suspended a' = agents.is_suspended a
                   /\ agents.monthly_cost_limit a'
                      = agents.monthly_cost_limit a)
             /\ kill_switch_events d'
                = kill_switch_events d
                  ++ [kill_switch_events.mk "revive_agent" "agent"
                        (Some agentId) user "manual"
                        (default "Manual revival" reason) now])
  /\ (let '(d', r) := revive_agent_null user agentId d in
      if bool_decide (agents.status a = active)
      then d' = d /\ http_status r = 404%nat
      else http_status r = 500%nat
           /\ (exists a', agent_by_external agentId user d' = Some a'
                 /\ agents.status a' = active
                 /\ agents.pause_until a' = None)
           /\ kill_switch_events d' = kill_switch_events d).
Proof.
  intros Hu Ea.
  assert (Hrev : agents.status a <> active ->
            forall c, c = (fun r => owned user agentId r
                                    && (bool_decide (agents.status r = killed)
                                        || bool_decide (agents.status r
                                                        = paused))) ->
            map revive (List.filter c (agents d)) <> []
            /\ agent_by_external agentId user (update_agents c revive d)
               = Some (revive a)).
  { intros Hs c ->.
    destruct (agent_by_external_keys _ _ _ _ Ea) as [Hi Hus].
    apply select_some in Ea as Hin. destruct Hin as [Hin _].
    set (c := fun r => owned user agentId r
                       && (bool_decide (agents.status r = killed)
                           || bool_decide (agents.status r = paused))).
    assert (Hc : c a = true).
    { unfold c, owned. rewrite !bool_decide_true by done.
      destruct (agents.status a); done. }
    split.
    - intros E. apply map_eq_nil in E. by eapply filter_found.
    - rewrite agent_by_external_update by apply keeps_keys_revive.
      by rewrite Ea; cbn; rewrite Hc. }
  split; [|split; [|split]].
  - intros reason why Hr. case_bool_decide as Hs.
    + unfold kill_agent. rewrite Hr.
      rewrite update_returning_idle; [done|].
      intros r Hin. destruct (owned user agentId r) eqn:Eo; [|done].
      rewrite (owned_row _ _ _ _ _ Hu Ea Hin Eo).
      by rewrite bool_decide_true.
    + pose proof (kill_agent_effective user now agentId why reason a d Hr
                    Ea Hs) as H.
      destruct (kill_agent user now agentId reason d) as [d' r].
      destruct H as (H1 & H2 & H3). split; [done|]. split; [|done].
      exists (kill now user why a). by rewrite H2.
  - intros duration_minutes reason n why Hr. case_bool_decide as Hs.
    + pose proof (pause_agent_effective user now n agentId why
                    duration_minutes reason a d Hr Ea Hs) as H.
      destruct (pause_agent user now agentId duration_minutes reason d)
        as [d' r].
      destruct H as (H1 & H2 & H3). split; [done|]. split; [|done].
      exists (pause (now + n * 60000) why a). by rewrite H2.
    + unfold pause_agent. rewrite Hr.
      rewrite update_returning_idle; [done|].
      intros r Hin. destruct (owned user agentId r) eqn:Eo; [|done].
      rewrite (owned_row _ _ _ _ _ Hu Ea Hin Eo).
      by rewrite bool_decide_false.
  - intros reason. case_bool_decide as Hs.
    + rewrite revive_agent_already_active; [done|].
      intros r Hin Eo. by rewrite (owned_row _ _ _ _ _ Hu Ea Hin Eo).
    + unfold revive_agent, update_returning.
      destruct (Hrev Hs _ eq_refl) as [Hne Hrow].
      destruct (map revive (List.filter _ (agents d))) as [|x rows];
        [done|].
      unfold logKillSwitchEvent. cbn [http_status resp_ok].
      split; [done|]. split; [|done].
      exists (revive a). split; [exact Hrow|done].
  - case_bool_decide as Hs.
    + unfold revive_agent_null.
      rewrite update_returning_idle; [done|].
      intros r Hin. destruct (owned user agentId r) eqn:Eo; [|done].
      rewrite (owned_row _ _ _ _ _ Hu Ea Hin Eo), Hs. done.
    + unfold revive_agent_null, update_returning.
      destruct (Hrev Hs _ eq_refl) as [Hne Hrow].
      destruct (map revive (List.filter _ (agents d))) as [|x rows];
        [done|].
      split; [done|]. split; [|done].
      exists (revive a). split; [exact Hrow|done].
Qed.

(** The killed agent of the mixed example world cannot be paused, and
    is revived. *)
Lemma manual_transitions_witness :
  (let '(d', r) :=
     pause_agent 1 t0 "agent-dead" (Some 5) (Some "maintenance")
       (db world_mixed) in
   d' = db world_mixed /\ http_status r = 404%nat)
  /\ (let '(d', r) := revive_agent 1 t0 "agent-dead" None (db world_mixed) in
      http_status r = 200%nat
      /\ agents.status <$> agent_by_external "agent-dead" 1 d' = Some active)
  /\ (let '(d', r) := revive_agent_null 1 "agent-dead" (db world_mixed) in
      http_status r = 500%nat
      /\ agents.status <$> agent_by_external "agent-dead" 1 d' = Some active
      /\ kill_switch_events d' = []).
Proof.
  destruct (manual_transitions 1 t0 "agent-dead" agent_dead (db world_mixed))
    as (_ & H2 & H3 & H4);
    [apply (bool_decide_unpack _); vm_compute; exact I | reflexivity |].
  split; [|split].
  - exact (H2 (Some 5) (Some "maintenance") 5 "maintenance" eq_refl).
  - specialize (H3 None).
    destruct (revive_agent _ _ _ _ _) as [d' r].
    destruct H3 as (H & (a' & Ha & Hs & _) & _). split; [exact H|].
    by rewrite Ha, <- Hs.
  - destruct (revive_agent_null _ _ _) as [d' r].
    destruct H4 as (H & (a' & Ha & Hs & _) & Hk). split; [exact H|].
    split; [by rewrite Ha, <- Hs|exact Hk].
Defined.

(** ** A second tick *)

Lemma loop_kill_step (now : Z) (u : nat) (d : Database)
  (row : pattern * nat * nat) :
  agent_by_id u (loop_kill now d row)
  = (fun r => if bool_decide (agents.id r = row.1.1.1.1.1.1)
                 && bool_decide (agents.status r = active)
              then auto_kill now
                     (auto_reason
                        (trigger.mk row.2 "infinite_loop"
                           "Auto Loop Detection" (Z.of_nat row.1.2))) r
              else r)
    <$> agent_by_id u d.
Proof. destruct row as [[p n] user]. apply triggerAutoKill_by_id. Qed.

Lemma filter_length_le {A : Type} (P Q : A -> Prop)
  `{!forall x, Decision (P x)} `{!forall x, Decision (Q x)} (l : list A) :
  (forall x, P x -> Q x) -> (length (filter P l) <= length (filter Q l))%nat.
Proof.
  intros HPQ. induction l as [|x l IH]; [done|].
  rewrite !filter_cons.
  destruct (decide (P x)) as [Hp|Hp].
  - rewrite decide_True by auto. cbn. lia.
  - destruct (decide (Q x)); cbn; lia.
Qed.

(** X26.  The loop rule fires once: after a tick of [checkInfiniteLoops]
    the loop-detection query of that moment and of any later moment
    returns no row as long as no new event is recorded, so that a later
    tick changes nothing, neither an agent nor the audit table.  The
    agents with 50 identical requests are killed by the first tick, and
    the query looks at active agents only. *)
Theorem later_tick_changes_nothing (now now' : Z) (d : Database) :
  now <= now' ->
  loopDetectionQuery now' (checkInfiniteLoops now d) = []
  /\ checkInfiniteLoops now' (checkInfiniteLoops now d)
     = checkInfiniteLoops now d.
Proof.
  intros Hnow.
  assert (Hq : loopDetectionQuery now' (checkInfiniteLoops now d) = []).
  { destruct (loopDetectionQuery now' (checkInfiniteLoops now d))
      as [|[[p n] user] rows] eqn:E; [done|]. exfalso.
    assert (Hrow : (p, n, user)
                   ∈ loopDetectionQuery now' (checkInfiniteLoops now d))
      by (rewrite E; by left).
    apply loopDetectionQuery_row in Hrow as (Hp & Hn & Hcount & _).
    apply list_elem_of_omap in Hp as (e & _ & He).
    apply pattern_of_some in He as (a1 & Ha1 & Hs1 & Hext & _).
    pose proof (identical_requests_le now' (checkInfiniteLoops now d) p
                  (usage_events (checkInfiniteLoops now d))) as Hle.
    rewrite (proj1 (checkInfiniteLoops_frame now d)) in Hle, Hcount.
    rewrite <- Hcount in Hle.
    pose proof (filter_length_le
                  (repeats now' p.1.1.1.1 p.1.1.2 p.1.2 p.2)
                  (repeats now p.1.1.1.1 p.1.1.2 p.1.2 p.2)
                  (usage_events d)) as Hmono.
    assert (Ha : agent_by_id p.1.1.1.1 d = Some a1).
    { rewrite checkInfiniteLoops_fold in Ha1.
      by apply (kills_survivor now (loop_kill now)
                  (fun row => row.1.1.1.1.1.1) _ (loop_kill_step now)
                  _ (loopDetectionQuery now d)). }
    destruct (loop_kills_active now p.1.1.1.1 (loopDetectionQuery now d) d a1
                Ha Hs1) as (row & _ & _ & Hres).
    { exists ((p.1.1.1.1, agents.agent_id a1, p.1.1.2, p.1.2, p.2),
              identical_requests
                (p.1.1.1.1, agents.agent_id a1, p.1.1.2, p.1.2, p.2)
                (omap (pattern_of now d) (usage_events d)),
              agents.user_id a1).
      split; [|done].
      pose proof (identical_requests_eq now d a1 p.1.1.1.1 p.1.1.2 p.1.2 p.2
                    (usage_events d) Ha Hs1) as Heq.
      assert (Hm : (length (filter (repeats now' p.1.1.1.1 p.1.1.2 p.1.2 p.2)
                              (usage_events d))
                    <= length (filter (repeats now p.1.1.1.1 p.1.1.2 p.1.2
                                         p.2) (usage_events d)))%nat).
      { apply Hmono. unfold repeats. intros x (? & ? & ?). split; [done|].
        split; [lia|done]. }
      apply loopDetectionQuery_row. split; [|split; [lia|]].
      - apply identical_requests_elem. lia.
      - split; [reflexivity|]. exists a1. by split. }
    rewrite <- checkInfiniteLoops_fold in Hres. rewrite Ha1 in Hres.
    injection Hres as Hres. rewrite Hres in Hs1. done. }
  split; [exact Hq|].
  rewrite (checkInfiniteLoops_fold now' (checkInfiniteLoops now d)).
  by rewrite Hq.
Qed.

(** The two loops of agent 2: the tick at [t0] kills it and writes two
    audit records; the tick 30 seconds later writes none. *)
Lemma later_tick_changes_nothing_witness :
  checkInfiniteLoops (t0 + 30000) (checkInfiniteLoops t0 db_two_loops)
  = checkInfiniteLoops t0 db_two_loops.
Proof.
  apply (later_tick_changes_nothing t0 (t0 + 30000) db_two_loops).
  vm_compute. discriminate.
Defined.

(** ** Requests that are refused *)

(** X27.  A refusal by the kill switch comes after the rows are made:
    under the emergency stop, a valid request for an agent and a
    customer that the user does not have yet, with ids that fit the 255
    characters of their columns, is answered with AGENT_KILLED and
    records nothing, and yet it leaves a new row for the customer and a
    new row for the agent. *)
Theorem refused_request_creates_rows (user : nat) (now : Z) (b : body.t)
  (v : event.t) (w : World) :
  stopped (db w) -> usageEventSchema now b = inr v ->
  agent_by_external (event.agent_id v) user (db w) = None ->
  customer_by_external user (event.customer_id v) (db w) = None ->
  creatable user v (db w) = true ->
  let '(w', r) := record user now b w in
  r = resp_agent_killed
  /\ usage_events (db w') = usage_events (db w)
  /\ agents (db w')
     = agents (db w)
       ++ [new_agent (fresh_id (map agents.id (agents (db w)))) user
             (event.agent_id v)]
  /\ customers (db w')
     = customers (db w)
       ++ [customers.mk (fresh_id (map customers.id (customers (db w)))) user
             (event.customer_id v) (event.customer_id v)]
  /\ redis w' = redis w.
Proof.
  intros Hst Ev Ha Hc Hfit. unfold record.
  destruct (usageEventSchema_valid _ _ _ Ev) as (Hb & Hne & _).
  rewrite Hb, (enforceAgentBudget_unknown _ _ _ _ _ Hne Ha).
  unfold record_handler. rewrite Ev.
  unfold creatable in Hfit. rewrite Ha, Hc in Hfit.
  apply andb_prop in Hfit as [Hf1 Hf2]. cbn in Hf1, Hf2.
  unfold ensureCustomerExists. rewrite Hc, Hf1.
  set (d1 := with_customers _ (db w)).
  assert (Ha' : agent_by_external (event.agent_id v) user d1 = None)
    by exact Ha.
  assert (E2 : ensureAgentExists user (event.agent_id v) d1
               = Some (with_agents
                         (agents d1
                          ++ [new_agent (fresh_id (map agents.id (agents d1)))
                                user (event.agent_id v)]) d1,
                       fresh_id (map agents.id (agents d1)))).
  { unfold ensureAgentExists. by rewrite Ha', Hf2. }
  rewrite E2. unfold record_event.
  rewrite (new_agent_allowed user (event.agent_id v) (event.cost_amount v)
             d1 Ha' _ _ E2).
  unfold checkAgentStatus.
  rewrite is_agent_active_stopped by exact Hst.
  done.
Qed.

Lemma refused_request_creates_rows_witness :
  let '(w', r) :=
    record 1 t0 (example_body "agent-new" (usd 1)) world_stopped in
  r = resp_agent_killed
  /\ length (agents (db w')) = 4%nat /\ length (customers (db w')) = 1%nat.
Proof.
  pose proof (refused_request_creates_rows 1 t0
                (example_body "agent-new" (usd 1))
                (example_event "agent-new" (usd 1) t0) world_stopped) as H.
  destruct (record _ _ _ _) as [w' r].
  destruct H as (H1 & _ & H2 & H3 & _); try reflexivity.
  split; [exact H1|]. by rewrite H2, H3.
Defined.

(** ** The month of an event *)

Lemma record_recorded (user : nat) (now : Z) (b : body.t) (w : World) :
  http_status (record user now b w).2 = 201%nat ->
  exists v, usageEventSchema now b = inr v
    /\ redis (record user now b w).1
       = (incrementAgentSpend now (event.agent_id v) (event.cost_amount v)
            (redis (enforceAgentBudget user now (body.agent_id b)
                      (body.cost_amount b) w).1)).1
    /\ exists event_id customerUuid agentUuid,
         usage_events (db (record user now b w).1)
         = usage_events (db w)
           ++ [usage_row event_id user customerUuid agentUuid now v].
Proof.
  unfold record.
  pose proof (enforceAgentBudget_frame user now (body.agent_id b)
                (body.cost_amount b) w) as (_ & Hu & _).
  destruct (enforceAgentBudget _ _ _ _ _) as [w1 [r0|check]] eqn:Eg;
    cbn [fst snd] in *.
  { intros Hr. by apply enforceAgentBudget_responds in Eg. }
  pose proof (record_handler_effect user now b check w1) as He.
  destruct (record_handler _ _ _ _ _) as [w' r]. cbn [fst snd].
  destruct He as (_ & _ & He). intros Hr.
  destruct (usageEventSchema now b) as [key|v].
  { destruct He as [_ He]. rewrite He in Hr. done. }
  destruct He as [(_ & _ & _ & Hred & id & cu & au & a & Hl & _)|(Hr' & _)];
    [|done].
  exists v. split; [done|]. split; [done|]. exists id, cu, au. congruence.
Qed.

(** X28.  The cache and the ledger count an event in different months
    when the client dates it: a recorded event is added to the cache
    entry of the month in which it is recorded, while the sum that the
    budget check takes from the ledger goes by [event_timestamp].  So an
    event that is dated in another month raises the cached spend of the
    current month by its cost and leaves the ledger sum of the current
    month, of every agent, as it was. *)
Theorem dated_event_counts_in_the_cache_only (user : nat) (now : Z)
  (b : body.t) (v : event.t) (w : World) :
  redis_up (redis w) = true ->
  usageEventSchema now b = inr v ->
  month_of (event.event_timestamp v) <> month_of now ->
  http_status (record user now b w).2 = 201%nat ->
  let w1 := (enforceAgentBudget user now (body.agent_id b)
               (body.cost_amount b) w).1 in
  let w' := (record user now b w).1 in
  getAgentSpend now (event.agent_id v) (redis w')
  = getAgentSpend now (event.agent_id v) (redis w1) + event.cost_amount v
  /\ forall agent_uuid,
       month_spend agent_uuid now (db w') = month_spend agent_uuid now (db w).
Proof.
  intros Hup Ev Hm Hr. cbn zeta.
  destruct (record_recorded user now b w Hr)
    as (v' & Ev' & Hred & id & cu & au & Hl).
  rewrite Ev in Ev'. simplify_eq. split.
  - rewrite Hred. apply getAgentSpend_increment; [|done].
    unfold enforceAgentBudget.
    repeat case_match; cbn [fst]; try done.
    all: match goal with
         | H : currentSpend ?a ?n ?w = _ |- _ =>
           pose proof (currentSpend_up a n w) as Hc; rewrite H in Hc;
           cbn in Hc; cbn; congruence
         end.
  - intros agent_uuid. unfold month_spend. rewrite Hl, filter_app.
    rewrite (filter_cons _ (usage_row _ _ _ _ _ _)).
    rewrite decide_False by (cbn; by intros [_ ?]).
    by rewrite filter_nil, app_nil_r.
Qed.

(** An event of the agent without a limit, dated 40 days ago. *)
Lemma dated_event_counts_in_the_cache_only_witness :
  let b := body.mk (Some "completion") (Some "agent-free")
             (Some "customer-1") (Some "openai") None (Some (usd 5)) None
             None None None None None (Some (t0 - 40 * 86400000)) in
  let w' := (record 1 t0 b world_x).1 in
  getAgentSpend t0 "agent-free" (redis w') = usd 5
  /\ month_spend 2 t0 (db w') = 0.
Proof.
  intros b w'.
  destruct (dated_event_counts_in_the_cache_only 1 t0 b
              (event.mk "completion" "agent-free" "customer-1" "openai" None
                 (usd 5) "USD" None None None None None
                 (t0 - 40 * 86400000)) world_x) as [H1 H2];
    [reflexivity | reflexivity | vm_compute; discriminate | reflexivity |].
  split; [exact H1|exact (H2 2%nat)].
Defined.

(** ** The route of the batches *)

(** X29.  As it is mounted, POST /record-bulk never records: the budget
    middleware in front of it wants [agent_id] at the top level of the
    body and answers 400 MISSING_AGENT_ID without it, and the schema of
    the batch rejects a body that has it.  Whatever the body, the
    answer is not 201 and the ledger is as it was. *)
Theorem bulk_route_never_records (user : nat) (now : Z) (b : bulk_body.t)
  (w : World) :
  let '(w', r) := record_bulk user now b w in
  http_status r <> 201%nat
  /\ usage_events (db w') = usage_events (db w)
  /\ (bulk_body.agent_id b = None -> w' = w /\ r = resp_missing_agent_id).
Proof.
  pose proof (record_bulk_rejects user now b w) as [Hu Hr].
  unfold record_bulk in *.
  destruct (bulk_body.agent_id b) as [aid|] eqn:Ea.
  - destruct (enforceAgentBudget _ _ _ _ _) as [w1 [r0|check]];
      cbn [fst snd] in *.
    + done.
    + by destruct (record_bulk_handler _ _ _ _).
  - cbn. done.
Qed.
